(** * AI Decision Firewall: a shallow embedding of the decision pipeline

    The development follows the Python package [adf]: the text helpers and
    the regular expressions used by the claim parser and the rules engine,
    the analytical checks (confidence alignment, evidence, rules), the risk
    scorer, the policy manager, the verdict ladder, the interceptor with its
    side effects (audit log, metrics, learning memory), and the learning
    memory with its persisted statistics.

    Modelling conventions.
    - Python [float] values are exact rationals ([Q]); the thresholds are
      the decimal literals of [config.py].  Where a result depends on
      rounding (the rates of [get_metrics], the average of [get_stats]) the
      rounding is a parameter of the definition.
    - The writers catch and log a failed write and go on; how each write
      ends is an input of the operation ([Disk.outcome]), and a file that
      is absent or cannot be read is [None].
    - Python [str] values are Rocq strings of 8-bit characters; character
      classes ([\s], [\w], [\d], case folding) are the ASCII ones.
    - A Python [dict] with an open key set ([statistics], [by_verdict],
      [by_action]) is a [gmap string Z]; [d[k] += 1] on a missing key raises
      [KeyError], modelled by [None].
    - Log lines ([logger.info] and friends) are not modelled. *)

From Stdlib Require Import QArith Qminmax Lqa Ascii String.
From stdpp Require Import gmap strings list fin_maps pretty.

Local Open Scope string_scope.

(** ** Text helpers: [str.lower], [str.strip], [str.split] *)

Module Text.

Definition code (c : ascii) : N := N_of_ascii c.

Definition in_range (lo hi : N) (c : ascii) : bool :=
  (N.leb lo (code c) && N.leb (code c) hi)%bool.

(** [Py_UNICODE_ISSPACE] restricted to ASCII: TAB..CR, FS..US and space. *)
Definition is_space (c : ascii) : bool :=
  (in_range 9 13 c || in_range 28 32 c)%bool.

Definition is_digit (c : ascii) : bool := in_range 48 57 c.
Definition is_upper (c : ascii) : bool := in_range 65 90 c.
Definition is_lower (c : ascii) : bool := in_range 97 122 c.

(** [\w]: letters, digits and underscore. *)
Definition is_word (c : ascii) : bool :=
  (is_upper c || is_lower c || is_digit c || N.eqb (code c) 95)%bool.

Definition lower_char (c : ascii) : ascii :=
  if is_upper c then ascii_of_N (code c + 32) else c.

Definition chars (s : string) : list ascii := list_ascii_of_string s.
Definition text (l : list ascii) : string := string_of_list_ascii l.

(** [s.lower()] *)
Definition lower (s : string) : string := text (map lower_char (chars s)).

Fixpoint lstrip (l : list ascii) : list ascii :=
  match l with
  | c :: l' => if is_space c then lstrip l' else l
  | [] => []
  end.

Definition rstrip (l : list ascii) : list ascii := rev (lstrip (rev l)).

(** [s.strip()] *)
Definition strip (s : string) : string := text (rstrip (lstrip (chars s))).

(** Truthiness of a string: [bool(s)]. *)
Definition truthy (s : string) : bool :=
  match s with EmptyString => false | _ => true end.

(** [len(s.split())]: the number of maximal runs of non-space characters.
    [inword] tells whether the previous character belonged to a run. *)
Fixpoint count_tokens (inword : bool) (l : list ascii) : nat :=
  match l with
  | [] => 0
  | c :: l' =>
      if is_space c then count_tokens false l'
      else if inword then count_tokens true l'
      else S (count_tokens true l')
  end.

Definition split_len (s : string) : nat := count_tokens false (chars s).

(** [s[:n]] *)
Definition prefix (n : nat) (s : string) : string := text (take n (chars s)).

(** [", ".join(l)] *)
Fixpoint join (sep : string) (l : list string) : string :=
  match l with
  | [] => ""
  | [x] => x
  | x :: l' => x ++ sep ++ join sep l'
  end.

End Text.

(** ** Regular expressions: the fragment of [re] the package uses

    A backtracking matcher with Python's priorities: alternation tries its
    left branch first and repetition is greedy. *)

Module Re.

Inductive regex : Type :=
| Eps : regex
| Cls : (ascii -> bool) -> regex          (* one character of a class *)
| Cat : regex -> regex -> regex
| Alt : regex -> regex -> regex
| Star : regex -> regex                   (* greedy r* *)
| WordB : regex                           (* \b *)
| Eos : regex.                            (* $ without MULTILINE *)

Definition Plus (r : regex) : regex := Cat r (Star r).

Fixpoint Seq (l : list regex) : regex :=
  match l with
  | [] => Eps
  | [r] => r
  | r :: l' => Cat r (Seq l')
  end.

Fixpoint Any (l : list regex) : regex :=
  match l with
  | [] => Cls (fun _ => false)
  | [r] => r
  | r :: l' => Alt r (Any l')
  end.

Fixpoint Rep (n : nat) (r : regex) : regex :=
  match n with
  | O => Eps
  | S O => r
  | S n' => Cat r (Rep n' r)
  end.

(** Flags: with [ic] (re.IGNORECASE) a literal matches both cases. *)
Definition Chr (ic : bool) (c : ascii) : regex :=
  Cls (fun x =>
         if ic then Ascii.eqb (Text.lower_char x) (Text.lower_char c)
         else Ascii.eqb x c).

Definition Lit (ic : bool) (s : string) : regex :=
  Seq (map (Chr ic) (Text.chars s)).

Definition Words (ic : bool) (l : list string) : regex :=
  Any (map (Lit ic) l).

Definition space : regex := Cls Text.is_space.             (* \s *)
Definition digit : regex := Cls Text.is_digit.             (* \d *)
Definition word : regex := Cls Text.is_word.               (* \w *)
Definition dot : regex :=                                  (* . *)
  Cls (fun x => negb (N.eqb (Text.code x) 10)).
Definition OneOf (s : string) : regex :=                   (* [...] *)
  Cls (fun x => existsb (Ascii.eqb x) (Text.chars s)).
Definition NoneOf (s : string) : regex :=                  (* [^...] *)
  Cls (fun x => negb (existsb (Ascii.eqb x) (Text.chars s))).

Definition wordy (o : option ascii) : bool :=
  match o with Some c => Text.is_word c | None => false end.

(** [rmatch r k prev s]: match [r] at the head of [s], where [prev] is
    the character just before; on success the continuation [k] receives
    the last character seen and the remaining input. *)
Fixpoint rmatch {A : Type} (r : regex)
    (k : option ascii -> list ascii -> option A)
    (prev : option ascii) (s : list ascii) {struct r} : option A :=
  match r with
  | Eps => k prev s
  | Cls p =>
      match s with
      | c :: s' => if p c then k (Some c) s' else None
      | [] => None
      end
  | Cat r1 r2 => rmatch r1 (rmatch r2 k) prev s
  | Alt r1 r2 =>
      match rmatch r1 k prev s with
      | Some a => Some a
      | None => rmatch r2 k prev s
      end
  | Star r1 =>
      (fix loop (n : nat) (prev : option ascii) (s : list ascii)
         {struct n} : option A :=
         match n with
         | O => k prev s
         | S n' =>
             match rmatch r1
                     (fun p' s' =>
                        if Nat.ltb (length s') (length s)
                        then loop n' p' s' else None) prev s with
             | Some a => Some a
             | None => k prev s
             end
         end) (length s) prev s
  | WordB =>
      if xorb (wordy prev) (wordy (head s)) then k prev s else None
  | Eos =>
      match s with
      | [] => k prev s
      | [c] => if N.eqb (Text.code c) 10 then k prev s else None
      | _ => None
      end
  end.

(** Leftmost match: the text before it and the text after it. *)
Fixpoint find (r : regex) (prev : option ascii) (s : list ascii)
    : option (list ascii * list ascii) :=
  match rmatch r (fun _ rest => Some rest) prev s with
  | Some rest => Some ([], rest)
  | None =>
      match s with
      | [] => None
      | c :: s' =>
          match find r (Some c) s' with
          | Some (pre, rest) => Some (c :: pre, rest)
          | None => None
          end
      end
  end.

(** [bool(re.search(r, s))] *)
Definition search (r : regex) (s : string) : bool :=
  match find r None (Text.chars s) with Some _ => true | None => false end.

(** [re.split(r, s)] for a pattern without groups whose matches are never
    empty (the only use in the package): the pieces between successive
    leftmost matches. The fuel bounds the number of matches. *)
Fixpoint split_from (fuel : nat) (r : regex) (prev : option ascii)
    (s : list ascii) : list (list ascii) :=
  match fuel with
  | O => [s]
  | S fuel' =>
      match find r prev s with
      | Some (pre, rest) =>
          if Nat.ltb (length rest) (length s)
          then pre :: split_from fuel' r
                        (last (take (length s - length rest) s)) rest
          else [s]
      | None => [s]
      end
  end.

Definition split (r : regex) (s : string) : list string :=
  map Text.text (split_from (String.length s) r None (Text.chars s)).

End Re.


(** ** Numbers: Python comparisons and [min]/[max] on floats *)

Module Num.

Definition leb (a b : Q) : bool := Qle_bool a b.          (* a <= b *)
Definition ltb (a b : Q) : bool := negb (Qle_bool b a).   (* a < b *)
Definition geb (a b : Q) : bool := Qle_bool b a.          (* a >= b *)
Definition gtb (a b : Q) : bool := negb (Qle_bool a b).   (* a > b *)

(** [min(a, b)] keeps [a] unless [b < a]; [max(a, b)] keeps [a] unless
    [b > a]. *)
Definition min (a b : Q) : Q := if ltb b a then b else a.
Definition max (a b : Q) : Q := if gtb b a then b else a.

(** [len(l)] as a float operand. *)
Definition of_len {A : Type} (l : list A) : Q :=
  inject_Z (Z.of_nat (length l)).

End Num.

(** ** config.py *)

Module Config.

Definition CONFIDENCE_THRESHOLD_EVIDENCE_REQUIRED : Q := 6 # 10.
Definition CONFIDENCE_THRESHOLD_HIGH : Q := 8 # 10.
Definition CONFIDENCE_THRESHOLD_LOW : Q := 3 # 10.

(** [ACTION_IMPACT]: a dictionary literal, in source order. *)
Definition ACTION_IMPACT : list (string * Q) :=
  [ ("answer", 2 # 10); ("email", 5 # 10);
    ("trade", 9 # 10); ("execute_code", 95 # 100) ].

Definition RISK_THRESHOLD_LOW : Q := 3 # 10.
Definition RISK_THRESHOLD_MEDIUM : Q := 6 # 10.
Definition RISK_THRESHOLD_HIGH : Q := 8 # 10.

Definition DEFAULT_ACTION_IMPACT : Q := 5 # 10.

Definition LEARNING_ENABLED : bool := true.


(** Learning parameters read by the policy updater. *)
Definition ADAPTIVE_STRICTNESS : bool := true.
Definition MIN_FALSE_POSITIVES_FOR_RELAX : Q := 10.
Definition MIN_FALSE_NEGATIVES_FOR_STRICT : Q := 5.

End Config.

(** [d.get(k, dflt)] on a dictionary literal. *)
Fixpoint dict_get {V : Type} (d : list (string * V)) (k : string) (dflt : V) : V :=
  match d with
  | [] => dflt
  | (k', v) :: d' => if String.eqb k' k then v else dict_get d' k dflt
  end.

(** [x in l] for a list or set literal of strings. *)
Definition str_in (x : string) (l : list string) : bool :=
  existsb (String.eqb x) l.

(** ** models.py *)

Inductive Verdict : Type :=
| ALLOW | BLOCK | REQUIRE_EVIDENCE | REQUIRE_HUMAN_REVIEW.

Definition Verdict_value (v : Verdict) : string :=
  match v with
  | ALLOW => "ALLOW"
  | BLOCK => "BLOCK"
  | REQUIRE_EVIDENCE => "REQUIRE_EVIDENCE"
  | REQUIRE_HUMAN_REVIEW => "REQUIRE_HUMAN_REVIEW"
  end.

Definition Verdict_eqb (a b : Verdict) : bool :=
  match a, b with
  | ALLOW, ALLOW | BLOCK, BLOCK
  | REQUIRE_EVIDENCE, REQUIRE_EVIDENCE
  | REQUIRE_HUMAN_REVIEW, REQUIRE_HUMAN_REVIEW => true
  | _, _ => false
  end.

(** [IntendedAction]: the values of the enumeration. *)
Definition valid_actions : list string :=
  ["answer"; "email"; "trade"; "execute_code"].

Module FirewallRequest.

Record t : Type := Build {
  ai_output : string;
  confidence : Q;
  intended_action : string;
  sources : option (list string)
}.

(** [validate_action]: reject an action outside the enumeration, store
    the lower-cased token. *)
Definition validate_action (v : string) : option string :=
  if str_in (Text.lower v) valid_actions then Some (Text.lower v) else None.

(** The constructor with its field validators ([ge=0.0], [le=1.0]);
    [None] stands for pydantic's [ValidationError]. *)
Definition make (out : string) (c : Q) (action : string)
    (srcs : option (list string)) : option t :=
  if (Num.geb c 0 && Num.leb c 1)%bool then
    match validate_action action with
    | Some a => Some (Build out c a srcs)
    | None => None
    end
  else None.

(** What every constructed request satisfies. *)
Definition valid (r : t) : Prop :=
  (0 <= confidence r)%Q /\ (confidence r <= 1)%Q /\
  In (intended_action r) valid_actions.

End FirewallRequest.

Module Claim.

Record t : Type := Build {
  text : string;
  is_factual : bool;
  confidence : Q
}.

End Claim.

Module CheckResult.

Record t : Type := Build {
  check_name : string;
  passed : bool;
  reason : string
}.

End CheckResult.

(** The tree built by [VerdictEngine.build_details]. *)
Module Details.

Record t : Type := Build {
  claims : list Claim.t;
  claim_count : nat;
  factual_claim_count : nat;
  risk_score : Q;
  risk_level : string;
  checks : list (string * (bool * string));
  check_results : list CheckResult.t;
  sources_count : nat;
  sources_provided : bool
}.

End Details.

Module FirewallResponse.

Record t : Type := Build {
  verdict : Verdict;
  reason : string;
  risk_score : Q;
  details : Details.t;
  failed_checks : list string;
  explanation : string;
  confidence_alignment : bool;
  applied_policies : list string;
  escalation_reason : option string
}.

End FirewallResponse.

(** ** Formatting: the [:.2f] conversion and [str(int)] *)

Module Fmt.

(** Hundredths of [q], rounded to nearest with ties to even. *)
Definition hundredths (q : Q) : Z :=
  let n := (Qnum q * 100)%Z in
  let d := Z.pos (Qden q) in
  let f := (n / d)%Z in
  let r := (2 * (n mod d))%Z in
  if (r <? d)%Z then f
  else if (d <? r)%Z then (f + 1)%Z
  else if Z.even f then f else (f + 1)%Z.

Definition two_digits (z : Z) : string :=
  if (z <? 10)%Z then "0" ++ pretty z else pretty z.

(** [f"{q:.2f}"] *)
Definition f2 (q : Q) : string :=
  let h := hundredths q in
  let a := Z.abs h in
  (if (h <? 0)%Z then "-" else "") ++
  pretty (a / 100)%Z ++ "." ++ two_digits (a mod 100)%Z.

(** [f"{n}"] for a length or a count. *)
Definition int (n : nat) : string := pretty n.

End Fmt.

(** ** firewall/claim_parser.py *)

Module ClaimParser.

Import Re.

Definition FACTUAL_PATTERNS : list regex :=
  [ Seq [WordB; Words true ["was"; "were"; "is"; "are"; "has"; "have"; "had"];
         Plus space;
         Words true ["founded"; "created"; "established"; "invented";
                     "discovered"; "made"; "built"]];
    Seq [WordB; Words true ["in"; "on"; "at"; "during"]; Plus space;
         Rep 4 digit];
    Seq [WordB; Words true ["founded"; "created"; "established"; "invented";
                            "discovered"];
         Plus space; Words true ["in"; "on"; "at"]];
    Seq [WordB; Words true ["makes"; "produces"; "manufactures"; "sells";
                            "owns"]];
    Seq [WordB; Words true ["according to"; "based on"; "per";
                            "as stated in"]];
    Seq [WordB; Words true ["the"; "a"; "an"]; Plus space; Plus word;
         Plus space; Words true ["is"; "was"; "are"; "were"]] ].

(** [[.!?]+(?:\s+|$)] *)
Definition SENTENCE_DELIMITERS : regex :=
  Cat (Plus (OneOf ".!?")) (Alt (Plus space) Eos).

(** ['|'.join(FACTUAL_PATTERNS)] compiled with [re.IGNORECASE]. *)
Definition factual_regex : regex := Any FACTUAL_PATTERNS.

(** One turn of the loop over the sentences: [None] is [continue]. *)
Definition claim_of (overall_confidence : Q) (sentence : string)
    : option Claim.t :=
  if negb (Text.truthy sentence) then None
  else
    let is_factual := search factual_regex sentence in
    let claim_confidence := overall_confidence in
    let is_factual :=
      if negb is_factual then
        (if search (Plus digit) sentence then true else is_factual)
      else is_factual in
    if Nat.ltb (Text.split_len sentence) 3 then None
    else Some (Claim.Build sentence is_factual claim_confidence).

Definition parse (text : string) (overall_confidence : Q) : list Claim.t :=
  if (negb (Text.truthy text) || negb (Text.truthy (Text.strip text)))%bool
  then []
  else
    let sentences := split SENTENCE_DELIMITERS text in
    let sentences :=
      map Text.strip
          (filter (fun s => Text.truthy (Text.strip s) = true) sentences) in
    omap (claim_of overall_confidence) sentences.

Definition is_factual_claim (text : string) : bool :=
  search factual_regex text.

End ClaimParser.

(** [sum(1 for c in claims if c.is_factual)] *)
Definition factual_count (claims : list Claim.t) : nat :=
  length (filter (fun c => Claim.is_factual c = true) claims).

(** The comprehension shared by the confidence and the evidence checker:
    [[c for c in claims if c.is_factual and c.confidence > threshold]]. *)
Definition high_confidence_factual (threshold : Q) (claims : list Claim.t)
    : list Claim.t :=
  filter (fun c => (Claim.is_factual c
                    && Num.gtb (Claim.confidence c) threshold)%bool = true)
         claims.

(** ** firewall/confidence.py *)

Module ConfidenceChecker.

Definition evidence_threshold : Q :=
  Config.CONFIDENCE_THRESHOLD_EVIDENCE_REQUIRED.
Definition high_threshold : Q := Config.CONFIDENCE_THRESHOLD_HIGH.
Definition low_threshold : Q := Config.CONFIDENCE_THRESHOLD_LOW.

Definition requires_evidence (confidence : Q) : bool :=
  Num.gtb confidence evidence_threshold.

Definition is_high_confidence (confidence : Q) : bool :=
  Num.geb confidence high_threshold.

Definition is_low_confidence (confidence : Q) : bool :=
  Num.ltb confidence low_threshold.

Definition validate_confidence_alignment (overall_confidence : Q)
    (claims : list Claim.t) : bool * string :=
  match claims with
  | [] => (true, "No claims to validate")
  | _ =>
      let hcf := high_confidence_factual evidence_threshold claims in
      if (negb (Nat.eqb (length hcf) 0)
          && Num.gtb overall_confidence evidence_threshold)%bool
      then (false, "High confidence factual claims detected")
      else if (Num.gtb overall_confidence high_threshold
               && Nat.eqb (factual_count claims) 0)%bool
      then (true, "High confidence on non-factual content is acceptable")
      else (true, "Confidence alignment validated")
  end.

Definition calculate_uncertainty (confidence : Q) : Q := (1 - confidence)%Q.

End ConfidenceChecker.

(** ** firewall/evidence.py *)

Module EvidenceChecker.

Definition evidence_threshold : Q :=
  Config.CONFIDENCE_THRESHOLD_EVIDENCE_REQUIRED.

(** [[s for s in sources if s and s.strip()]] *)
Definition valid_sources (sources : list string) : list string :=
  filter (fun s => (Text.truthy s && Text.truthy (Text.strip s))%bool = true)
         sources.

Definition check_evidence (claims : list Claim.t)
    (sources : option (list string)) : bool * string * list string :=
  let sources := match sources with None => [] | Some l => l end in
  let hcf := high_confidence_factual evidence_threshold claims in
  if Nat.eqb (length hcf) 0 then
    (true, "No high-confidence factual claims requiring evidence", [])
  else
    let has_sources := Nat.ltb 0 (length sources) in
    if negb has_sources then
      (false,
       "High confidence factual claims require evidence but no sources provided",
       map Claim.text hcf)
    else
      let valid := valid_sources sources in
      if Nat.eqb (length valid) 0 then
        (false, "Sources provided but all are empty", map Claim.text hcf)
      else
        let min_sources := Nat.max 1 (length hcf / 3) in
        if Nat.ltb (length valid) min_sources then
          (false,
           "Insufficient sources: " ++ Fmt.int (length valid)
             ++ " provided, " ++ Fmt.int min_sources ++ " required for "
             ++ Fmt.int (length hcf) ++ " factual claims",
           map Claim.text hcf)
        else
          (true,
           "Evidence check passed: " ++ Fmt.int (length valid)
             ++ " sources for " ++ Fmt.int (length hcf) ++ " factual claims",
           []).


(** [sum(1 for s in sources if not s or not s.strip())] *)
Definition empty_count (sources : list string) : nat :=
  length (filter (fun s => (negb (Text.truthy s)
                            || negb (Text.truthy (Text.strip s)))%bool = true)
                 sources).

(** [[s for s in sources if len(s.strip()) < 5]] *)
Definition too_short (sources : list string) : list string :=
  filter (fun s => Nat.ltb (String.length (Text.strip s)) 5 = true) sources.

Definition validate_source_quality (sources : list string) : bool * string :=
  match sources with
  | [] => (true, "No sources to validate")
  | _ =>
      if Nat.ltb 0 (empty_count sources) then
        (false, Fmt.int (empty_count sources) ++ " empty source(s) detected")
      else
        match too_short sources with
        | _ :: _ =>
            (false,
             Fmt.int (length (too_short sources))
               ++ " source(s) are too short to be meaningful")
        | [] => (true, "Source quality validated")
        end
  end.

End EvidenceChecker.

(** ** firewall/rules.py *)

Module RulesEngine.

Import Re.

Definition HIGH_IMPACT_ACTIONS : list string := ["trade"; "execute_code"].

Definition HIGH_IMPACT_CONFIDENCE_THRESHOLD : Q := 8 # 10.

(** A double or a single quote: the class of the third unsafe pattern. *)
Definition quote : regex :=
  Cls (fun x => (N.eqb (Text.code x) 34 || N.eqb (Text.code x) 39)%bool).

(** The patterns are searched with [re.IGNORECASE]. *)
Definition unsafe_patterns : list regex :=
  [ Seq [WordB;
         Any [Lit true "delete"; Lit true "drop"; Lit true "truncate";
              Lit true "format";
              Seq [Lit true "rm"; Plus space; Lit true "-rf"]];
         Plus space];
    Seq [WordB; Words true ["sudo"; "admin"; "root"]; Plus space];
    Seq [WordB; Words true ["password"; "secret"; "key"; "token"];
         Star space; Lit true "="; Star space; quote];
    Seq [Lit true "<script"; Star (NoneOf ">"); Lit true ">"];
    Seq [Lit true "eval"; Star space; Lit true "("];
    Seq [Lit true "exec"; Star space; Lit true "("] ].

Definition harmful_patterns : list regex :=
  [ Seq [WordB; Words true ["kill"; "terminate"; "destroy"; "remove"];
         Plus space];
    Seq [WordB; Words true ["transfer"; "send"; "move"]; Plus space;
         Lit true "$"; Plus digit];
    Seq [WordB; Words true ["execute"; "run"; "call"]; Plus space;
         Star dot; WordB; Words true ["dangerous"; "unsafe"; "risky"]] ].

(** [\$\s*\d{6,}], searched without flags. *)
Definition large_amount : regex :=
  Seq [Lit false "$"; Star space; Rep 6 digit; Star digit].

(** [\b(?:system|os|subprocess|shell)\s*\.], with [re.IGNORECASE]. *)
Definition system_ops : regex :=
  Seq [WordB; Words true ["system"; "os"; "subprocess"; "shell"];
       Star space; Lit true "."].

(** In Python the reason of a pattern hit ends with the source text of the
    pattern; [check_rules] only logs it, so that suffix is left out. *)
Definition _check_unsafe_patterns (text : string) : bool * string :=
  if existsb (fun pattern => search pattern text) unsafe_patterns
  then (false, "Unsafe pattern detected")
  else (true, "No unsafe patterns detected").

Definition _check_harmful_actions (text action_type : string)
    : bool * string :=
  if existsb (fun pattern => search pattern text) harmful_patterns
  then (false, "Potentially harmful action detected")
  else if (String.eqb action_type "trade" && search large_amount text)%bool
  then (false, "Large trade amount detected without proper safeguards")
  else if (String.eqb action_type "execute_code"
           && search system_ops text)%bool
  then (false, "System-level operations detected in code execution")
  else (true, "No harmful actions detected").

Definition _check_contradictions (claims : list Claim.t) : bool * string :=
  let factual_claims :=
    map (fun c => Text.lower (Claim.text c))
        (filter (fun c => Claim.is_factual c = true) claims) in
  if (Nat.ltb 1 (length factual_claims)
      && negb (Nat.eqb (length factual_claims)
                       (length (remove_dups factual_claims))))%bool
  then (false, "Duplicate claims detected")
  else (true, "No contradictions detected").

Definition check_rules (claims : list Claim.t)
    (ai_output intended_action : string) : bool * string * list string :=
  let failed_rules : list string := [] in
  let unsafe_check := _check_unsafe_patterns ai_output in
  let failed_rules :=
    if negb (fst unsafe_check) then (failed_rules ++ ["unsafe_patterns"])%list
    else failed_rules in
  let failed_rules :=
    if str_in intended_action ["trade"; "execute_code"] then
      let harmful_check := _check_harmful_actions ai_output intended_action in
      if negb (fst harmful_check) then (failed_rules ++ ["harmful_actions"])%list
      else failed_rules
    else failed_rules in
  let contradiction_check := _check_contradictions claims in
  let failed_rules :=
    if negb (fst contradiction_check) then (failed_rules ++ ["contradictions"])%list
    else failed_rules in
  match failed_rules with
  | _ :: _ =>
      (false, "Rules violated: " ++ Text.join ", " failed_rules, failed_rules)
  | [] => (true, "All rules passed", [])
  end.

Definition requires_human_review_for_high_impact
    (intended_action : string) (confidence : Q) (has_evidence : bool)
    : bool * string :=
  if negb (str_in (Text.lower intended_action) HIGH_IMPACT_ACTIONS) then
    (false, "Not a high-impact action")
  else if (Num.ltb confidence HIGH_IMPACT_CONFIDENCE_THRESHOLD
           || negb has_evidence)%bool then
    (true,
     "High-impact action (" ++ intended_action ++ ") requires human review. "
       ++ "Confidence (" ++ Fmt.f2 confidence ++ ") is below threshold (0.8) "
       ++ "or evidence is missing.")
  else (false, "High-impact action meets confidence and evidence requirements").

End RulesEngine.

(** ** firewall/risk.py *)

Module RiskScorer.

Definition calculate_risk_score (confidence : Q) (intended_action : string)
    (claims : list Claim.t) (has_evidence : bool) : Q :=
  let uncertainty := ConfidenceChecker.calculate_uncertainty confidence in
  let action_impact :=
    dict_get Config.ACTION_IMPACT (Text.lower intended_action)
             Config.DEFAULT_ACTION_IMPACT in
  let evidence_factor : Q :=
    if negb has_evidence then
      let factual_claims :=
        filter (fun c => Claim.is_factual c = true) claims in
      match factual_claims with
      | _ :: _ =>
          let high_conf_factual :=
            filter (fun c => Num.gtb (Claim.confidence c) (6 # 10) = true)
                   factual_claims in
          match high_conf_factual with
          | _ :: _ => (15 # 10)%Q
          | [] => 1%Q
          end
      | [] => 1%Q
      end
    else 1%Q in
  let base_risk := (uncertainty * action_impact * evidence_factor)%Q in
  let claim_factor := (1 + Num.of_len claims * (5 # 100))%Q in
  let claim_factor := Num.min claim_factor (13 # 10) in
  let risk_score := (base_risk * claim_factor)%Q in
  Num.min 1 (Num.max 0 risk_score).

Definition get_risk_level (risk_score : Q) : string :=
  if Num.ltb risk_score (3 # 10) then "low"
  else if Num.ltb risk_score (6 # 10) then "medium"
  else if Num.ltb risk_score (8 # 10) then "high"
  else "critical".

End RiskScorer.

(** ** compliance/policy.py *)

Inductive PolicyMode : Type :=
| GENERAL_AI | FINANCIAL_SERVICES | HEALTHCARE | LEGAL.

Definition PolicyMode_value (m : PolicyMode) : string :=
  match m with
  | GENERAL_AI => "GENERAL_AI"
  | FINANCIAL_SERVICES => "FINANCIAL_SERVICES"
  | HEALTHCARE => "HEALTHCARE"
  | LEGAL => "LEGAL"
  end.

Module PolicyManager.

Record t : Type := Build {
  mode : PolicyMode;
  mandatory_review_actions : list string;
  confidence_threshold_evidence_required : Q;
  risk_threshold_medium : Q
}.

(** [__init__] followed by [_setup_policies]. *)
Definition init (mode : PolicyMode) : t :=
  match mode with
  | GENERAL_AI =>
      Build mode ["trade"; "execute_code"] (6 # 10) (6 # 10)
  | FINANCIAL_SERVICES =>
      Build mode ["trade"; "execute_code"] (7 # 10) (5 # 10)
  | HEALTHCARE =>
      Build mode ["medical"; "execute_code"; "trade"] (8 # 10) (4 # 10)
  | LEGAL =>
      Build mode ["legal"; "execute_code"; "trade"] (8 # 10) (4 # 10)
  end.

Definition requires_mandatory_review (self : t) (intended_action : string)
    : bool * string :=
  let action_lower := Text.lower intended_action in
  if str_in action_lower (mandatory_review_actions self) then
    (true,
     "Governance rule: " ++ intended_action
       ++ " actions require mandatory human review in "
       ++ PolicyMode_value (mode self)
       ++ " policy mode. This requirement cannot be overridden by "
       ++ "high confidence or evidence presence.")
  else (false, "").

End PolicyManager.

(** The module-level instance [_policy_manager] starts in the general mode;
    [set_policy_mode] replaces it by a fresh manager. *)
Definition initial_policy_manager : PolicyManager.t :=
  PolicyManager.init GENERAL_AI.

Definition set_policy_mode (mode : PolicyMode) (_ : PolicyManager.t)
    : PolicyManager.t :=
  PolicyManager.init mode.

(** ** firewall/verdict.py *)

Module VerdictEngine.

Definition risk_low : Q := Config.RISK_THRESHOLD_LOW.
Definition risk_medium : Q := Config.RISK_THRESHOLD_MEDIUM.
Definition risk_high : Q := Config.RISK_THRESHOLD_HIGH.

(** The returned tuple
    [(verdict, reason, explanation, applied_policies, escalation_reason)]. *)
Definition result : Type :=
  (Verdict * string * string * list string * option string)%type.

Definition determine_verdict
    (risk_score : Q) (evidence_passed rules_passed confidence_aligned : bool)
    (failed_checks : list string) (intended_action : string)
    (confidence : Q) (claims : list Claim.t)
    (high_impact_review_required : bool) (high_impact_review_reason : string)
    (governance_review_required : bool) (governance_reason : string)
    : result :=
  let applied_policies : list string := [] in
  let escalation_reason : option string := None in
  let risk := Fmt.f2 risk_score in
  (* Priority 0: governance rules *)
  if governance_review_required then
    (REQUIRE_HUMAN_REVIEW,
     "Governance rule: mandatory human review required",
     "This " ++ intended_action
       ++ " action requires mandatory human review due to governance policy. "
       ++ "This requirement cannot be overridden by high confidence, evidence, or low risk scores. "
       ++ governance_reason,
     (applied_policies ++ ["mandatory_governance_review"])%list,
     Some governance_reason)
  (* Priority 1: safety rules *)
  else if negb rules_passed then
    (BLOCK,
     "Safety rules violated - output contains unsafe patterns or harmful actions",
     "Blocked because the output contains unsafe patterns or harmful actions "
       ++ "that violate safety rules. The " ++ intended_action
       ++ " action cannot proceed.",
     (applied_policies ++ ["safety_rules"])%list,
     escalation_reason)
  (* Priority 2: critical risk on a critical action *)
  else if (Num.geb risk_score risk_high
           && str_in intended_action ["trade"; "execute_code"])%bool then
    (BLOCK,
     "Critical risk score (" ++ risk ++ ") for high-impact action ("
       ++ intended_action ++ ")",
     "Blocked because the risk score (" ++ risk
       ++ ") is critical for a high-impact action (" ++ intended_action
       ++ "). The system cannot proceed without human oversight.",
     (applied_policies ++ ["high_risk_block"])%list,
     escalation_reason)
  (* Priority 3: evidence *)
  else if negb evidence_passed then
    let applied_policies :=
      (applied_policies ++ ["evidence_requirement"])%list in
    let factual_count := Fmt.int (factual_count claims) in
    if Num.geb risk_score risk_medium then
      (BLOCK,
       "High confidence factual claims without evidence and medium+ risk",
       "Blocked because the model expressed " ++ Fmt.f2 confidence
         ++ " confidence in " ++ factual_count
         ++ " factual claim(s) without providing evidence, violating grounding rules. "
         ++ "Additionally, the risk score (" ++ risk
         ++ ") exceeds the medium threshold.",
       applied_policies, escalation_reason)
    else
      (REQUIRE_EVIDENCE,
       "High confidence factual claims require evidence",
       "Requires evidence because the model expressed " ++ Fmt.f2 confidence
         ++ " confidence in " ++ factual_count
         ++ " factual claim(s) without providing supporting sources. "
         ++ "Evidence must be provided before proceeding.",
       applied_policies, escalation_reason)
  (* Priority 4: medium-high risk *)
  else if Num.geb risk_score risk_medium then
    let applied_policies :=
      (applied_policies ++ ["risk_based_review"])%list in
    if str_in intended_action ["trade"; "execute_code"] then
      (REQUIRE_HUMAN_REVIEW,
       "Medium-high risk (" ++ risk ++ ") for high-impact action",
       "Requires human review because the risk score (" ++ risk
         ++ ") is medium-high for a high-impact action (" ++ intended_action
         ++ "). A human must approve before proceeding.",
       applied_policies,
       Some ("Risk score (" ++ risk
               ++ ") is medium-high for high-impact action ("
               ++ intended_action ++ ")"))
    else
      (REQUIRE_HUMAN_REVIEW,
       "Medium-high risk score (" ++ risk ++ ") requires review",
       "Requires human review because the risk score (" ++ risk
         ++ ") exceeds the medium threshold. "
         ++ "A human must review the output before it can proceed.",
       applied_policies,
       Some ("Risk score (" ++ risk ++ ") exceeds medium threshold"))
  (* Priority 5: confidence alignment. The source nests [if not
     evidence_passed] inside [if not confidence_aligned] and falls through
     otherwise; the two tests are one condition here. *)
  else if (negb confidence_aligned && negb evidence_passed)%bool then
    let applied_policies :=
      (applied_policies ++ ["confidence_alignment_check"])%list in
    if Num.geb risk_score risk_medium then
      (REQUIRE_HUMAN_REVIEW,
       "Confidence alignment issues with medium+ risk and no evidence",
       "Requires human review because confidence alignment issues were detected "
         ++ "(confidence " ++ Fmt.f2 confidence
         ++ " does not match claim characteristics) and the risk score ("
         ++ risk ++ ") is medium or higher. Evidence is also missing.",
       applied_policies,
       Some "Confidence alignment issues detected with medium+ risk and no evidence")
    else
      (REQUIRE_EVIDENCE,
       "Confidence alignment issues detected",
       "Requires evidence because confidence alignment issues were detected. "
         ++ "The model's confidence (" ++ Fmt.f2 confidence
         ++ ") does not align with the characteristics of the claims.",
       applied_policies, escalation_reason)
  (* Priority 6: high-impact action policy *)
  else if high_impact_review_required then
    (REQUIRE_HUMAN_REVIEW,
     "High-impact action requires human review",
     "High-impact action requires human review due to insufficient confidence or evidence. "
       ++ high_impact_review_reason,
     (applied_policies ++ ["high_impact_policy"])%list,
     Some high_impact_review_reason)
  (* Default: allow *)
  else if Num.ltb risk_score risk_low then
    (ALLOW,
     "All checks passed, low risk",
     (if (negb confidence_aligned && evidence_passed)%bool then
        "Allowed despite confidence misalignment because supporting evidence was provided. "
          ++ "The risk score (" ++ risk
          ++ ") is low and all critical checks passed."
      else
        "Allowed because all checks passed and the risk score (" ++ risk
          ++ ") is low. "
          ++ "The output meets all safety and grounding requirements."),
     (applied_policies ++ ["low_risk_allow"])%list,
     escalation_reason)
  else
    (ALLOW,
     "All checks passed, acceptable risk (" ++ risk ++ ")",
     (if (negb confidence_aligned && evidence_passed)%bool then
        "Allowed despite confidence misalignment because supporting evidence was provided. "
          ++ "The risk score (" ++ risk ++ ") is acceptable for the "
          ++ intended_action ++ " action."
      else
        "Allowed because all checks passed. The risk score (" ++ risk
          ++ ") is acceptable for the " ++ intended_action ++ " action."),
     (applied_policies ++ ["acceptable_risk_allow"])%list,
     escalation_reason).

Definition _get_risk_level (risk_score : Q) : string :=
  if Num.ltb risk_score risk_low then "low"
  else if Num.ltb risk_score risk_medium then "medium"
  else if Num.ltb risk_score risk_high then "high"
  else "critical".

Definition pass_fail (b : bool) : bool * string :=
  (b, if b then "PASS" else "FAIL").

Definition build_details (claims : list Claim.t) (risk_score : Q)
    (evidence_passed rules_passed confidence_aligned : bool)
    (check_results : list CheckResult.t) (sources : list string)
    : Details.t :=
  {| Details.claims := claims;
     Details.claim_count := length claims;
     Details.factual_claim_count := factual_count claims;
     Details.risk_score := risk_score;
     Details.risk_level := _get_risk_level risk_score;
     Details.checks :=
       [ ("evidence", pass_fail evidence_passed);
         ("rules", pass_fail rules_passed);
         ("confidence_alignment", pass_fail confidence_aligned) ];
     Details.check_results := check_results;
     Details.sources_count := length sources;
     Details.sources_provided := Nat.ltb 0 (length sources) |}.

End VerdictEngine.

(** ** Writes to disk

    The three writers of the repository ([AuditLogger.log_decision],
    [MetricsCounter._save_metrics] and [LearningMemory._save_memory]) wrap
    the write in [try ... except Exception] and only log a failure, so the
    caller goes on whether or not the file was written.  How a write ends is
    decided outside the program: it succeeds ([Written]), it fails before
    the file is touched ([Refused]), or it fails after [open(file, 'w')] has
    truncated the file ([Torn]), which leaves a file that cannot be read. *)

Module Disk.

Inductive outcome : Type :=
| Written
| Refused
| Torn.

(** [open(file, 'w')] followed by [json.dump(content, f)].  A file is
    [None] when it is absent or unreadable: the loaders treat the two
    alike. *)
Definition write {A : Type} (how : outcome) (file : option A) (content : A)
    : option A :=
  match how with
  | Written => Some content
  | Refused => file
  | Torn => None
  end.

(** [open(file, 'a')] followed by [f.write(line)] of one buffered line:
    the line is written whole, or the file stays as it was. *)
Definition append {A : Type} (appended : bool) (file : list A) (line : A)
    : list A :=
  if appended then (file ++ [line])%list else file.

End Disk.

(** ** Float arithmetic

    A float operation returns the double nearest to the exact result;
    [rounding rnd] holds what the properties below use of this: it is
    monotone and leaves 0 and 1, which are doubles, as they are. *)

Definition rounding (rnd : Q -> Q) : Prop :=
  (forall a b : Q, (a <= b)%Q -> (rnd a <= rnd b)%Q) /\
  (rnd 0 == 0)%Q /\ (rnd 1 == 1)%Q.

(** ** audit/logger.py *)

Module AuditRecord.

Record t : Type := Build {
  timestamp : string;
  ai_output_hash : string;
  ai_output_length : nat;
  confidence : Q;
  intended_action : string;
  verdict : string;
  risk_score : Q;
  failed_checks : list string;
  explanation : string;
  confidence_alignment : bool;
  sources_count : nat
}.

End AuditRecord.

Module AuditLogger.

(** The logger owns an append-only file: one record per line. *)
Record t : Type := Build { log_file : list AuditRecord.t }.

Section Env.

(** [config.ENTERPRISE_MODE], read from the environment at import, and
    [hashlib.sha256(...).hexdigest()]. *)
Variable ENTERPRISE_MODE : bool.
Variable sha256_hexdigest : string -> string.

Definition _hash_output (ai_output : string) : string :=
  sha256_hexdigest ai_output.

(** [now] is [datetime.utcnow().isoformat() + "Z"]; the call passes no
    metadata.  [appended] tells whether the append to the file succeeds: a
    failure is caught and logged. *)
Definition log_decision (self : t) (now : string) (appended : bool)
    (request : FirewallRequest.t) (response : FirewallResponse.t) : t :=
  if negb ENTERPRISE_MODE then self
  else
    let audit_record :=
      {| AuditRecord.timestamp := now;
         AuditRecord.ai_output_hash :=
           _hash_output (FirewallRequest.ai_output request);
         AuditRecord.ai_output_length :=
           String.length (FirewallRequest.ai_output request);
         AuditRecord.confidence := FirewallRequest.confidence request;
         AuditRecord.intended_action :=
           FirewallRequest.intended_action request;
         AuditRecord.verdict :=
           Verdict_value (FirewallResponse.verdict response);
         AuditRecord.risk_score := FirewallResponse.risk_score response;
         AuditRecord.failed_checks :=
           FirewallResponse.failed_checks response;
         AuditRecord.explanation := FirewallResponse.explanation response;
         AuditRecord.confidence_alignment :=
           FirewallResponse.confidence_alignment response;
         AuditRecord.sources_count :=
           match FirewallRequest.sources request with
           | Some l => length l
           | None => 0
           end |} in
    Build (Disk.append appended (log_file self) audit_record).

End Env.


(** [limit and len(records) >= limit]: the test that ends the reading loop. *)
Definition limit_reached (limit : option Z) (records : list AuditRecord.t)
    : bool :=
  match limit with
  | Some n => (negb (n =? 0)%Z && (n <=? Z.of_nat (length records))%Z)%bool
  | None => false
  end.

(** The loop of [read_logs] over the lines of the file, each line holding
    one record; [records] is the list built so far. *)
Fixpoint read_from (limit : option Z) (records lines : list AuditRecord.t)
    : list AuditRecord.t :=
  match lines with
  | [] => records
  | line :: rest =>
      let records := (records ++ [line])%list in
      if limit_reached limit records then records
      else read_from limit records rest
  end.

(** An absent file reads as the empty list, like an empty one. *)
Definition read_logs (self : t) (limit : option Z) : list AuditRecord.t :=
  read_from limit [] (log_file self).

(** [counts[k] = counts.get(k, 0) + 1] *)
Definition tally (k : string) (counts : gmap string Z) : gmap string Z :=
  <[k := (default 0 (counts !! k) + 1)%Z]> counts.

(** The dictionary returned by [get_stats]; the minimum and the maximum are
    absent ([None]) when there is no record. *)
Record stats : Type := Stats {
  total_decisions : nat;
  by_verdict : gmap string Z;
  by_action : gmap string Z;
  avg_risk_score : Q;
  min_risk_score : option Q;
  max_risk_score : option Q
}.

(** [min(l)] and [max(l)] on a list whose first element is [x]. *)
Definition least (x : Q) (l : list Q) : Q := fold_left Num.min l x.
Definition greatest (x : Q) (l : list Q) : Q := fold_left Num.max l x.

Section Float.

(** [fsum] is [sum] on a list of floats, whose roundings depend on the
    interpreter (a plain loop, or a compensated sum), and [rnd] the
    rounding of the division. *)
Variable fsum : list Q -> Q.
Variable rnd : Q -> Q.

Definition get_stats (self : t) : stats :=
  let records := read_logs self None in
  match map AuditRecord.risk_score records with
  | [] => Stats 0 ∅ ∅ 0%Q None None
  | x :: l =>
      let verdict_counts :=
        fold_left (fun counts r => tally (AuditRecord.verdict r) counts)
                  records ∅ in
      let action_counts :=
        fold_left (fun counts r => tally (AuditRecord.intended_action r) counts)
                  records ∅ in
      Stats (length records) verdict_counts action_counts
            (rnd (fsum (x :: l) / Num.of_len (x :: l)))%Q
            (Some (least x l)) (Some (greatest x l))
  end.

End Float.

End AuditLogger.


(** ** audit/storage.py *)

(** [l[:k]] for an integer [k]: a negative [k] counts from the end. *)
Definition slice_to {A : Type} (k : Z) (l : list A) : list A :=
  if (0 <=? k)%Z then take (Z.to_nat k) l
  else take (length l - Z.to_nat (- k)) l.

Module AuditStorage.

(** The storage reads the file through a logger of its own. *)
Record t : Type := Build { logger : AuditLogger.t }.

Definition query_by_verdict (self : t) (verdict : string) (limit : Z)
    : list AuditRecord.t :=
  let all_logs := AuditLogger.read_logs (logger self) None in
  let filtered :=
    filter (fun log => AuditRecord.verdict log = verdict) all_logs in
  slice_to limit filtered.


Definition query_high_risk (self : t) (min_risk : Q) (limit : Z)
    : list AuditRecord.t :=
  let all_logs := AuditLogger.read_logs (logger self) None in
  let filtered :=
    filter (fun log => Num.geb (AuditRecord.risk_score log) min_risk = true)
           all_logs in
  slice_to limit filtered.

Definition get_statistics (fsum : list Q -> Q) (rnd : Q -> Q) (self : t)
    : AuditLogger.stats :=
  AuditLogger.get_stats fsum rnd (logger self).

End AuditStorage.

(** ** metrics/counters.py *)

Module MetricsCounter.

(** The metrics document, with the keys [_load_metrics] and [reset]
    write. *)
Record doc : Type := Doc {
  total_requests : Z;
  blocked_requests : Z;
  allowed_requests : Z;
  hallucination_blocks : Z;
  human_reviews : Z;
  evidence_required : Z;
  by_verdict : gmap string Z;
  by_action : gmap string Z;
  last_updated : option string
}.

(** The counter object: the document in memory and the one on disk
    ([None]: no file, or one that cannot be read). *)
Record t : Type := Build {
  metrics_file : option doc;
  metrics : doc
}.

Definition empty_doc : doc := Doc 0 0 0 0 0 0 ∅ ∅ None.

Definition _load_metrics (file : option doc) : doc :=
  match file with
  | None => empty_doc
  | Some d => d
  end.

Definition init (file : option doc) : t := Build file (_load_metrics file).

(** [how] is the way the write ends; the time stamp is set in memory
    before the file is opened. *)
Definition _save_metrics (self : t) (now : string) (how : Disk.outcome) : t :=
  let m := metrics self in
  let m := Doc (total_requests m) (blocked_requests m) (allowed_requests m)
               (hallucination_blocks m) (human_reviews m)
               (evidence_required m) (by_verdict m) (by_action m)
               (Some now) in
  Build (Disk.write how (metrics_file self) m) m.

(** [d[k] = d.get(k, 0) + 1] *)
Definition bump (k : string) (d : gmap string Z) : gmap string Z :=
  <[k := (default 0 (d !! k) + 1)%Z]> d.

Definition record_request (self : t) (now : string) (how : Disk.outcome)
    (verdict : Verdict) (intended_action : string) (is_hallucination : bool)
    : t :=
  let m := metrics self in
  let total := (total_requests m + 1)%Z in
  let verdict_key := Verdict_value verdict in
  let byv := bump verdict_key (by_verdict m) in
  let bya := bump intended_action (by_action m) in
  let m :=
    match verdict with
    | BLOCK =>
        Doc total (blocked_requests m + 1) (allowed_requests m)
            (if is_hallucination then hallucination_blocks m + 1
             else hallucination_blocks m)%Z
            (human_reviews m) (evidence_required m) byv bya (last_updated m)
    | ALLOW =>
        Doc total (blocked_requests m) (allowed_requests m + 1)
            (hallucination_blocks m) (human_reviews m) (evidence_required m)
            byv bya (last_updated m)
    | REQUIRE_HUMAN_REVIEW =>
        Doc total (blocked_requests m) (allowed_requests m)
            (hallucination_blocks m) (human_reviews m + 1)
            (evidence_required m) byv bya (last_updated m)
    | REQUIRE_EVIDENCE =>
        Doc total (blocked_requests m) (allowed_requests m)
            (hallucination_blocks m) (human_reviews m)
            (evidence_required m + 1) byv bya (last_updated m)
    end in
  _save_metrics (Build (metrics_file self) m) now how.


Definition reset (self : t) (now : string) (how : Disk.outcome) : t :=
  _save_metrics (Build (metrics_file self) empty_doc) now how.

Section Float.

(** [rnd] is the rounding of the division. *)
Variable rnd : Q -> Q.

(** [a / b] on two integers: the double nearest to the quotient. *)
Definition ratio (a b : Z) : Q := rnd (inject_Z a / inject_Z b)%Q.

(** [get_metrics] returns the entries of the document followed by the
    derived rates: the document and the dictionary of the rates. *)
Definition get_metrics (self : t) : doc * gmap string Q :=
  let m := metrics self in
  let total := total_requests m in
  if (total =? 0)%Z then
    (m, <["allow_rate" := 0%Q]> (<["block_rate" := 0%Q]> ∅))
  else
    (m,
     <["human_review_rate" :=
         if (0 <? total)%Z then ratio (human_reviews m) total else 0%Q]>
       (<["hallucination_rate" :=
            if (0 <? total)%Z then ratio (hallucination_blocks m) total
            else 0%Q]>
          (<["allow_rate" := ratio (allowed_requests m) total]>
             (<["block_rate" := ratio (blocked_requests m) total]> ∅)))).

End Float.

End MetricsCounter.

(** ** learning/memory.py *)

Module BlockRecord.

Record t : Type := Build {
  timestamp : string;
  ai_output : string;
  confidence : Q;
  intended_action : string;
  verdict : string;
  risk_score : Q;
  failed_checks : list string;
  explanation : string
}.

End BlockRecord.

Module OverrideRecord.

Record t : Type := Build {
  timestamp : string;
  original_verdict : string;
  override_verdict : string;
  reason : string;
  ai_output_preview : option string
}.

End OverrideRecord.

Module LearningMemory.

(** The memory document; [statistics] is a dictionary whose keys the code
    reads by name. *)
Record doc : Type := Doc {
  blocked_decisions : list BlockRecord.t;
  human_overrides : list OverrideRecord.t;
  false_positives : list OverrideRecord.t;
  false_negatives : list OverrideRecord.t;
  statistics : gmap string Z
}.

(** The memory object: the document in memory and the one on disk
    ([None]: no file, or one that cannot be read). *)
Record t : Type := Build {
  memory_file : option doc;
  memory : doc
}.

Definition empty_doc : doc :=
  Doc [] [] [] []
      (<["total_blocks" := 0%Z]>
         (<["total_overrides" := 0%Z]>
            (<["false_positive_count" := 0%Z]>
               (<["false_negative_count" := 0%Z]> ∅)))).

Definition _load_memory (file : option doc) : doc :=
  match file with
  | None => empty_doc
  | Some d => d
  end.

Definition init (file : option doc) : t := Build file (_load_memory file).

(** [how] is the way the write ends. *)
Definition _save_memory (self : t) (how : Disk.outcome) : t :=
  Build (Disk.write how (memory_file self) (memory self)) (memory self).

(** [d[k] += 1]: [None] is the [KeyError] of a missing key. *)
Definition incr (k : string) (d : gmap string Z) : option (gmap string Z) :=
  match d !! k with
  | Some v => Some (<[k := (v + 1)%Z]> d)
  | None => None
  end.

Definition record_blocked_decision (self : t) (now : string)
    (how : Disk.outcome)
    (request : FirewallRequest.t) (response : FirewallResponse.t)
    : option t :=
  if negb Config.LEARNING_ENABLED then Some self
  else
    let record :=
      {| BlockRecord.timestamp := now;
         BlockRecord.ai_output :=
           Text.prefix 200 (FirewallRequest.ai_output request);
         BlockRecord.confidence := FirewallRequest.confidence request;
         BlockRecord.intended_action :=
           FirewallRequest.intended_action request;
         BlockRecord.verdict :=
           Verdict_value (FirewallResponse.verdict response);
         BlockRecord.risk_score := FirewallResponse.risk_score response;
         BlockRecord.failed_checks := FirewallResponse.failed_checks response;
         BlockRecord.explanation := FirewallResponse.explanation response |} in
    let m := memory self in
    stats ← incr "total_blocks" (statistics m);
    Some (_save_memory
            (Build (memory_file self)
                   (Doc (blocked_decisions m ++ [record])%list (human_overrides m)
                        (false_positives m) (false_negatives m) stats))
            how).

Definition record_human_override (self : t) (now : string)
    (how : Disk.outcome)
    (original_verdict override_verdict : Verdict) (reason : string)
    (request : option FirewallRequest.t) : option t :=
  if negb Config.LEARNING_ENABLED then Some self
  else
    let record :=
      {| OverrideRecord.timestamp := now;
         OverrideRecord.original_verdict := Verdict_value original_verdict;
         OverrideRecord.override_verdict := Verdict_value override_verdict;
         OverrideRecord.reason := reason;
         OverrideRecord.ai_output_preview :=
           match request with
           | Some r => Some (Text.prefix 200 (FirewallRequest.ai_output r))
           | None => None
           end |} in
    let m := memory self in
    let overrides := (human_overrides m ++ [record])%list in
    stats ← incr "total_overrides" (statistics m);
    m' ← (if (Verdict_eqb original_verdict BLOCK
              && Verdict_eqb override_verdict ALLOW)%bool then
            stats' ← incr "false_positive_count" stats;
            Some (Doc (blocked_decisions m) overrides
                      (false_positives m ++ [record])%list (false_negatives m)
                      stats')
          else if (Verdict_eqb original_verdict ALLOW
                   && Verdict_eqb override_verdict BLOCK)%bool then
            stats' ← incr "false_negative_count" stats;
            Some (Doc (blocked_decisions m) overrides (false_positives m)
                      (false_negatives m ++ [record])%list stats')
          else
            Some (Doc (blocked_decisions m) overrides (false_positives m)
                      (false_negatives m) stats));
    Some (_save_memory (Build (memory_file self) m') how).

(** [a / b] on two integers. *)
Definition ratio (a b : Z) : Q := (inject_Z a / inject_Z b)%Q.

Definition get_false_positive_rate (self : t) : option Q :=
  total_blocks ← statistics (memory self) !! "total_blocks";
  if (total_blocks =? 0)%Z then Some 0%Q
  else
    false_positives ← statistics (memory self) !! "false_positive_count";
    Some (ratio false_positives total_blocks).

Definition get_false_negative_rate (self : t) : option Q :=
  let total_allows := default 0%Z (statistics (memory self) !! "total_allows") in
  if (total_allows =? 0)%Z then Some 0%Q
  else
    false_negatives ← statistics (memory self) !! "false_negative_count";
    Some (if (0 <? total_allows)%Z then ratio false_negatives total_allows
          else 0%Q).

(** [len(l[-10:])] *)
Definition recent {A : Type} (l : list A) : Z :=
  Z.of_nat (Nat.min 10 (length l)).

(** The returned dictionary: the statistics, then the four derived
    entries, later keys replacing earlier ones. *)
Definition get_statistics (self : t) : option (gmap string Q) :=
  fpr ← get_false_positive_rate self;
  fnr ← get_false_negative_rate self;
  Some (<["recent_overrides" := inject_Z (recent (human_overrides (memory self)))]>
          (<["recent_blocks" := inject_Z (recent (blocked_decisions (memory self)))]>
             (<["false_negative_rate" := fnr]>
                (<["false_positive_rate" := fpr]>
                   (inject_Z <$> statistics (memory self)))))).

End LearningMemory.


(** ** learning/policy_update.py *)

Module PolicyUpdater.

Record t : Type := Build {
  memory : LearningMemory.t;
  base_confidence_threshold : Q;
  base_risk_threshold : Q
}.

Definition init (memory : LearningMemory.t) : t :=
  Build memory Config.CONFIDENCE_THRESHOLD_EVIDENCE_REQUIRED
        Config.RISK_THRESHOLD_MEDIUM.

(** The returned dictionary; [adjustment_reason] is absent when adaptive
    strictness is off. *)
Record thresholds : Type := Thresholds {
  confidence_threshold : Q;
  risk_threshold_medium : Q;
  adjustment_reason : option string
}.

(** [f"{n}"] for a count read from the statistics, an integer. *)
Definition count (n : Q) : string := pretty (Qnum n).

Definition _get_adjustment_reason (false_positives false_negatives : Q)
    : string :=
  if Num.geb false_positives Config.MIN_FALSE_POSITIVES_FOR_RELAX then
    "Relaxing due to " ++ count false_positives ++ " false positives"
  else if Num.geb false_negatives Config.MIN_FALSE_NEGATIVES_FOR_STRICT then
    "Tightening due to " ++ count false_negatives ++ " false negatives"
  else "No adjustment needed".

(** [None] is the [KeyError] of [get_statistics]. *)
Definition get_adaptive_thresholds (self : t) : option thresholds :=
  if negb Config.ADAPTIVE_STRICTNESS then
    Some (Thresholds (base_confidence_threshold self)
                     (base_risk_threshold self) None)
  else
    stats ← LearningMemory.get_statistics (memory self);
    let false_positive_rate := default 0%Q (stats !! "false_positive_rate") in
    let false_negative_rate := default 0%Q (stats !! "false_negative_rate") in
    let false_positives := default 0%Q (stats !! "false_positive_count") in
    let false_negatives := default 0%Q (stats !! "false_negative_count") in
    let relax :=
      (Num.geb false_positives Config.MIN_FALSE_POSITIVES_FOR_RELAX
       && Num.gtb false_positive_rate (2 # 10))%bool in
    let tighten :=
      (Num.geb false_negatives Config.MIN_FALSE_NEGATIVES_FOR_STRICT
       && Num.gtb false_negative_rate (1 # 10))%bool in
    let confidence_threshold := base_confidence_threshold self in
    let confidence_threshold :=
      if relax then Num.min (8 # 10) (confidence_threshold + (5 # 100))
      else confidence_threshold in
    let confidence_threshold :=
      if tighten then Num.max (4 # 10) (confidence_threshold - (5 # 100))
      else confidence_threshold in
    let risk_threshold := base_risk_threshold self in
    let risk_threshold :=
      if relax then Num.min (8 # 10) (risk_threshold + (5 # 100))
      else risk_threshold in
    let risk_threshold :=
      if tighten then Num.max (4 # 10) (risk_threshold - (5 # 100))
      else risk_threshold in
    Some (Thresholds confidence_threshold risk_threshold
            (Some (_get_adjustment_reason false_positives false_negatives))).

End PolicyUpdater.

(** ** firewall/interceptor.py *)

(** What one check takes from outside the program: the three readings of
    [datetime.utcnow()] it can make, and how the three writes it can
    attempt end. *)
Record World : Type := {
  at_audit : string;
  at_metrics : string;
  at_memory : string;
  audit_appended : bool;
  metrics_write : Disk.outcome;
  memory_write : Disk.outcome
}.

Module FirewallInterceptor.

Record t : Type := Build {
  audit_logger : option AuditLogger.t;
  metrics : MetricsCounter.t;
  memory : LearningMemory.t
}.

Section Env.

Variable ENTERPRISE_MODE : bool.
Variable sha256_hexdigest : string -> string.

(** [__init__], given what the three files hold on disk. *)
Definition init (audit_file : list AuditRecord.t)
    (metrics_file : option MetricsCounter.doc)
    (memory_file : option LearningMemory.doc) : t :=
  Build (if ENTERPRISE_MODE then Some (AuditLogger.Build audit_file)
         else None)
        (MetricsCounter.init metrics_file)
        (LearningMemory.init memory_file).

(** [policy_manager] is what [get_policy_manager()] returns during the
    call. [None] is an exception escaping the call. *)
Definition check (self : t) (policy_manager : PolicyManager.t)
    (world : World) (request : FirewallRequest.t)
    : option (FirewallResponse.t * t) :=
  let ai_output := FirewallRequest.ai_output request in
  let confidence := FirewallRequest.confidence request in
  let intended_action := FirewallRequest.intended_action request in
  let sources := FirewallRequest.sources request in
  (* Step 1: parse claims *)
  let claims := ClaimParser.parse ai_output confidence in
  (* Step 2: confidence alignment *)
  let '(confidence_aligned, confidence_reason) :=
    ConfidenceChecker.validate_confidence_alignment confidence claims in
  let confidence_check :=
    CheckResult.Build "confidence_alignment" confidence_aligned
                      confidence_reason in
  (* Step 3: evidence *)
  let '(evidence_passed, evidence_reason, failed_evidence_claims) :=
    EvidenceChecker.check_evidence claims sources in
  let evidence_check :=
    CheckResult.Build "evidence" evidence_passed evidence_reason in
  (* Step 4: rules *)
  let '(rules_passed, rules_reason, failed_rules) :=
    RulesEngine.check_rules claims ai_output intended_action in
  let rules_check := CheckResult.Build "rules" rules_passed rules_reason in
  (* Step 5: risk score *)
  let risk_score :=
    RiskScorer.calculate_risk_score confidence intended_action claims
                                    evidence_passed in
  (* Step 6: governance rules *)
  let '(governance_requires_review, governance_reason) :=
    PolicyManager.requires_mandatory_review policy_manager
                                            intended_action in
  (* Step 7: high-impact action policy *)
  let '(requires_human_review, review_reason) :=
    RulesEngine.requires_human_review_for_high_impact
      intended_action confidence evidence_passed in
  (* Step 8: verdict *)
  let failed_checks : list string := [] in
  let failed_checks :=
    if negb evidence_passed then (failed_checks ++ ["evidence"])%list
    else failed_checks in
  let failed_checks :=
    if negb rules_passed then (failed_checks ++ ["rules"])%list
    else failed_checks in
  let failed_checks :=
    if (negb confidence_aligned && negb evidence_passed)%bool
    then (failed_checks ++ ["confidence_alignment"])%list
    else failed_checks in
  let failed_checks :=
    if requires_human_review
    then (failed_checks ++ ["high_impact_review_required"])%list
    else failed_checks in
  let failed_checks :=
    if governance_requires_review
    then (failed_checks ++ ["governance_mandatory_review"])%list
    else failed_checks in
  let '(verdict, verdict_reason, explanation, applied_policies,
        escalation_reason) :=
    VerdictEngine.determine_verdict
      risk_score evidence_passed rules_passed confidence_aligned
      failed_checks intended_action confidence claims
      requires_human_review review_reason
      governance_requires_review governance_reason in
  let check_results := [confidence_check; evidence_check; rules_check] in
  let details :=
    VerdictEngine.build_details
      claims risk_score evidence_passed rules_passed confidence_aligned
      check_results
      (match sources with Some l => l | None => [] end) in
  let response :=
    {| FirewallResponse.verdict := verdict;
       FirewallResponse.reason := verdict_reason;
       FirewallResponse.risk_score := risk_score;
       FirewallResponse.details := details;
       FirewallResponse.failed_checks := failed_checks;
       FirewallResponse.explanation := explanation;
       FirewallResponse.confidence_alignment := confidence_aligned;
       FirewallResponse.applied_policies := applied_policies;
       FirewallResponse.escalation_reason := escalation_reason |} in
  (* Enterprise mode: audit logging *)
  let audit_logger :=
    match audit_logger self with
    | Some logger =>
        Some (AuditLogger.log_decision ENTERPRISE_MODE sha256_hexdigest
                logger (at_audit world) (audit_appended world) request
                response)
    | None => None
    end in
  (* Record metrics *)
  let is_hallucination :=
    (Verdict_eqb verdict BLOCK && str_in "evidence" failed_checks
     && Num.gtb confidence (7 # 10))%bool in
  let metrics :=
    MetricsCounter.record_request (metrics self) (at_metrics world)
      (metrics_write world) verdict intended_action is_hallucination in
  (* Record blocked decisions for learning *)
  memory ←
    (if Verdict_eqb verdict BLOCK then
       LearningMemory.record_blocked_decision (memory self)
         (at_memory world) (memory_write world) request response
     else Some (memory self));
  (* Enterprise mode: force human review for high-risk decisions *)
  let response :=
    if (ENTERPRISE_MODE && Num.geb risk_score (7 # 10)
        && Verdict_eqb verdict ALLOW)%bool then
      {| FirewallResponse.verdict := REQUIRE_HUMAN_REVIEW;
         FirewallResponse.reason :=
           "Enterprise mode: High-risk decision requires human review";
         FirewallResponse.risk_score :=
           FirewallResponse.risk_score response;
         FirewallResponse.details := FirewallResponse.details response;
         FirewallResponse.failed_checks :=
           FirewallResponse.failed_checks response;
         FirewallResponse.explanation :=
           "Enterprise mode requires human review for high-risk decisions "
             ++ "(risk score: " ++ Fmt.f2 risk_score
             ++ "). Original verdict was ALLOW.";
         FirewallResponse.confidence_alignment :=
           FirewallResponse.confidence_alignment response;
         FirewallResponse.applied_policies :=
           FirewallResponse.applied_policies response;
         FirewallResponse.escalation_reason :=
           FirewallResponse.escalation_reason response |}
    else response in
  Some (response, Build audit_logger metrics memory).

End Env.

End FirewallInterceptor.


(** ** sdk/client.py *)

(** What a call of the client ends with: a value, the [ValidationError] of
    the request constructor, or the [KeyError] of the learning memory. *)
Inductive outcome (A : Type) : Type :=
| Returned : A -> outcome A
| ValidationError : outcome A
| KeyError : outcome A.

Arguments Returned {A} _.
Arguments ValidationError {A}.
Arguments KeyError {A}.

Module FirewallClient.

Record t : Type := Build { interceptor : FirewallInterceptor.t }.

Section Env.

Variable ENTERPRISE_MODE : bool.
Variable sha256_hexdigest : string -> string.

(** [sources or []] *)
Definition or_empty (sources : option (list string)) : list string :=
  match sources with
  | Some l => l
  | None => []
  end.

Definition check (self : t) (policy_manager : PolicyManager.t) (world : World)
    (ai_output : string) (confidence : Q) (intended_action : string)
    (sources : option (list string)) : outcome (FirewallResponse.t * t) :=
  match FirewallRequest.make ai_output confidence intended_action
          (Some (or_empty sources)) with
  | None => ValidationError
  | Some request =>
      match FirewallInterceptor.check ENTERPRISE_MODE sha256_hexdigest
              (interceptor self) policy_manager world request with
      | Some (response, itc) => Returned (response, Build itc)
      | None => KeyError
      end
  end.

Definition is_allowed (self : t) (policy_manager : PolicyManager.t)
    (world : World) (ai_output : string) (confidence : Q)
    (intended_action : string) (sources : option (list string))
    : outcome (bool * t) :=
  match check self policy_manager world ai_output confidence intended_action
              sources with
  | Returned (response, self') =>
      Returned (Verdict_eqb (FirewallResponse.verdict response) ALLOW, self')
  | ValidationError => ValidationError
  | KeyError => KeyError
  end.

End Env.

End FirewallClient.

(** ** The signals of one check, by name

    The values [check] computes on its way to the verdict, as functions of
    the request (and of the policy manager in force); [check_unfold] below
    proves that [check] is made of exactly these. *)

Module Signals.

Import FirewallRequest.

Definition claims (r : FirewallRequest.t) : list Claim.t :=
  ClaimParser.parse (ai_output r) (confidence r).

Definition confidence_aligned (r : FirewallRequest.t) : bool :=
  fst (ConfidenceChecker.validate_confidence_alignment
         (confidence r) (claims r)).

Definition evidence_passed (r : FirewallRequest.t) : bool :=
  fst (fst (EvidenceChecker.check_evidence (claims r) (sources r))).

Definition rules_passed (r : FirewallRequest.t) : bool :=
  fst (fst (RulesEngine.check_rules (claims r) (ai_output r)
                                    (intended_action r))).

Definition risk_score (r : FirewallRequest.t) : Q :=
  RiskScorer.calculate_risk_score (confidence r) (intended_action r)
                                  (claims r) (evidence_passed r).

Definition governance (pm : PolicyManager.t) (r : FirewallRequest.t)
    : bool * string :=
  PolicyManager.requires_mandatory_review pm (intended_action r).

Definition high_impact (r : FirewallRequest.t) : bool * string :=
  RulesEngine.requires_human_review_for_high_impact
    (intended_action r) (confidence r) (evidence_passed r).

Definition failed_checks (pm : PolicyManager.t) (r : FirewallRequest.t)
    : list string :=
  ((if negb (evidence_passed r) then ["evidence"] else [])
     ++ (if negb (rules_passed r) then ["rules"] else [])
     ++ (if (negb (confidence_aligned r) && negb (evidence_passed r))%bool
         then ["confidence_alignment"] else [])
     ++ (if fst (high_impact r) then ["high_impact_review_required"] else [])
     ++ (if fst (governance pm r) then ["governance_mandatory_review"]
         else []))%list.

Definition verdict_tuple (pm : PolicyManager.t) (r : FirewallRequest.t)
    : VerdictEngine.result :=
  VerdictEngine.determine_verdict
    (risk_score r) (evidence_passed r) (rules_passed r)
    (confidence_aligned r) (failed_checks pm r) (intended_action r)
    (confidence r) (claims r)
    (fst (high_impact r)) (snd (high_impact r))
    (fst (governance pm r)) (snd (governance pm r)).

Definition verdict (pm : PolicyManager.t) (r : FirewallRequest.t) : Verdict :=
  let '(v, _, _, _, _) := verdict_tuple pm r in v.

Definition applied_policies (pm : PolicyManager.t) (r : FirewallRequest.t)
    : list string :=
  let '(_, _, _, p, _) := verdict_tuple pm r in p.

(** The response object as built before the side effects run. *)
Definition response (pm : PolicyManager.t) (r : FirewallRequest.t)
    : FirewallResponse.t :=
  let '(v, reason, explanation, policies, escalation) := verdict_tuple pm r in
  {| FirewallResponse.verdict := v;
     FirewallResponse.reason := reason;
     FirewallResponse.risk_score := risk_score r;
     FirewallResponse.details :=
       VerdictEngine.build_details
         (claims r) (risk_score r) (evidence_passed r) (rules_passed r)
         (confidence_aligned r)
         [ CheckResult.Build "confidence_alignment" (confidence_aligned r)
             (snd (ConfidenceChecker.validate_confidence_alignment
                     (confidence r) (claims r)));
           CheckResult.Build "evidence" (evidence_passed r)
             (snd (fst (EvidenceChecker.check_evidence
                          (claims r) (sources r))));
           CheckResult.Build "rules" (rules_passed r)
             (snd (fst (RulesEngine.check_rules
                          (claims r) (ai_output r) (intended_action r)))) ]
         (match sources r with Some l => l | None => [] end);
     FirewallResponse.failed_checks := failed_checks pm r;
     FirewallResponse.explanation := explanation;
     FirewallResponse.confidence_alignment := confidence_aligned r;
     FirewallResponse.applied_policies := policies;
     FirewallResponse.escalation_reason := escalation |}.

(** The metrics flag [is_hallucination]. *)
Definition is_hallucination (pm : PolicyManager.t) (r : FirewallRequest.t)
    : bool :=
  (Verdict_eqb (verdict pm r) BLOCK && str_in "evidence" (failed_checks pm r)
   && Num.gtb (confidence r) (7 # 10))%bool.

(** The overlay of the enterprise mode, the last step of [check]. *)
Definition overlay (em : bool) (pm : PolicyManager.t) (r : FirewallRequest.t)
    : FirewallResponse.t :=
  if (em && Num.geb (risk_score r) (7 # 10)
      && Verdict_eqb (verdict pm r) ALLOW)%bool then
    {| FirewallResponse.verdict := REQUIRE_HUMAN_REVIEW;
       FirewallResponse.reason :=
         "Enterprise mode: High-risk decision requires human review";
       FirewallResponse.risk_score :=
         FirewallResponse.risk_score (response pm r);
       FirewallResponse.details := FirewallResponse.details (response pm r);
       FirewallResponse.failed_checks :=
         FirewallResponse.failed_checks (response pm r);
       FirewallResponse.explanation :=
         "Enterprise mode requires human review for high-risk decisions "
           ++ "(risk score: " ++ Fmt.f2 (risk_score r)
           ++ "). Original verdict was ALLOW.";
       FirewallResponse.confidence_alignment :=
         FirewallResponse.confidence_alignment (response pm r);
       FirewallResponse.applied_policies :=
         FirewallResponse.applied_policies (response pm r);
       FirewallResponse.escalation_reason :=
         FirewallResponse.escalation_reason (response pm r) |}
  else response pm r.

End Signals.

(** The learning memory can count a block: its statistics hold the
    [total_blocks] key, as every document the class creates does. *)
Definition memory_ready (lm : LearningMemory.t) : Prop :=
  is_Some (LearningMemory.statistics (LearningMemory.memory lm) !! "total_blocks").

(** ** The states a learning memory can reach

    A memory object starts from an absent file, or from a file some memory
    object has left (a restart, or a second object on the same path; the
    file written, untouched or torn); it then evolves by the two recording
    operations, whose writes end in any way. *)

Inductive memory_reachable : LearningMemory.t -> Prop :=
| reach_fresh :
    memory_reachable (LearningMemory.init None)
| reach_load (writer : LearningMemory.t) :
    memory_reachable writer ->
    memory_reachable (LearningMemory.init (LearningMemory.memory_file writer))
| reach_block (lm lm' : LearningMemory.t) now how request response :
    memory_reachable lm ->
    LearningMemory.record_blocked_decision lm now how request response
      = Some lm' ->
    memory_reachable lm'
| reach_override (lm lm' : LearningMemory.t) now how original override reason
    request :
    memory_reachable lm ->
    LearningMemory.record_human_override lm now how original override reason
      request = Some lm' ->
    memory_reachable lm'.

(** ** The states a metrics counter can reach

    A counter starts from an absent file or from a file some counter has
    left (written, untouched or torn), and evolves by recording requests and
    by resets, whose writes end in any way. *)

Inductive metrics_reachable : MetricsCounter.t -> Prop :=
| metrics_fresh :
    metrics_reachable (MetricsCounter.init None)
| metrics_load (writer : MetricsCounter.t) :
    metrics_reachable writer ->
    metrics_reachable (MetricsCounter.init (MetricsCounter.metrics_file writer))
| metrics_record (mc : MetricsCounter.t) now how verdict action hallucination :
    metrics_reachable mc ->
    metrics_reachable
      (MetricsCounter.record_request mc now how verdict action hallucination)
| metrics_reset (mc : MetricsCounter.t) now how :
    metrics_reachable mc ->
    metrics_reachable (MetricsCounter.reset mc now how).

(** The counters of a metrics document add up, and the per-verdict map
    repeats the four verdict counters. *)
Definition metrics_consistent (d : MetricsCounter.doc) : Prop :=
  let seen v := default 0%Z (MetricsCounter.by_verdict d !! Verdict_value v) in
  (MetricsCounter.total_requests d
   = MetricsCounter.blocked_requests d + MetricsCounter.allowed_requests d
     + MetricsCounter.human_reviews d + MetricsCounter.evidence_required d)%Z /\
  (0 <= MetricsCounter.hallucination_blocks d
   <= MetricsCounter.blocked_requests d)%Z /\
  (0 <= MetricsCounter.allowed_requests d)%Z /\
  (0 <= MetricsCounter.human_reviews d)%Z /\
  (0 <= MetricsCounter.evidence_required d)%Z /\
  seen BLOCK = MetricsCounter.blocked_requests d /\
  seen ALLOW = MetricsCounter.allowed_requests d /\
  seen REQUIRE_HUMAN_REVIEW = MetricsCounter.human_reviews d /\
  seen REQUIRE_EVIDENCE = MetricsCounter.evidence_required d.

(** The counters of a learning memory repeat the lengths of its lists. *)
Definition memory_counts (d : LearningMemory.doc) : Prop :=
  LearningMemory.statistics d !! "total_blocks"
  = Some (Z.of_nat (length (LearningMemory.blocked_decisions d))) /\
  LearningMemory.statistics d !! "total_overrides"
  = Some (Z.of_nat (length (LearningMemory.human_overrides d))) /\
  LearningMemory.statistics d !! "false_positive_count"
  = Some (Z.of_nat (length (LearningMemory.false_positives d))) /\
  LearningMemory.statistics d !! "false_negative_count"
  = Some (Z.of_nat (length (LearningMemory.false_negatives d))).

(** ** The audit logs the interceptor can write

    An audit file is empty at first and grows by the checks of the
    interceptors opened on it, under any policy and for any request. *)

Inductive audit_written (em : bool) (sha : string -> string)
    : list AuditRecord.t -> Prop :=
| audit_empty : audit_written em sha []
| audit_check (log : list AuditRecord.t) itc pm world req resp itc' logger' :
    audit_written em sha log ->
    FirewallInterceptor.audit_logger itc = Some (AuditLogger.Build log) ->
    FirewallInterceptor.check em sha itc pm world req = Some (resp, itc') ->
    FirewallInterceptor.audit_logger itc' = Some logger' ->
    audit_written em sha (AuditLogger.log_file logger').

(** The counters repeat the lengths of the lists, and the false positives
    and false negatives together are at most the overrides. *)
Definition memory_tallied (d : LearningMemory.doc) : Prop :=
  memory_counts d /\
  length (LearningMemory.false_positives d)
  + length (LearningMemory.false_negatives d)
  <= length (LearningMemory.human_overrides d).

(** What every record written by [check] satisfies: a risk score in [0,1],
    one of the four verdicts, ALLOW only below the medium threshold, and
    the digest and the length of some output. *)
Definition audit_record_ok (sha : string -> string) (r : AuditRecord.t) : Prop :=
  (0 <= AuditRecord.risk_score r <= 1)%Q /\
  (exists v, AuditRecord.verdict r = Verdict_value v /\
             (v = ALLOW -> (AuditRecord.risk_score r < 6 # 10)%Q)) /\
  (exists output, AuditRecord.ai_output_hash r = sha output /\
                  AuditRecord.ai_output_length r = String.length output).

(** A learning memory after [n] overrides of ALLOW by BLOCK. *)
Definition missed_blocks (n : nat) : LearningMemory.t :=
  Nat.iter n
    (fun lm =>
       default lm
         (LearningMemory.record_human_override
            lm "2024-01-01T00:00:00Z" Disk.Written ALLOW BLOCK
            "harmful answer was allowed" None))
    (LearningMemory.init None).


(** ** The wording of the specification, for comparison with the code *)

Module Spec.

(** "answer -> 0.2, email -> 0.5, trade -> 0.9, execute_code -> 0.95 and
    any other action to 0.5" *)
Definition impact (action : string) : Q :=
  if String.eqb action "answer" then 2 # 10
  else if String.eqb action "email" then 5 # 10
  else if String.eqb action "trade" then 9 # 10
  else if String.eqb action "execute_code" then 95 # 100
  else 5 # 10.

(** "1.5 exactly when evidence is absent and some factual claim has
    confidence > 0.6, else 1.0" *)
Definition evidence_factor (has_evidence : bool) (claims : list Claim.t) : Q :=
  if (negb has_evidence
      && existsb (fun c => (Claim.is_factual c
                            && if Qlt_le_dec (6 # 10) (Claim.confidence c)
                               then true else false)%bool) claims)%bool
  then 15 # 10 else 1.

(** "min(1.3, 1 + 0.05 |claims|)" *)
Definition claim_factor (claims : list Claim.t) : Q :=
  Qmin (13 # 10) (1 + (5 # 100) * inject_Z (Z.of_nat (length claims))).

(** "the clamp to [0,1]" *)
Definition clamp01 (x : Q) : Q :=
  if Qlt_le_dec x 0 then 0 else if Qlt_le_dec 1 x then 1 else x.

(** The risk formula, for a given reading [imp] of the impact map. *)
Definition risk_with (imp : Q) (c : Q) (claims : list Claim.t)
    (has_evidence : bool) : Q :=
  clamp01 ((1 - c) * imp * evidence_factor has_evidence claims
           * claim_factor claims).

(** The formula with the impact map applied to the action as given. *)
Definition risk (c : Q) (action : string) (claims : list Claim.t)
    (has_evidence : bool) : Q :=
  risk_with (impact action) c claims has_evidence.

(** "F = {c in claims : c.is_factual and c.confidence > 0.6}" *)
Definition F (claims : list Claim.t) : list Claim.t :=
  List.filter (fun c => (Claim.is_factual c
                         && if Qlt_le_dec (6 # 10) (Claim.confidence c)
                            then true else false)%bool) claims.

(** "the sources whose trimmed text is non-empty" *)
Definition V (sources : list string) : list string :=
  List.filter (fun s => negb (String.eqb (Text.strip s) "")) sources.

(** "the number of sources ... is at least max(1, floor(|F|/3))" *)
Definition enough_sources (claims : list Claim.t) (sources : list string)
    : Prop :=
  Nat.max 1 (length (F claims) / 3) <= length (V sources).

End Spec.

(** ** The shape of the statistics the learning memory keeps

    The counters the class initialises are present, and there is no
    [total_allows] entry. *)

Definition stats_shape (d : LearningMemory.doc) : Prop :=
  LearningMemory.statistics d !! "total_allows" = None /\
  is_Some (LearningMemory.statistics d !! "total_blocks") /\
  is_Some (LearningMemory.statistics d !! "total_overrides") /\
  is_Some (LearningMemory.statistics d !! "false_positive_count") /\
  is_Some (LearningMemory.statistics d !! "false_negative_count").

Definition memory_shape (lm : LearningMemory.t) : Prop :=
  stats_shape (LearningMemory.memory lm) /\
  forall d, LearningMemory.memory_file lm = Some d -> stats_shape d.

(** ** Sample inputs *)

Module Samples.

(** Three readings of the time, and writes that all succeed. *)
Definition world : World :=
  {| at_audit := "2024-01-01T00:00:00Z";
     at_metrics := "2024-01-01T00:00:01Z";
     at_memory := "2024-01-01T00:00:02Z";
     audit_appended := true;
     metrics_write := Disk.Written;
     memory_write := Disk.Written |}.

(** The same readings, with writes that all fail: the append and the
    metrics write are refused, the memory write is torn. *)
Definition failing_disk : World :=
  {| at_audit := "2024-01-01T00:00:00Z";
     at_metrics := "2024-01-01T00:00:01Z";
     at_memory := "2024-01-01T00:00:02Z";
     audit_appended := false;
     metrics_write := Disk.Refused;
     memory_write := Disk.Torn |}.

(** A stand-in for the digest: the properties do not depend on it. *)
Definition digest (s : string) : string := s.

(** A freshly started interceptor, no file on disk. *)
Definition fresh (em : bool) : FirewallInterceptor.t :=
  FirewallInterceptor.init em [] None None.

Definition trade_request : FirewallRequest.t :=
  FirewallRequest.Build
    "Execute trade: BUY 10000 shares of AAPL. Market analysis suggests strong growth potential."
    (95 # 100) "trade" (Some ["https://financial-analysis.com/report"]).

Definition unsafe_request : FirewallRequest.t :=
  FirewallRequest.Build "Please run sudo rm -rf / on the build server now"
    (5 # 10) "answer" (Some []).

Definition grounded_request : FirewallRequest.t :=
  FirewallRequest.Build
    "Python was created by Guido van Rossum and first released in 1991. It is an interpreted, high-level programming language."
    (95 # 100) "answer"
    (Some ["https://www.python.org/about/";
           "https://en.wikipedia.org/wiki/Python_(programming_language)";
           "https://docs.python.org/3/tutorial/introduction.html"]).

(** Scenario S4, the first test of [test_example.py]. *)
Definition apple_request : FirewallRequest.t :=
  FirewallRequest.Build "Apple was founded in 1976 and makes the iPhone"
    (9 # 10) "answer" (Some []).

Definition apple_claim : Claim.t :=
  Claim.Build "Apple was founded in 1976 and makes the iPhone" true (9 # 10).

(** A fresh learning memory after one override of ALLOW by BLOCK. *)
Definition missed_block : LearningMemory.t :=
  default (LearningMemory.init None)
    (LearningMemory.record_human_override
       (LearningMemory.init None) "2024-01-01T00:00:00Z" Disk.Written ALLOW
       BLOCK "harmful answer was allowed" None).

End Samples.

(** * Properties *)

(** ** Comparisons *)

Lemma geb_true (a b : Q) : Num.geb a b = true <-> (b <= a)%Q.
Proof. unfold Num.geb. apply Qle_bool_iff. Qed.

Lemma geb_false (a b : Q) : Num.geb a b = false <-> (a < b)%Q.
Proof.
  unfold Num.geb. split; intros H.
  - apply Qnot_le_lt. intros Hle. apply Qle_bool_iff in Hle. congruence.
  - destruct (Qle_bool b a) eqn:E; [|reflexivity].
    apply Qle_bool_iff in E. exfalso. exact (Qlt_not_le _ _ H E).
Qed.

Lemma Verdict_eqb_eq (a b : Verdict) : Verdict_eqb a b = true <-> a = b.
Proof. destruct a, b; simpl; split; intros; congruence. Qed.

Lemma str_in_In (x : string) (l : list string) :
  str_in x l = true <-> In x l.
Proof.
  unfold str_in. rewrite existsb_exists. split.
  - intros (y & Hy & E). apply String.eqb_eq in E. subst y. exact Hy.
  - intros H. exists x. split; [exact H | apply String.eqb_refl].
Qed.

(** ** Requests *)

(** Every request the constructor accepts is valid. *)
Lemma make_valid out c action srcs (r : FirewallRequest.t) :
  FirewallRequest.make out c action srcs = Some r -> FirewallRequest.valid r.
Proof.
  unfold FirewallRequest.make, FirewallRequest.validate_action.
  destruct (Num.geb c 0 && Num.leb c 1)%bool eqn:Ec; [|discriminate].
  destruct (str_in (Text.lower action) valid_actions) eqn:Ea; [|discriminate].
  intros [= <-]. apply andb_true_iff in Ec as [E0 E1].
  unfold FirewallRequest.valid.
  cbn [FirewallRequest.confidence FirewallRequest.intended_action].
  split; [apply geb_true; exact E0|].
  split; [apply Qle_bool_iff; exact E1 | apply str_in_In; exact Ea].
Qed.

(** ** The interceptor in terms of the signals *)

Lemma check_unfold em sha (itc : FirewallInterceptor.t) pm world req :
  FirewallInterceptor.check em sha itc pm world req =
  (mem ← (if Verdict_eqb (Signals.verdict pm req) BLOCK then
            LearningMemory.record_blocked_decision
              (FirewallInterceptor.memory itc) (at_memory world)
              (memory_write world) req (Signals.response pm req)
          else Some (FirewallInterceptor.memory itc));
   Some (Signals.overlay em pm req,
         FirewallInterceptor.Build
           (match FirewallInterceptor.audit_logger itc with
            | Some logger =>
                Some (AuditLogger.log_decision em sha logger (at_audit world)
                        (audit_appended world) req (Signals.response pm req))
            | None => None
            end)
           (MetricsCounter.record_request
              (FirewallInterceptor.metrics itc) (at_metrics world)
              (metrics_write world)
              (Signals.verdict pm req)
              (FirewallRequest.intended_action req)
              (Signals.is_hallucination pm req))
           mem)).
Proof.
  unfold FirewallInterceptor.check, Signals.overlay, Signals.is_hallucination,
    Signals.response,
    Signals.verdict, Signals.verdict_tuple, Signals.failed_checks,
    Signals.governance, Signals.high_impact, Signals.risk_score,
    Signals.rules_passed, Signals.evidence_passed, Signals.confidence_aligned,
    Signals.claims.
  destruct (ConfidenceChecker.validate_confidence_alignment _ _) as [ca car].
  destruct (EvidenceChecker.check_evidence _ _) as [[ep epr] fec].
  destruct (RulesEngine.check_rules _ _ _) as [[rp rpr] fr].
  destruct (PolicyManager.requires_mandatory_review _ _) as [gv gvr].
  cbn [fst snd].
  destruct (RulesEngine.requires_human_review_for_high_impact _ _ _) as [hi hir].
  cbn [fst snd].
  replace ((if negb ep then [ "evidence" ] else [])
             ++ (if negb rp then [ "rules" ] else [])
             ++ (if (negb ca && negb ep)%bool then [ "confidence_alignment" ] else [])
             ++ (if hi then [ "high_impact_review_required" ] else [])
             ++ (if gv then [ "governance_mandatory_review" ] else []))%list
    with (let fc : list string := [] in
          let fc := if negb ep then (fc ++ ["evidence"])%list else fc in
          let fc := if negb rp then (fc ++ ["rules"])%list else fc in
          let fc := if (negb ca && negb ep)%bool
                    then (fc ++ ["confidence_alignment"])%list else fc in
          let fc := if hi then (fc ++ ["high_impact_review_required"])%list
                    else fc in
          if gv then (fc ++ ["governance_mandatory_review"])%list else fc)
    by (destruct ep, rp, ca, hi, gv; reflexivity).
  cbv zeta.
  destruct (VerdictEngine.determine_verdict _ _ _ _ _ _ _ _ _ _ _ _)
    as [[[[v vr] ex] ap] er].
  reflexivity.
Qed.

(** ** The verdict ladder *)

(** Case analysis on every test of the ladder that is still undecided. *)
Ltac ladder :=
  repeat match goal with
         | |- context [if ?b then _ else _] =>
             let E := fresh "E" in destruct b eqn:E
         end;
  cbv beta iota zeta.

Lemma risk_below_medium_not_high (r : Q) :
  Num.geb r (6 # 10) = false -> Num.geb r (7 # 10) = false.
Proof.
  rewrite !geb_false. intros H. eapply Qlt_trans; [exact H|].
  reflexivity.
Qed.

Lemma verdict_governance pm req :
  fst (Signals.governance pm req) = true ->
  Signals.verdict pm req = REQUIRE_HUMAN_REVIEW /\
  Signals.applied_policies pm req = ["mandatory_governance_review"].
Proof.
  intros H. unfold Signals.verdict, Signals.applied_policies,
    Signals.verdict_tuple, VerdictEngine.determine_verdict.
  rewrite H. split; reflexivity.
Qed.

Lemma verdict_safety pm req :
  fst (Signals.governance pm req) = false ->
  Signals.rules_passed req = false ->
  Signals.verdict pm req = BLOCK /\
  Signals.applied_policies pm req = ["safety_rules"].
Proof.
  intros Hg Hr. unfold Signals.verdict, Signals.applied_policies,
    Signals.verdict_tuple, VerdictEngine.determine_verdict.
  rewrite Hg, Hr. split; reflexivity.
Qed.

Lemma verdict_allow_risk pm req :
  Signals.verdict pm req = ALLOW ->
  Num.geb (Signals.risk_score req) (6 # 10) = false.
Proof.
  unfold Signals.verdict, Signals.verdict_tuple,
    VerdictEngine.determine_verdict, VerdictEngine.risk_medium,
    Config.RISK_THRESHOLD_MEDIUM.
  ladder; intros; congruence.
Qed.

Lemma response_verdict pm req :
  FirewallResponse.verdict (Signals.response pm req) = Signals.verdict pm req.
Proof.
  unfold Signals.response, Signals.verdict.
  destruct (Signals.verdict_tuple pm req) as [[[[v vr] ex] ap] er]. reflexivity.
Qed.

Lemma response_applied_policies pm req :
  FirewallResponse.applied_policies (Signals.response pm req)
  = Signals.applied_policies pm req.
Proof.
  unfold Signals.response, Signals.applied_policies.
  destruct (Signals.verdict_tuple pm req) as [[[[v vr] ex] ap] er]. reflexivity.
Qed.

Lemma response_failed_checks pm req :
  FirewallResponse.failed_checks (Signals.response pm req)
  = Signals.failed_checks pm req.
Proof.
  unfold Signals.response.
  destruct (Signals.verdict_tuple pm req) as [[[[v vr] ex] ap] er]. reflexivity.
Qed.

Lemma response_risk_score pm req :
  FirewallResponse.risk_score (Signals.response pm req) = Signals.risk_score req.
Proof.
  unfold Signals.response.
  destruct (Signals.verdict_tuple pm req) as [[[[v vr] ex] ap] er]. reflexivity.
Qed.

(** The overlay of the enterprise mode finds nothing to rewrite. *)
Lemma overlay_response em pm req :
  Signals.overlay em pm req = Signals.response pm req.
Proof.
  unfold Signals.overlay.
  destruct (Verdict_eqb (Signals.verdict pm req) ALLOW) eqn:Ev.
  - apply Verdict_eqb_eq in Ev. apply verdict_allow_risk in Ev.
    apply risk_below_medium_not_high in Ev. rewrite Ev.
    rewrite andb_false_r. reflexivity.
  - rewrite andb_false_r. reflexivity.
Qed.

(** A check whose verdict is not BLOCK leaves the learning memory alone and
    returns. *)
Lemma check_not_block em sha itc pm world req :
  Signals.verdict pm req <> BLOCK ->
  exists itc',
    FirewallInterceptor.check em sha itc pm world req
    = Some (Signals.response pm req, itc') /\
    FirewallInterceptor.memory itc' = FirewallInterceptor.memory itc.
Proof.
  intros Hv. rewrite check_unfold, overlay_response.
  destruct (Verdict_eqb (Signals.verdict pm req) BLOCK) eqn:E.
  - apply Verdict_eqb_eq in E. contradiction.
  - cbn. eexists. split; reflexivity.
Qed.

(** A check whose verdict is BLOCK returns when the memory is ready. *)
Lemma check_block em sha itc pm world req :
  Signals.verdict pm req = BLOCK ->
  memory_ready (FirewallInterceptor.memory itc) ->
  exists itc' lm',
    FirewallInterceptor.check em sha itc pm world req
    = Some (Signals.response pm req, itc') /\
    FirewallInterceptor.memory itc' = lm' /\
    LearningMemory.record_blocked_decision
      (FirewallInterceptor.memory itc) (at_memory world)
      (memory_write world) req (Signals.response pm req) = Some lm'.
Proof.
  intros Hv [n Hn]. rewrite check_unfold, overlay_response, Hv. cbn [Verdict_eqb].
  unfold LearningMemory.record_blocked_decision, LearningMemory.incr.
  cbn [Config.LEARNING_ENABLED negb]. rewrite Hn. cbn.
  eexists. eexists. repeat split; reflexivity.
Qed.

(** Every check returns when the memory is ready, with the response the
    signals determine. *)
Lemma check_returns em sha itc pm world req :
  memory_ready (FirewallInterceptor.memory itc) ->
  exists itc',
    FirewallInterceptor.check em sha itc pm world req
    = Some (Signals.response pm req, itc').
Proof.
  intros Hm.
  destruct (Verdict_eqb (Signals.verdict pm req) BLOCK) eqn:E.
  - apply Verdict_eqb_eq in E.
    destruct (check_block em sha itc pm world req E Hm) as (itc' & _ & H & _).
    eauto.
  - assert (Signals.verdict pm req <> BLOCK) as Hn.
    { intros H. apply Verdict_eqb_eq in H. congruence. }
    destruct (check_not_block em sha itc pm world req Hn) as (itc' & H & _).
    eauto.
Qed.

Lemma check_response em sha itc pm world req resp itc' :
  FirewallInterceptor.check em sha itc pm world req = Some (resp, itc') ->
  resp = Signals.response pm req.
Proof.
  rewrite check_unfold, overlay_response.
  destruct (if Verdict_eqb _ _ then _ else _); cbn; congruence.
Qed.

(** Readiness of the learning memory is kept by every check. *)
Lemma check_keeps_memory_ready em sha itc pm world req resp itc' :
  memory_ready (FirewallInterceptor.memory itc) ->
  FirewallInterceptor.check em sha itc pm world req = Some (resp, itc') ->
  memory_ready (FirewallInterceptor.memory itc').
Proof.
  intros Hm. rewrite check_unfold.
  destruct (Verdict_eqb (Signals.verdict pm req) BLOCK).
  - unfold LearningMemory.record_blocked_decision, LearningMemory.incr.
    cbn [Config.LEARNING_ENABLED negb]. destruct Hm as [n Hn]. rewrite Hn.
    cbn. intros [= _ <-]. unfold memory_ready. cbn.
    rewrite lookup_insert_eq. eauto.
  - cbn. intros [= _ <-]. exact Hm.
Qed.

Lemma fresh_memory_ready em :
  memory_ready (FirewallInterceptor.memory (Samples.fresh em)).
Proof. destruct em; eexists; vm_compute; reflexivity. Qed.

(** ** C1: governance supremacy *)

(** C1. Whenever the policy manager in force demands mandatory review of the
    request's action, [check] returns REQUIRE_HUMAN_REVIEW and lists
    [mandatory_governance_review] among the applied policies, whatever the
    confidence, the evidence, the risk score and the outcome of the rule
    scan are. *)
Theorem governance_supremacy em sha itc pm world req :
  FirewallRequest.valid req ->
  fst (PolicyManager.requires_mandatory_review
         pm (FirewallRequest.intended_action req)) = true ->
  exists resp itc',
    FirewallInterceptor.check em sha itc pm world req = Some (resp, itc') /\
    FirewallResponse.verdict resp = REQUIRE_HUMAN_REVIEW /\
    In "mandatory_governance_review" (FirewallResponse.applied_policies resp).
Proof.
  intros _ Hg.
  destruct (verdict_governance pm req Hg) as [Hv Hp].
  destruct (check_not_block em sha itc pm world req) as (itc' & Hc & _).
  { rewrite Hv. discriminate. }
  exists (Signals.response pm req), itc'. split; [exact Hc|].
  rewrite response_verdict, response_applied_policies, Hv, Hp.
  split; [reflexivity | left; reflexivity].
Qed.

Lemma valid_trade_request : FirewallRequest.valid Samples.trade_request.
Proof.
  repeat split; [discriminate | discriminate | right; right; left; reflexivity].
Qed.

Lemma governance_supremacy_witness :
  FirewallRequest.valid Samples.trade_request /\
  fst (PolicyManager.requires_mandatory_review
         (PolicyManager.init FINANCIAL_SERVICES)
         (FirewallRequest.intended_action Samples.trade_request)) = true /\
  exists resp itc',
    FirewallInterceptor.check true Samples.digest (Samples.fresh true)
      (PolicyManager.init FINANCIAL_SERVICES) Samples.world
      Samples.trade_request = Some (resp, itc') /\
    FirewallResponse.verdict resp = REQUIRE_HUMAN_REVIEW /\
    In "mandatory_governance_review" (FirewallResponse.applied_policies resp).
Proof.
  split; [exact valid_trade_request|].
  split; [reflexivity|].
  apply governance_supremacy; [exact valid_trade_request | reflexivity].
Defined.

(** ** C2: safety supremacy below governance *)

(** C2. When the rule scan of a valid request fails and governance does not
    demand mandatory review, [check] returns BLOCK and lists [safety_rules]
    among the applied policies; the risk score, the evidence and confidence
    checks and the enterprise flag are arbitrary, so none of them changes
    the BLOCK. *)
Theorem safety_supremacy em sha itc pm world req :
  FirewallRequest.valid req ->
  memory_ready (FirewallInterceptor.memory itc) ->
  Signals.rules_passed req = false ->
  fst (PolicyManager.requires_mandatory_review
         pm (FirewallRequest.intended_action req)) = false ->
  exists resp itc',
    FirewallInterceptor.check em sha itc pm world req = Some (resp, itc') /\
    FirewallResponse.verdict resp = BLOCK /\
    In "safety_rules" (FirewallResponse.applied_policies resp).
Proof.
  intros _ Hm Hr Hg.
  destruct (verdict_safety pm req Hg Hr) as [Hv Hp].
  destruct (check_block em sha itc pm world req Hv Hm) as (itc' & _ & Hc & _).
  exists (Signals.response pm req), itc'. split; [exact Hc|].
  rewrite response_verdict, response_applied_policies, Hv, Hp.
  split; [reflexivity | left; reflexivity].
Qed.

Lemma valid_unsafe_request : FirewallRequest.valid Samples.unsafe_request.
Proof. repeat split; [discriminate | discriminate | left; reflexivity]. Qed.

Lemma safety_supremacy_witness :
  FirewallRequest.valid Samples.unsafe_request /\
  memory_ready (FirewallInterceptor.memory (Samples.fresh true)) /\
  Signals.rules_passed Samples.unsafe_request = false /\
  fst (PolicyManager.requires_mandatory_review
         initial_policy_manager
         (FirewallRequest.intended_action Samples.unsafe_request)) = false /\
  exists resp itc',
    FirewallInterceptor.check true Samples.digest (Samples.fresh true)
      initial_policy_manager Samples.world Samples.unsafe_request
    = Some (resp, itc') /\
    FirewallResponse.verdict resp = BLOCK /\
    In "safety_rules" (FirewallResponse.applied_policies resp).
Proof.
  split; [exact valid_unsafe_request|].
  split; [exact (fresh_memory_ready true)|].
  split; [vm_compute; reflexivity|].
  split; [vm_compute; reflexivity|].
  apply safety_supremacy;
    [exact valid_unsafe_request | exact (fresh_memory_ready true)
    | vm_compute; reflexivity | vm_compute; reflexivity].
Defined.

(** ** C3: the evidence override rule *)

(** C3. When the confidence-alignment check of a valid request fails, its
    evidence check passes, and none of the higher rungs fires (no governance
    review, rule scan passed, no critical-risk block, no risk-based review),
    the returned verdict is not BLOCK and [confidence_alignment] is not among
    the failed checks. *)
Theorem evidence_override em sha itc pm world req :
  FirewallRequest.valid req ->
  Signals.confidence_aligned req = false ->
  Signals.evidence_passed req = true ->
  fst (PolicyManager.requires_mandatory_review
         pm (FirewallRequest.intended_action req)) = false ->
  Signals.rules_passed req = true ->
  (Num.geb (Signals.risk_score req) VerdictEngine.risk_high
   && str_in (FirewallRequest.intended_action req) ["trade"; "execute_code"])%bool
    = false ->
  Num.geb (Signals.risk_score req) VerdictEngine.risk_medium = false ->
  exists resp itc',
    FirewallInterceptor.check em sha itc pm world req = Some (resp, itc') /\
    FirewallResponse.verdict resp <> BLOCK /\
    ~ In "confidence_alignment" (FirewallResponse.failed_checks resp).
Proof.
  intros _ Ha He Hg Hr Hc Hm.
  assert (Signals.verdict pm req <> BLOCK) as Hv.
  { unfold Signals.verdict, Signals.verdict_tuple,
      VerdictEngine.determine_verdict.
    fold (Signals.governance pm req) in Hg.
    rewrite Hg, Hr, Hc, He, Hm, Ha. cbn [negb andb].
    ladder; discriminate. }
  destruct (check_not_block em sha itc pm world req Hv) as (itc' & Hchk & _).
  exists (Signals.response pm req), itc'. split; [exact Hchk|].
  rewrite response_verdict, response_failed_checks. split; [exact Hv|].
  unfold Signals.failed_checks. rewrite He, Hr, Ha. cbn [negb andb].
  destruct (fst (Signals.high_impact req)), (fst (Signals.governance pm req));
    cbn; intros H; repeat (destruct H as [H|H]; [discriminate H|]); exact H.
Qed.

Lemma valid_grounded_request : FirewallRequest.valid Samples.grounded_request.
Proof. repeat split; [discriminate | discriminate | left; reflexivity]. Qed.

Lemma evidence_override_witness :
  Signals.confidence_aligned Samples.grounded_request = false /\
  Signals.evidence_passed Samples.grounded_request = true /\
  exists resp itc',
    FirewallInterceptor.check true Samples.digest (Samples.fresh true)
      initial_policy_manager Samples.world Samples.grounded_request
    = Some (resp, itc') /\
    FirewallResponse.verdict resp <> BLOCK /\
    ~ In "confidence_alignment" (FirewallResponse.failed_checks resp).
Proof.
  split; [vm_compute; reflexivity|].
  split; [vm_compute; reflexivity|].
  apply evidence_override;
    [exact valid_grounded_request | vm_compute; reflexivity ..].
Defined.

(** ** C9: ALLOW implies a risk below the medium threshold *)

Lemma determine_verdict_allow risk ep rp ca fc action c claims hi hir gv gvr :
  (let '(v, _, _, _, _) :=
     VerdictEngine.determine_verdict risk ep rp ca fc action c claims
                                     hi hir gv gvr in v) = ALLOW ->
  Num.geb risk (6 # 10) = false.
Proof.
  unfold VerdictEngine.determine_verdict, VerdictEngine.risk_medium,
    Config.RISK_THRESHOLD_MEDIUM.
  ladder; intros; congruence.
Qed.

(** C9. Whatever its arguments, [determine_verdict] returns ALLOW only with
    a risk score below 0.6; hence for every valid request the condition of
    the enterprise overlay (ALLOW with a risk score of at least 0.7) is
    false, and [check] returns the response exactly as built from the
    verdict of [determine_verdict], whether enterprise mode is on or off. *)
Theorem allow_implies_risk_below_medium
    risk ep rp ca fc action c claims hi hir gv gvr
    em sha itc pm world req :
  FirewallRequest.valid req ->
  memory_ready (FirewallInterceptor.memory itc) ->
  ((let '(v, _, _, _, _) :=
      VerdictEngine.determine_verdict risk ep rp ca fc action c claims
                                      hi hir gv gvr in v) = ALLOW ->
   (risk < 6 # 10)%Q) /\
  (Num.geb (Signals.risk_score req) (7 # 10)
   && Verdict_eqb (Signals.verdict pm req) ALLOW)%bool = false /\
  exists resp itc',
    FirewallInterceptor.check em sha itc pm world req = Some (resp, itc') /\
    FirewallResponse.verdict resp = Signals.verdict pm req /\
    resp = Signals.response pm req.
Proof.
  intros _ Hm. split; [|split].
  - intros H. apply geb_false. exact (determine_verdict_allow _ _ _ _ _ _ _ _ _ _ _ _ H).
  - destruct (Verdict_eqb (Signals.verdict pm req) ALLOW) eqn:Ev.
    + apply Verdict_eqb_eq in Ev. apply verdict_allow_risk in Ev.
      apply risk_below_medium_not_high in Ev. rewrite Ev. reflexivity.
    + apply andb_false_r.
  - destruct (check_returns em sha itc pm world req Hm) as (itc' & Hc).
    exists (Signals.response pm req), itc'.
    split; [exact Hc|]. split; [apply response_verdict | reflexivity].
Qed.

Lemma allow_implies_risk_below_medium_witness :
  (Signals.risk_score Samples.grounded_request < 6 # 10)%Q /\
  exists resp itc',
    FirewallInterceptor.check true Samples.digest (Samples.fresh true)
      initial_policy_manager Samples.world Samples.grounded_request
    = Some (resp, itc') /\
    FirewallResponse.verdict resp = ALLOW.
Proof.
  destruct (allow_implies_risk_below_medium
              (Signals.risk_score Samples.grounded_request)
              true true false [] "answer" (95 # 100)
              (Signals.claims Samples.grounded_request) false "" false ""
              true Samples.digest (Samples.fresh true) initial_policy_manager
              Samples.world Samples.grounded_request
              valid_grounded_request (fresh_memory_ready true))
    as (Hrisk & _ & resp & itc' & Hc & Hv & _).
  split.
  - apply Hrisk. vm_compute. reflexivity.
  - exists resp, itc'. split; [exact Hc|]. rewrite Hv. vm_compute. reflexivity.
Defined.

(** ** C8: trade and execute_code are always reviewed *)

Lemma mandatory_high_impact mode action :
  In action ["trade"; "execute_code"] ->
  fst (PolicyManager.requires_mandatory_review (PolicyManager.init mode) action)
  = true.
Proof.
  intros [<-|[<-|[]]]; destruct mode; vm_compute; reflexivity.
Qed.

Lemma valid_action_cases req :
  FirewallRequest.valid req ->
  In (FirewallRequest.intended_action req) ["trade"; "execute_code"] \/
  (str_in (FirewallRequest.intended_action req) ["trade"; "execute_code"] = false
   /\ fst (Signals.high_impact req) = false).
Proof.
  intros (_ & _ & Ha). unfold Signals.high_impact,
    RulesEngine.requires_human_review_for_high_impact.
  destruct Ha as [Ha|[Ha|[Ha|[Ha|[]]]]]; rewrite <- Ha.
  - right. split; reflexivity.
  - right. split; reflexivity.
  - left. left. reflexivity.
  - left. right. left. reflexivity.
Qed.

(** C8. Each of the four policy modes has [trade] and [execute_code] among
    its mandatory-review actions, so a valid request with one of these
    actions gets REQUIRE_HUMAN_REVIEW under every mode; no valid request
    reaches the critical-risk block ([high_risk_block]) or the high-impact
    policy rung ([high_impact_policy]), and BLOCK is never returned for the
    two actions. *)
Theorem high_impact_actions_always_reviewed em sha itc mode world req :
  FirewallRequest.valid req ->
  (In "trade" (PolicyManager.mandatory_review_actions (PolicyManager.init mode))
   /\ In "execute_code"
         (PolicyManager.mandatory_review_actions (PolicyManager.init mode))) /\
  (In (FirewallRequest.intended_action req) ["trade"; "execute_code"] ->
   exists resp itc',
     FirewallInterceptor.check em sha itc (PolicyManager.init mode) world req
     = Some (resp, itc') /\
     FirewallResponse.verdict resp = REQUIRE_HUMAN_REVIEW) /\
  (forall resp itc',
     FirewallInterceptor.check em sha itc (PolicyManager.init mode) world req
     = Some (resp, itc') ->
     ~ In "high_risk_block" (FirewallResponse.applied_policies resp) /\
     ~ In "high_impact_policy" (FirewallResponse.applied_policies resp) /\
     (In (FirewallRequest.intended_action req) ["trade"; "execute_code"] ->
      FirewallResponse.verdict resp <> BLOCK)).
Proof.
  intros Hvalid. split; [|split].
  - destruct mode; cbn; tauto.
  - intros Ha.
    destruct (verdict_governance (PolicyManager.init mode) req
                (mandatory_high_impact mode _ Ha)) as [Hv _].
    destruct (check_not_block em sha itc (PolicyManager.init mode) world req)
      as (itc' & Hc & _).
    { rewrite Hv. discriminate. }
    exists (Signals.response (PolicyManager.init mode) req), itc'.
    split; [exact Hc|]. rewrite response_verdict. exact Hv.
  - intros resp itc' Hc. apply check_response in Hc. subst resp.
    rewrite response_applied_policies, response_verdict.
    destruct (valid_action_cases req Hvalid) as [Ha|[Hs Hh]].
    + destruct (verdict_governance (PolicyManager.init mode) req
                  (mandatory_high_impact mode _ Ha)) as [Hv Hp].
      rewrite Hv, Hp. cbn.
      repeat split; try (intros [H|[]]; discriminate H).
      intros _. discriminate.
    + split; [|split].
      * unfold Signals.applied_policies, Signals.verdict_tuple,
          VerdictEngine.determine_verdict.
        rewrite Hs, Hh, andb_false_r.
        ladder; cbn; intros H;
          repeat (destruct H as [H|H]; [discriminate H|]); exact H.
      * unfold Signals.applied_policies, Signals.verdict_tuple,
          VerdictEngine.determine_verdict.
        rewrite Hs, Hh, andb_false_r.
        ladder; cbn; intros H;
          repeat (destruct H as [H|H]; [discriminate H|]); exact H.
      * intros Ha. exfalso. revert Hs.
        destruct Ha as [<-|[<-|[]]]; discriminate.
Qed.

Lemma high_impact_actions_always_reviewed_witness :
  FirewallRequest.valid Samples.trade_request /\
  exists resp itc',
    FirewallInterceptor.check true Samples.digest (Samples.fresh true)
      (PolicyManager.init HEALTHCARE) Samples.world Samples.trade_request
    = Some (resp, itc') /\
    FirewallResponse.verdict resp = REQUIRE_HUMAN_REVIEW.
Proof.
  split; [exact valid_trade_request|].
  apply (high_impact_actions_always_reviewed true Samples.digest
           (Samples.fresh true) HEALTHCARE Samples.world Samples.trade_request
           valid_trade_request).
  left. reflexivity.
Defined.

(** ** C4: the side effects record the verdict that is returned *)

Lemma bump_lookup (k j : string) (d : gmap string Z) :
  MetricsCounter.bump k d !! j
  = if decide (k = j) then Some (default 0%Z (d !! k) + 1)%Z else d !! j.
Proof. unfold MetricsCounter.bump. apply lookup_insert. Qed.

(** What [record_request] does to the counters and to the file. *)
Lemma record_request_counts (mc : MetricsCounter.t) now how v action h :
  let before := MetricsCounter.metrics mc in
  let after :=
    MetricsCounter.metrics
      (MetricsCounter.record_request mc now how v action h) in
  let one (b : bool) : Z := if b then 1%Z else 0%Z in
  MetricsCounter.total_requests after
  = (MetricsCounter.total_requests before + 1)%Z /\
  MetricsCounter.by_verdict after !! Verdict_value v
  = Some (default 0%Z (MetricsCounter.by_verdict before !! Verdict_value v)
          + 1)%Z /\
  (forall k, k <> Verdict_value v ->
     MetricsCounter.by_verdict after !! k
     = MetricsCounter.by_verdict before !! k) /\
  MetricsCounter.by_action after !! action
  = Some (default 0%Z (MetricsCounter.by_action before !! action) + 1)%Z /\
  (forall k, k <> action ->
     MetricsCounter.by_action after !! k
     = MetricsCounter.by_action before !! k) /\
  MetricsCounter.blocked_requests after
  = (MetricsCounter.blocked_requests before + one (Verdict_eqb v BLOCK))%Z /\
  MetricsCounter.allowed_requests after
  = (MetricsCounter.allowed_requests before + one (Verdict_eqb v ALLOW))%Z /\
  MetricsCounter.human_reviews after
  = (MetricsCounter.human_reviews before
     + one (Verdict_eqb v REQUIRE_HUMAN_REVIEW))%Z /\
  MetricsCounter.evidence_required after
  = (MetricsCounter.evidence_required before
     + one (Verdict_eqb v REQUIRE_EVIDENCE))%Z /\
  MetricsCounter.hallucination_blocks after
  = (MetricsCounter.hallucination_blocks before
     + one (Verdict_eqb v BLOCK && h))%Z /\
  MetricsCounter.last_updated after = Some now /\
  MetricsCounter.metrics_file
    (MetricsCounter.record_request mc now how v action h)
  = Disk.write how (MetricsCounter.metrics_file mc) after.
Proof.
  cbv zeta. unfold MetricsCounter.record_request. cbv zeta.
  destruct v, h;
    cbn [MetricsCounter.metrics MetricsCounter._save_metrics
           MetricsCounter.total_requests MetricsCounter.by_action
           MetricsCounter.by_verdict MetricsCounter.last_updated
           MetricsCounter.metrics_file MetricsCounter.blocked_requests
           MetricsCounter.allowed_requests MetricsCounter.human_reviews
           MetricsCounter.evidence_required MetricsCounter.hallucination_blocks
           Verdict_eqb andb];
    rewrite !bump_lookup; rewrite !decide_True by reflexivity;
    repeat split; try reflexivity; try lia;
    intros k Hk; rewrite bump_lookup;
    destruct (decide _) as [E|E]; congruence.
Qed.

(** The state one check leaves, effect by effect. *)
Lemma check_effects em sha itc pm world req resp itc' :
  FirewallInterceptor.check em sha itc pm world req = Some (resp, itc') ->
  resp = Signals.response pm req /\
  FirewallInterceptor.audit_logger itc'
  = match FirewallInterceptor.audit_logger itc with
    | Some logger =>
        Some (AuditLogger.log_decision em sha logger (at_audit world)
                (audit_appended world) req resp)
    | None => None
    end /\
  FirewallInterceptor.metrics itc'
  = MetricsCounter.record_request
      (FirewallInterceptor.metrics itc) (at_metrics world)
      (metrics_write world) (FirewallResponse.verdict resp)
      (FirewallRequest.intended_action req)
      (Signals.is_hallucination pm req) /\
  (if Verdict_eqb (FirewallResponse.verdict resp) BLOCK then
     LearningMemory.record_blocked_decision
       (FirewallInterceptor.memory itc) (at_memory world)
       (memory_write world) req resp
     = Some (FirewallInterceptor.memory itc')
   else FirewallInterceptor.memory itc' = FirewallInterceptor.memory itc).
Proof.
  intros Hc. pose proof (check_response _ _ _ _ _ _ _ _ Hc) as ->.
  split; [reflexivity|].
  rewrite check_unfold, overlay_response in Hc. rewrite response_verdict.
  destruct (Verdict_eqb (Signals.verdict pm req) BLOCK).
  - destruct (LearningMemory.record_blocked_decision _ _ _ _ _) as [mem|];
      [|discriminate Hc].
    cbn [mbind option_bind] in Hc. injection Hc as <-.
    repeat split; reflexivity.
  - cbn [mbind option_bind] in Hc. injection Hc as <-.
    repeat split; reflexivity.
Qed.

(** What [log_decision] does to the file. *)
Lemma log_decision_file em sha (logger : AuditLogger.t) now appended req resp :
  if (em && appended)%bool then
    exists entry,
      AuditLogger.log_file
        (AuditLogger.log_decision em sha logger now appended req resp)
      = (AuditLogger.log_file logger ++ [entry])%list /\
      AuditRecord.timestamp entry = now /\
      AuditRecord.ai_output_hash entry = sha (FirewallRequest.ai_output req) /\
      AuditRecord.ai_output_length entry
      = String.length (FirewallRequest.ai_output req) /\
      AuditRecord.confidence entry = FirewallRequest.confidence req /\
      AuditRecord.intended_action entry
      = FirewallRequest.intended_action req /\
      AuditRecord.sources_count entry
      = match FirewallRequest.sources req with
        | Some l => length l
        | None => 0
        end /\
      AuditRecord.verdict entry
      = Verdict_value (FirewallResponse.verdict resp) /\
      AuditRecord.risk_score entry = FirewallResponse.risk_score resp /\
      AuditRecord.failed_checks entry = FirewallResponse.failed_checks resp /\
      AuditRecord.explanation entry = FirewallResponse.explanation resp /\
      AuditRecord.confidence_alignment entry
      = FirewallResponse.confidence_alignment resp
  else AuditLogger.log_decision em sha logger now appended req resp = logger.
Proof.
  unfold AuditLogger.log_decision, AuditLogger._hash_output, Disk.append.
  destruct logger as [log]. destruct em, appended; cbn [negb andb];
    try reflexivity.
  eexists. split; [reflexivity|]. repeat split; reflexivity.
Qed.

(** What a returning [record_blocked_decision] does to the memory and to
    the file. *)
Lemma record_blocked_decision_effects
    (lm lm' : LearningMemory.t) now how req resp :
  LearningMemory.record_blocked_decision lm now how req resp = Some lm' ->
  exists entry,
    LearningMemory.blocked_decisions (LearningMemory.memory lm')
    = (LearningMemory.blocked_decisions (LearningMemory.memory lm)
         ++ [entry])%list /\
    BlockRecord.timestamp entry = now /\
    BlockRecord.ai_output entry
    = Text.prefix 200 (FirewallRequest.ai_output req) /\
    BlockRecord.confidence entry = FirewallRequest.confidence req /\
    BlockRecord.intended_action entry = FirewallRequest.intended_action req /\
    BlockRecord.verdict entry
    = Verdict_value (FirewallResponse.verdict resp) /\
    BlockRecord.risk_score entry = FirewallResponse.risk_score resp /\
    BlockRecord.failed_checks entry = FirewallResponse.failed_checks resp /\
    BlockRecord.explanation entry = FirewallResponse.explanation resp /\
    LearningMemory.human_overrides (LearningMemory.memory lm')
    = LearningMemory.human_overrides (LearningMemory.memory lm) /\
    LearningMemory.false_positives (LearningMemory.memory lm')
    = LearningMemory.false_positives (LearningMemory.memory lm) /\
    LearningMemory.false_negatives (LearningMemory.memory lm')
    = LearningMemory.false_negatives (LearningMemory.memory lm) /\
    LearningMemory.memory_file lm'
    = Disk.write how (LearningMemory.memory_file lm)
        (LearningMemory.memory lm').
Proof.
  unfold LearningMemory.record_blocked_decision.
  cbn [Config.LEARNING_ENABLED negb].
  destruct (LearningMemory.incr _ _) as [stats|]; [|discriminate].
  cbn [mbind option_bind]. intros [= <-].
  eexists. split; [reflexivity|]. repeat split; reflexivity.
Qed.

(** C4. For a valid request (and a learning memory able to count), [check]
    returns a response, and each side effect it has emitted carries the
    verdict of that response.  The audit log gains one entry, with that
    verdict, when enterprise mode is on and the append succeeds, and is
    untouched otherwise.  In the metrics, the count of the returned verdict
    and the counter kept for it go up by one, and no other verdict's count or
    counter moves; the file holds the updated document when the write
    succeeds, keeps its content when the write is refused, and is unreadable
    when the write is torn.  The learning memory gains one entry, with that
    verdict, exactly when the returned verdict is BLOCK, under the same three
    outcomes for its file, and is untouched otherwise.  The enterprise
    overlay, which runs after the side effects, leaves the response as they
    recorded it. *)
Theorem side_effects_record_returned_verdict em sha itc pm world req :
  FirewallRequest.valid req ->
  memory_ready (FirewallInterceptor.memory itc) ->
  exists resp itc',
    FirewallInterceptor.check em sha itc pm world req = Some (resp, itc') /\
    (forall logger,
       FirewallInterceptor.audit_logger itc = Some logger ->
       exists logger',
         FirewallInterceptor.audit_logger itc' = Some logger' /\
         if (em && audit_appended world)%bool then
           exists entry,
             AuditLogger.log_file logger'
             = (AuditLogger.log_file logger ++ [entry])%list /\
             AuditRecord.verdict entry
             = Verdict_value (FirewallResponse.verdict resp)
         else logger' = logger) /\
    (let before := MetricsCounter.metrics (FirewallInterceptor.metrics itc) in
     let after := MetricsCounter.metrics (FirewallInterceptor.metrics itc') in
     let one (b : bool) : Z := if b then 1%Z else 0%Z in
     let returned v := Verdict_eqb (FirewallResponse.verdict resp) v in
     MetricsCounter.by_verdict after
       !! Verdict_value (FirewallResponse.verdict resp)
     = Some (default 0%Z
               (MetricsCounter.by_verdict before
                  !! Verdict_value (FirewallResponse.verdict resp)) + 1)%Z /\
     (forall k, k <> Verdict_value (FirewallResponse.verdict resp) ->
        MetricsCounter.by_verdict after !! k
        = MetricsCounter.by_verdict before !! k) /\
     MetricsCounter.blocked_requests after
     = (MetricsCounter.blocked_requests before + one (returned BLOCK))%Z /\
     MetricsCounter.allowed_requests after
     = (MetricsCounter.allowed_requests before + one (returned ALLOW))%Z /\
     MetricsCounter.human_reviews after
     = (MetricsCounter.human_reviews before
        + one (returned REQUIRE_HUMAN_REVIEW))%Z /\
     MetricsCounter.evidence_required after
     = (MetricsCounter.evidence_required before
        + one (returned REQUIRE_EVIDENCE))%Z /\
     MetricsCounter.metrics_file (FirewallInterceptor.metrics itc')
     = match metrics_write world with
       | Disk.Written => Some after
       | Disk.Refused =>
           MetricsCounter.metrics_file (FirewallInterceptor.metrics itc)
       | Disk.Torn => None
       end) /\
    (if Verdict_eqb (FirewallResponse.verdict resp) BLOCK then
       exists entry,
         LearningMemory.blocked_decisions
           (LearningMemory.memory (FirewallInterceptor.memory itc'))
         = (LearningMemory.blocked_decisions
              (LearningMemory.memory (FirewallInterceptor.memory itc))
              ++ [entry])%list /\
         BlockRecord.verdict entry
         = Verdict_value (FirewallResponse.verdict resp) /\
         LearningMemory.memory_file (FirewallInterceptor.memory itc')
         = match memory_write world with
           | Disk.Written =>
               Some (LearningMemory.memory (FirewallInterceptor.memory itc'))
           | Disk.Refused =>
               LearningMemory.memory_file (FirewallInterceptor.memory itc)
           | Disk.Torn => None
           end
     else FirewallInterceptor.memory itc' = FirewallInterceptor.memory itc).
Proof.
  intros _ Hm.
  destruct (check_returns em sha itc pm world req Hm) as (itc' & Hc).
  exists (Signals.response pm req), itc'. split; [exact Hc|].
  destruct (check_effects _ _ _ _ _ _ _ _ Hc) as (_ & Hlog & Hmet & Hmem).
  split; [|split].
  - intros logger Hl. rewrite Hl in Hlog. eexists. split; [exact Hlog|].
    pose proof (log_decision_file em sha logger (at_audit world)
                  (audit_appended world) req (Signals.response pm req)) as H.
    destruct (em && audit_appended world)%bool; [|exact H].
    destruct H as (entry & Hf & H). exists entry. split; [exact Hf|].
    apply H.
  - cbv zeta. rewrite Hmet.
    pose proof (record_request_counts
                  (FirewallInterceptor.metrics itc) (at_metrics world)
                  (metrics_write world)
                  (FirewallResponse.verdict (Signals.response pm req))
                  (FirewallRequest.intended_action req)
                  (Signals.is_hallucination pm req)) as H.
    cbv zeta in H.
    destruct H as (_ & Hv & Hk & _ & _ & Hb & Ha & Hr & He & _ & _ & Hf).
    repeat split; assumption.
  - destruct (Verdict_eqb (FirewallResponse.verdict (Signals.response pm req))
                BLOCK); [|exact Hmem].
    destruct (record_blocked_decision_effects _ _ _ _ _ _ Hmem)
      as (entry & Hl & H).
    exists entry. split; [exact Hl|]. split; [apply H|].
    destruct H as (_ & _ & _ & _ & _ & _ & _ & _ & _ & _ & _ & ->).
    destruct (memory_write world); reflexivity.
Qed.

Lemma side_effects_record_returned_verdict_witness :
  exists resp itc',
    FirewallInterceptor.check true Samples.digest (Samples.fresh true)
      initial_policy_manager Samples.world Samples.unsafe_request
    = Some (resp, itc') /\
    FirewallResponse.verdict resp = BLOCK /\
    MetricsCounter.by_verdict
      (MetricsCounter.metrics (FirewallInterceptor.metrics itc')) !! "BLOCK"
    = Some 1%Z /\
    MetricsCounter.blocked_requests
      (MetricsCounter.metrics (FirewallInterceptor.metrics itc')) = 1%Z /\
    MetricsCounter.allowed_requests
      (MetricsCounter.metrics (FirewallInterceptor.metrics itc')) = 0%Z /\
    MetricsCounter.metrics_file (FirewallInterceptor.metrics itc')
    = Some (MetricsCounter.metrics (FirewallInterceptor.metrics itc')) /\
    (exists entry,
       LearningMemory.blocked_decisions
         (LearningMemory.memory (FirewallInterceptor.memory itc')) = [entry] /\
       BlockRecord.verdict entry = "BLOCK" /\
       LearningMemory.memory_file (FirewallInterceptor.memory itc')
       = Some (LearningMemory.memory (FirewallInterceptor.memory itc'))).
Proof.
  destruct (side_effects_record_returned_verdict
              true Samples.digest (Samples.fresh true) initial_policy_manager
              Samples.world Samples.unsafe_request
              valid_unsafe_request (fresh_memory_ready true))
    as (resp & itc' & Hc & _ & Hmet & Hmem).
  assert (FirewallResponse.verdict resp = BLOCK) as Hv.
  { apply check_response in Hc. subst resp. vm_compute. reflexivity. }
  exists resp, itc'. split; [exact Hc|]. split; [exact Hv|].
  cbv zeta in Hmet. rewrite Hv in Hmet, Hmem.
  destruct Hmet as (Hbv & _ & Hb & Ha & _ & _ & Hf).
  split; [exact Hbv|]. split; [exact Hb|]. split; [exact Ha|].
  split; [exact Hf|]. exact Hmem.
Defined.

(** ** C5: scenario S4 *)

(** C5. On the request of scenario S4 (output "Apple was founded in 1976 and
    makes the iPhone", confidence 0.9, action answer, no sources) under the
    default GENERAL_AI mode, [check] returns REQUIRE_EVIDENCE, not BLOCK:
    the evidence check fails, [evidence] is among the failed checks, and the
    risk score 0.0315 is below the 0.6 that the evidence rung needs to
    block. *)
Theorem scenario_S4_requires_evidence em sha itc world :
  exists resp itc',
    FirewallInterceptor.check em sha itc initial_policy_manager world
      Samples.apple_request = Some (resp, itc') /\
    FirewallResponse.verdict resp = REQUIRE_EVIDENCE /\
    FirewallResponse.verdict resp <> BLOCK /\
    In "evidence" (FirewallResponse.failed_checks resp) /\
    (FirewallResponse.risk_score resp == 315 # 10000)%Q.
Proof.
  assert (Signals.verdict initial_policy_manager Samples.apple_request
          = REQUIRE_EVIDENCE) as Hv by (vm_compute; reflexivity).
  destruct (check_not_block em sha itc initial_policy_manager world
              Samples.apple_request) as (itc' & Hc & _).
  { rewrite Hv. discriminate. }
  exists (Signals.response initial_policy_manager Samples.apple_request), itc'.
  split; [exact Hc|].
  rewrite response_verdict, response_failed_checks, response_risk_score, Hv.
  split; [reflexivity|]. split; [discriminate|].
  split; [vm_compute; left; reflexivity | vm_compute; reflexivity].
Qed.

(** ** C6: the risk score *)

Lemma ltb_spec (a b : Q) : reflect (a < b)%Q (Num.ltb a b).
Proof.
  unfold Num.ltb. destruct (Qle_bool b a) eqn:E; constructor.
  - apply Qle_bool_iff in E. apply Qle_not_lt. exact E.
  - apply Qnot_le_lt. intros H. apply Qle_bool_iff in H. congruence.
Qed.

Lemma gtb_spec (a b : Q) : reflect (b < a)%Q (Num.gtb a b).
Proof. exact (ltb_spec b a). Qed.

Lemma gtb_dec (a b : Q) :
  Num.gtb a b = if Qlt_le_dec b a then true else false.
Proof.
  destruct (gtb_spec a b) as [H|H], (Qlt_le_dec b a) as [H'|H'];
    try reflexivity.
  - exfalso. exact (Qlt_not_le _ _ H H').
  - contradiction.
Qed.

Lemma min_Qmin (a b : Q) : (Num.min a b == Qmin a b)%Q.
Proof.
  unfold Num.min. destruct (ltb_spec b a) as [H|H].
  - symmetry. apply Q.min_r. apply Qlt_le_weak. exact H.
  - symmetry. apply Q.min_l. apply Qnot_lt_le. exact H.
Qed.

Lemma clamp_agree (x y : Q) :
  (x == y)%Q -> (Num.min 1 (Num.max 0 x) == Spec.clamp01 y)%Q.
Proof.
  intros Hxy. unfold Num.min, Num.max, Spec.clamp01.
  destruct (gtb_spec x 0) as [H0|H0];
    destruct (Qlt_le_dec y 0) as [Hy0|Hy0];
    try destruct (Qlt_le_dec 1 y) as [Hy1|Hy1];
    match goal with
    | |- context [Num.ltb ?a ?b] => destruct (ltb_spec a b)
    end; lra.
Qed.

Lemma impact_lookup (k : string) :
  dict_get Config.ACTION_IMPACT k Config.DEFAULT_ACTION_IMPACT = Spec.impact k.
Proof.
  unfold Spec.impact, Config.ACTION_IMPACT, Config.DEFAULT_ACTION_IMPACT.
  cbn [dict_get].
  rewrite (String.eqb_sym "answer" k), (String.eqb_sym "email" k),
    (String.eqb_sym "trade" k), (String.eqb_sym "execute_code" k).
  reflexivity.
Qed.

(** The nested comprehensions of the evidence factor find a claim exactly
    when some claim is factual with confidence above 0.6. *)
Lemma evidence_factor_scan (claims : list Claim.t) (a b : Q) :
  match filter (fun c => Num.gtb (Claim.confidence c) (6 # 10) = true)
               (filter (fun c => Claim.is_factual c = true) claims) with
  | _ :: _ => a
  | [] => b
  end
  = if existsb (fun c => (Claim.is_factual c
                          && if Qlt_le_dec (6 # 10) (Claim.confidence c)
                             then true else false)%bool) claims
    then a else b.
Proof.
  induction claims as [|c l IH]; [reflexivity|].
  rewrite filter_cons. cbn [existsb]. rewrite <- gtb_dec.
  destruct (decide (Claim.is_factual c = true)) as [Hf|Hf].
  - rewrite Hf, filter_cons. cbn [andb].
    destruct (decide (Num.gtb (Claim.confidence c) (6 # 10) = true)) as [Hc|Hc].
    + rewrite Hc. reflexivity.
    + apply not_true_is_false in Hc. rewrite Hc. exact IH.
  - apply not_true_is_false in Hf. rewrite Hf. exact IH.
Qed.

Lemma evidence_factor_agree (has_evidence : bool) (claims : list Claim.t) :
  (if negb has_evidence then
     match filter (fun c => Claim.is_factual c = true) claims with
     | _ :: _ =>
         match filter (fun c => Num.gtb (Claim.confidence c) (6 # 10) = true)
                      (filter (fun c => Claim.is_factual c = true) claims) with
         | _ :: _ => (15 # 10)%Q
         | [] => 1%Q
         end
     | [] => 1%Q
     end
   else 1%Q)
  = Spec.evidence_factor has_evidence claims.
Proof.
  unfold Spec.evidence_factor. destruct has_evidence; cbn [negb andb];
    [reflexivity|].
  rewrite <- evidence_factor_scan.
  destruct (filter (fun c => Claim.is_factual c = true) claims); reflexivity.
Qed.

Lemma risk_score_agree c action claims ev :
  (RiskScorer.calculate_risk_score c action claims ev
   == Spec.risk c (Text.lower action) claims ev)%Q.
Proof.
  unfold RiskScorer.calculate_risk_score, Spec.risk, Spec.risk_with.
  cbv zeta. rewrite impact_lookup, evidence_factor_agree.
  apply clamp_agree.
  unfold ConfidenceChecker.calculate_uncertainty, Spec.claim_factor,
    Num.of_len.
  rewrite min_Qmin, Q.min_comm.
  apply Qmult_comp; [reflexivity|].
  apply Q.min_compat; [reflexivity|]. ring.
Qed.

Lemma risk_score_bounds c action claims ev :
  (0 <= RiskScorer.calculate_risk_score c action claims ev)%Q /\
  (RiskScorer.calculate_risk_score c action claims ev <= 1)%Q.
Proof.
  unfold RiskScorer.calculate_risk_score. cbv zeta.
  match goal with |- context [Num.max 0 ?x] => generalize x end.
  intros x. unfold Num.min, Num.max.
  destruct (gtb_spec x 0);
    match goal with
    | |- context [Num.ltb ?a ?b] => destruct (ltb_spec a b)
    end; lra.
Qed.

(** C6 as stated fails on an action that is not in lower case: the code
    looks the impact up under the lower-cased action, so "TRADE" weighs 0.9
    where the stated map gives the default 0.5. *)
Lemma risk_formula_counterexample :
  ~ (RiskScorer.calculate_risk_score 0 "TRADE" [] true
     == Spec.risk 0 "TRADE" [] true)%Q.
Proof. vm_compute. discriminate. Qed.

(** C6, amended. [calculate_risk_score] returns the clamp to [0,1] of
    (1 - c) x impact x evidence_factor x min(1.3, 1 + 0.05 |claims|), where
    the impact map (answer 0.2, email 0.5, trade 0.9, execute_code 0.95, any
    other 0.5) is applied to the lower-cased action, and evidence_factor is
    1.5 exactly when evidence is absent and some factual claim has
    confidence above 0.6; the value lies in [0,1], and so does the risk
    score of every response [check] returns. *)
Theorem risk_score_formula c action claims ev em sha itc pm world req resp itc' :
  (RiskScorer.calculate_risk_score c action claims ev
   == Spec.risk c (Text.lower action) claims ev)%Q /\
  (0 <= RiskScorer.calculate_risk_score c action claims ev <= 1)%Q /\
  (FirewallInterceptor.check em sha itc pm world req = Some (resp, itc') ->
   (0 <= FirewallResponse.risk_score resp <= 1)%Q).
Proof.
  split; [apply risk_score_agree|]. split; [apply risk_score_bounds|].
  intros Hc. apply check_response in Hc. subst resp.
  rewrite response_risk_score. unfold Signals.risk_score.
  apply risk_score_bounds.
Qed.

Lemma risk_score_formula_witness :
  (RiskScorer.calculate_risk_score (9 # 10) "TRADE" [Samples.apple_claim] false
   == 14175 # 100000)%Q /\
  match FirewallInterceptor.check true Samples.digest (Samples.fresh true)
          initial_policy_manager Samples.world Samples.apple_request with
  | Some (resp, _) => (0 <= FirewallResponse.risk_score resp <= 1)%Q
  | None => False
  end.
Proof.
  split; [vm_compute; reflexivity|].
  destruct (FirewallInterceptor.check true Samples.digest (Samples.fresh true)
              initial_policy_manager Samples.world Samples.apple_request)
    as [[resp itc']|] eqn:E.
  - apply (risk_score_formula 0 "answer" [] true true Samples.digest
             (Samples.fresh true) initial_policy_manager Samples.world
             Samples.apple_request resp itc').
    exact E.
  - vm_compute in E. discriminate E.
Defined.

(** ** C7: the evidence check *)

Lemma high_confidence_factual_F (claims : list Claim.t) :
  high_confidence_factual EvidenceChecker.evidence_threshold claims
  = Spec.F claims.
Proof.
  unfold high_confidence_factual, Spec.F, EvidenceChecker.evidence_threshold,
    Config.CONFIDENCE_THRESHOLD_EVIDENCE_REQUIRED.
  induction claims as [|c l IH]; [reflexivity|].
  rewrite filter_cons. cbn [List.filter]. rewrite <- gtb_dec, IH.
  destruct (decide _) as [H|H].
  - rewrite H. reflexivity.
  - apply not_true_is_false in H. rewrite H. reflexivity.
Qed.

Lemma truthy_nonempty (s : string) :
  Text.truthy s = negb (String.eqb s "").
Proof. destruct s; reflexivity. Qed.

Lemma valid_sources_V (sources : list string) :
  EvidenceChecker.valid_sources sources = Spec.V sources.
Proof.
  unfold EvidenceChecker.valid_sources, Spec.V.
  induction sources as [|s l IH]; [reflexivity|].
  rewrite filter_cons. cbn [List.filter]. rewrite IH.
  assert ((Text.truthy s && Text.truthy (Text.strip s))%bool
          = negb (String.eqb (Text.strip s) "")) as ->.
  { destruct s; [reflexivity|]. cbn [Text.truthy andb].
    apply truthy_nonempty. }
  destruct (decide _) as [H|H].
  - rewrite H. reflexivity.
  - apply not_true_is_false in H. rewrite H. reflexivity.
Qed.

(** C7. [check_evidence] passes exactly when F (the factual claims with
    confidence above 0.6) is empty or the sources with a non-empty trimmed
    text number at least max(1, |F| / 3); whenever it fails, the list of
    failed claims it returns is the list of the texts of the claims of F. *)
Theorem check_evidence_definition
    (claims : list Claim.t) (sources : option (list string)) :
  (fst (fst (EvidenceChecker.check_evidence claims sources)) = true <->
   Spec.F claims = [] \/
   Spec.enough_sources claims (default [] sources)) /\
  (fst (fst (EvidenceChecker.check_evidence claims sources)) = false ->
   snd (EvidenceChecker.check_evidence claims sources)
   = map Claim.text (Spec.F claims)).
Proof.
  unfold EvidenceChecker.check_evidence, Spec.enough_sources. cbv zeta.
  rewrite high_confidence_factual_F.
  assert (match sources with None => [] | Some l => l end = default [] sources)
    as -> by (destruct sources; reflexivity).
  rewrite valid_sources_V.
  generalize (default [] sources). intros srcs.
  destruct (Nat.eqb_spec (length (Spec.F claims)) 0) as [HF|HF].
  { cbn [fst snd]. split; [|discriminate].
    split; [|reflexivity]. intros _. left.
    destruct (Spec.F claims); [reflexivity | discriminate HF]. }
  assert (Spec.F claims <> []) as HF' by (intros E; rewrite E in HF; apply HF; reflexivity).
  destruct (Nat.ltb_spec 0 (length srcs)) as [Hs|Hs]; cbn [negb].
  - destruct (Nat.eqb_spec (length (Spec.V srcs)) 0) as [HV|HV].
    + cbn [fst snd]. split; [|reflexivity].
      split; [discriminate|]. intros [E|E]; [contradiction|]. lia.
    + destruct (Nat.ltb_spec (length (Spec.V srcs))
                  (Nat.max 1 (length (Spec.F claims) / 3))) as [Hlt|Hge];
        cbn [fst snd].
      * split; [|reflexivity].
        split; [discriminate|]. intros [E|E]; [contradiction|]. lia.
      * split; [|discriminate]. split; [|reflexivity]. intros _. right. exact Hge.
  - cbn [fst snd]. split; [|reflexivity].
    split; [discriminate|]. intros [E|E]; [contradiction|].
    assert (srcs = []) as -> by (destruct srcs; [reflexivity | cbn in Hs; lia]).
    cbn in E. lia.
Qed.

Lemma check_evidence_definition_witness :
  fst (fst (EvidenceChecker.check_evidence [Samples.apple_claim] (Some [" "])))
  = false /\
  snd (EvidenceChecker.check_evidence [Samples.apple_claim] (Some [" "]))
  = ["Apple was founded in 1976 and makes the iPhone"].
Proof.
  split; [vm_compute; reflexivity|].
  destruct (check_evidence_definition [Samples.apple_claim] (Some [" "]))
    as [_ H].
  rewrite H; vm_compute; reflexivity.
Defined.

(** ** C10: the false-negative rate is identically zero *)

Lemma incr_keeps (k : string) (d d' : gmap string Z) :
  LearningMemory.incr k d = Some d' ->
  k <> "total_allows" ->
  d' !! "total_allows" = d !! "total_allows" /\
  forall j, is_Some (d !! j) -> is_Some (d' !! j).
Proof.
  unfold LearningMemory.incr. destruct (d !! k) as [v|] eqn:E; [|discriminate].
  intros [= <-] Hk. split.
  - apply lookup_insert_ne. exact Hk.
  - intros j Hj. rewrite lookup_insert. destruct (decide (k = j)); eauto.
Qed.

Lemma stats_shape_incr (k : string) (d : LearningMemory.doc)
    (stats' : gmap string Z) b o p n :
  stats_shape d ->
  LearningMemory.incr k (LearningMemory.statistics d) = Some stats' ->
  k <> "total_allows" ->
  stats_shape (LearningMemory.Doc b o p n stats').
Proof.
  intros (Ha & Hb & Ho & Hp & Hn) Hi Hk.
  destruct (incr_keeps _ _ _ Hi Hk) as [Hta Hst].
  unfold stats_shape. cbn [LearningMemory.statistics].
  rewrite Hta. repeat split; auto.
Qed.

Lemma memory_shape_saved (lm : LearningMemory.t) (d : LearningMemory.doc)
    (how : Disk.outcome) :
  memory_shape lm ->
  stats_shape d ->
  memory_shape (LearningMemory._save_memory
                  (LearningMemory.Build (LearningMemory.memory_file lm) d)
                  how).
Proof.
  intros [_ Hf] H. split; [exact H|].
  destruct how; cbn; intros d' Hd.
  - injection Hd as <-. exact H.
  - apply Hf. exact Hd.
  - discriminate Hd.
Qed.

Lemma empty_doc_shape : stats_shape LearningMemory.empty_doc.
Proof.
  unfold stats_shape. cbn [LearningMemory.statistics LearningMemory.empty_doc].
  repeat split; eexists; vm_compute; reflexivity.
Qed.

Lemma memory_shape_init (file : option LearningMemory.doc) :
  (forall d, file = Some d -> stats_shape d) ->
  memory_shape (LearningMemory.init file).
Proof.
  intros H. split; [|exact H].
  destruct file as [d|]; cbn; [apply H; reflexivity | apply empty_doc_shape].
Qed.

Lemma memory_shape_block lm now how request response lm' :
  memory_shape lm ->
  LearningMemory.record_blocked_decision lm now how request response
  = Some lm' ->
  memory_shape lm'.
Proof.
  intros Hs. pose proof Hs as [Hm Hf].
  unfold LearningMemory.record_blocked_decision.
  cbn [Config.LEARNING_ENABLED negb].
  destruct (LearningMemory.incr _ _) as [stats|] eqn:E; [|discriminate].
  cbn [mbind option_bind]. intros [= <-].
  apply memory_shape_saved; [exact Hs|].
  eapply stats_shape_incr; [exact Hm | exact E | discriminate].
Qed.

Lemma memory_shape_override lm now how original override reason request lm' :
  memory_shape lm ->
  LearningMemory.record_human_override lm now how original override reason
    request = Some lm' ->
  memory_shape lm'.
Proof.
  intros Hsh. pose proof Hsh as [Hm Hf].
  unfold LearningMemory.record_human_override.
  cbn [Config.LEARNING_ENABLED negb]. cbv zeta.
  destruct (LearningMemory.incr "total_overrides" _) as [stats|] eqn:E;
    [|discriminate].
  cbn [mbind option_bind].
  pose proof (stats_shape_incr _ _ _ [] [] [] [] Hm E ltac:(discriminate)) as Hs.
  destruct (Verdict_eqb original BLOCK && Verdict_eqb override ALLOW)%bool.
  - destruct (LearningMemory.incr "false_positive_count" stats) as [stats'|] eqn:E';
      [|discriminate].
    cbn [mbind option_bind]. intros [= <-].
    apply memory_shape_saved; [exact Hsh|].
    eapply (stats_shape_incr _ _ _ _ _ _ _ Hs); [exact E' | discriminate].
  - destruct (Verdict_eqb original ALLOW && Verdict_eqb override BLOCK)%bool.
    + destruct (LearningMemory.incr "false_negative_count" stats) as [stats'|] eqn:E';
        [|discriminate].
      cbn [mbind option_bind]. intros [= <-].
      apply memory_shape_saved; [exact Hsh|].
      eapply (stats_shape_incr _ _ _ _ _ _ _ Hs); [exact E' | discriminate].
    + cbn [mbind option_bind]. intros [= <-].
      apply memory_shape_saved; [exact Hsh | exact Hs].
Qed.

Lemma reachable_shape (lm : LearningMemory.t) :
  memory_reachable lm -> memory_shape lm.
Proof.
  induction 1 as [|w Hw IH|lm lm' now how rq rs Hr IH Hop
                 |lm lm' now how o1 o2 rsn rq Hr IH Hop].
  - apply memory_shape_init. discriminate.
  - apply memory_shape_init. apply IH.
  - eapply memory_shape_block; eauto.
  - eapply memory_shape_override; eauto.
Qed.

Lemma false_negative_rate_zero (lm : LearningMemory.t) :
  LearningMemory.statistics (LearningMemory.memory lm) !! "total_allows" = None ->
  LearningMemory.get_false_negative_rate lm = Some 0%Q.
Proof.
  intros H. unfold LearningMemory.get_false_negative_rate. rewrite H.
  reflexivity.
Qed.

(** C10. In every state a learning memory can reach (from an absent file,
    by recording blocks and overrides, and by reloading what was saved), the
    statistics in memory and on disk have no [total_allows] entry;
    [get_false_negative_rate] returns 0.0, and [get_statistics] returns a
    dictionary whose [false_negative_rate] is 0.0 (the witness has a
    [false_negative_count] of 1). *)
Theorem false_negative_rate_identically_zero (lm : LearningMemory.t) :
  memory_reachable lm ->
  LearningMemory.statistics (LearningMemory.memory lm) !! "total_allows" = None /\
  (forall d, LearningMemory.memory_file lm = Some d ->
             LearningMemory.statistics d !! "total_allows" = None) /\
  LearningMemory.get_false_negative_rate lm = Some 0%Q /\
  exists stats,
    LearningMemory.get_statistics lm = Some stats /\
    stats !! "false_negative_rate" = Some 0%Q.
Proof.
  intros Hr. destruct (reachable_shape lm Hr) as [Hm Hf].
  destruct Hm as (Ha & [tb Hb] & _ & [fp Hp] & _).
  split; [exact Ha|]. split; [intros d Hd; apply (Hf d Hd)|].
  split; [apply false_negative_rate_zero; exact Ha|].
  unfold LearningMemory.get_statistics.
  rewrite (false_negative_rate_zero lm Ha).
  unfold LearningMemory.get_false_positive_rate. rewrite Hb.
  cbn [mbind option_bind]. rewrite Hp.
  destruct (tb =? 0)%Z; cbn [mbind option_bind];
    (eexists; split; [reflexivity|]);
    rewrite lookup_insert_ne by discriminate;
    rewrite lookup_insert_ne by discriminate;
    apply lookup_insert_eq.
Qed.

Lemma missed_block_recorded :
  LearningMemory.record_human_override
    (LearningMemory.init None) "2024-01-01T00:00:00Z" Disk.Written ALLOW BLOCK
    "harmful answer was allowed" None
  = Some Samples.missed_block.
Proof.
  unfold Samples.missed_block.
  destruct (LearningMemory.record_human_override _ _ _ _ _ _ _) as [lm|] eqn:E;
    [reflexivity | vm_compute in E; discriminate E].
Qed.

Lemma false_negative_rate_identically_zero_witness :
  memory_reachable Samples.missed_block /\
  LearningMemory.statistics (LearningMemory.memory Samples.missed_block)
    !! "false_negative_count" = Some 1%Z /\
  LearningMemory.get_false_negative_rate Samples.missed_block = Some 0%Q.
Proof.
  assert (memory_reachable Samples.missed_block) as Hr.
  { eapply reach_override; [apply reach_fresh | exact missed_block_recorded]. }
  split; [exact Hr|]. split; [vm_compute; reflexivity|].
  apply (false_negative_rate_identically_zero Samples.missed_block Hr).
Defined.

(** * Further properties of the code *)

(** ** The ladder of [determine_verdict] *)

Lemma geb_reflect (a b : Q) : reflect (b <= a)%Q (Num.geb a b).
Proof.
  destruct (Num.geb a b) eqn:E; constructor.
  - apply geb_true. exact E.
  - apply Qlt_not_le. apply geb_false. exact E.
Qed.

Lemma str_in_reflect (x : string) (l : list string) :
  reflect (In x l) (str_in x l).
Proof.
  destruct (str_in x l) eqn:E; constructor.
  - apply str_in_In. exact E.
  - intros H. apply str_in_In in H. congruence.
Qed.

(** The verdict as a function of the tests of the ladder. *)
Lemma determine_verdict_cases risk ep rp ca fc action c claims hi hir gv gvr :
  let '(v, _, _, _, _) :=
    VerdictEngine.determine_verdict risk ep rp ca fc action c claims
                                    hi hir gv gvr in
  (v = BLOCK <->
   gv = false /\
   (rp = false \/
    ((8 # 10 <= risk)%Q /\ In action ["trade"; "execute_code"]) \/
    (ep = false /\ (6 # 10 <= risk)%Q))) /\
  (v = REQUIRE_EVIDENCE <->
   gv = false /\ rp = true /\ ep = false /\ (risk < 6 # 10)%Q) /\
  (v = ALLOW <->
   gv = false /\ rp = true /\ ep = true /\ hi = false /\ (risk < 6 # 10)%Q).
Proof.
  unfold VerdictEngine.determine_verdict, VerdictEngine.risk_high,
    VerdictEngine.risk_medium, VerdictEngine.risk_low,
    Config.RISK_THRESHOLD_HIGH, Config.RISK_THRESHOLD_MEDIUM,
    Config.RISK_THRESHOLD_LOW.
  destruct (geb_reflect risk (8 # 10)) as [H8|H8];
    destruct (geb_reflect risk (6 # 10)) as [H6|H6];
    destruct (str_in_reflect action ["trade"; "execute_code"]) as [Ha|Ha];
    destruct gv, rp, ep, ca, hi; cbn [negb andb];
    try destruct (Num.ltb risk (3 # 10));
    cbv beta iota;
    (repeat split; intros;
     repeat match goal with
            | H : _ /\ _ |- _ => destruct H
            | H : _ \/ _ |- _ => destruct H
            end;
     try congruence; try contradiction; try (exfalso; lra);
     try (apply Qnot_le_lt; assumption);
     auto 6).
Qed.

(** X1. Whatever its arguments, [determine_verdict] sets an escalation
    reason exactly when it returns REQUIRE_HUMAN_REVIEW, and it always
    returns exactly one applied policy. *)
Theorem escalation_reason_iff_human_review
    risk ep rp ca fc action c claims hi hir gv gvr :
  let '(v, _, _, p, e) :=
    VerdictEngine.determine_verdict risk ep rp ca fc action c claims
                                    hi hir gv gvr in
  (is_Some e <-> v = REQUIRE_HUMAN_REVIEW) /\ length p = 1.
Proof.
  unfold VerdictEngine.determine_verdict.
  destruct gv, rp, ep, ca, hi; cbn [negb andb]; ladder;
    (split; [|reflexivity]);
    (split;
     [ intros [x Hx]; first [reflexivity | discriminate Hx]
     | intros H; first [discriminate H | eexists; reflexivity] ]).
Qed.

(** X2. The confidence-alignment rung of the ladder is never the deciding
    one: no result of [determine_verdict] carries the policy
    [confidence_alignment_check], and REQUIRE_EVIDENCE always comes from the
    evidence rung. *)
Theorem confidence_alignment_rung_never_decides
    risk ep rp ca fc action c claims hi hir gv gvr :
  let '(v, _, _, p, _) :=
    VerdictEngine.determine_verdict risk ep rp ca fc action c claims
                                    hi hir gv gvr in
  ~ In "confidence_alignment_check" p /\
  (v = REQUIRE_EVIDENCE <-> p = ["evidence_requirement"] /\ v <> BLOCK).
Proof.
  unfold VerdictEngine.determine_verdict.
  destruct gv, rp, ep, ca, hi; cbn [negb andb]; ladder;
    (split; [cbn; intros [H|[]]; discriminate H|]); split;
    try (intros H; discriminate H);
    try (intros [H H']; try discriminate H; try (exfalso; apply H'; reflexivity));
    try (intros _; split; [reflexivity | discriminate]);
    try reflexivity.
Qed.

(** X3. The decision table of [determine_verdict]: BLOCK exactly without
    governance review when the rules failed, or the risk is at least 0.8
    for trade or execute_code, or evidence failed with a risk of at least
    0.6; REQUIRE_EVIDENCE exactly when only the evidence check failed and
    the risk is below 0.6; ALLOW exactly when rules and evidence passed, no
    review is demanded and the risk is below 0.6. *)
Theorem verdict_decision_table
    risk ep rp ca fc action c claims hi hir gv gvr :
  let '(v, _, _, _, _) :=
    VerdictEngine.determine_verdict risk ep rp ca fc action c claims
                                    hi hir gv gvr in
  (v = BLOCK <->
   gv = false /\
   (rp = false \/
    ((8 # 10 <= risk)%Q /\ In action ["trade"; "execute_code"]) \/
    (ep = false /\ (6 # 10 <= risk)%Q))) /\
  (v = REQUIRE_EVIDENCE <->
   gv = false /\ rp = true /\ ep = false /\ (risk < 6 # 10)%Q) /\
  (v = ALLOW <->
   gv = false /\ rp = true /\ ep = true /\ hi = false /\ (risk < 6 # 10)%Q).
Proof. apply determine_verdict_cases. Qed.

(** ** Claims as the parser builds them *)

Lemma claim_of_some c sentence claim :
  ClaimParser.claim_of c sentence = Some claim ->
  Claim.confidence claim = c /\ Claim.text claim = sentence /\
  3 <= Text.split_len sentence /\ sentence <> "" /\
  Claim.is_factual claim
  = (Re.search ClaimParser.factual_regex sentence
     || Re.search (Re.Plus Re.digit) sentence)%bool.
Proof.
  unfold ClaimParser.claim_of.
  destruct sentence as [|a s]; [discriminate|]. cbn [Text.truthy negb].
  destruct (Nat.ltb_spec (Text.split_len (String a s)) 3) as [Hlt|Hge];
    [discriminate|].
  intros [= <-]. cbn [Claim.confidence Claim.text Claim.is_factual].
  repeat split; [exact Hge | discriminate |].
  destruct (Re.search ClaimParser.factual_regex (String a s)),
    (Re.search (Re.Plus Re.digit) (String a s)); reflexivity.
Qed.

Lemma parse_claim text c claim :
  In claim (ClaimParser.parse text c) ->
  exists sentence, ClaimParser.claim_of c sentence = Some claim.
Proof.
  unfold ClaimParser.parse.
  destruct (negb (Text.truthy text) || negb (Text.truthy (Text.strip text)))%bool;
    [intros []|].
  cbv zeta. intros H. apply list_elem_of_In, list_elem_of_omap in H.
  destruct H as (s & _ & H). eauto.
Qed.

(** X6. A blank output yields no claim; every claim the parser builds
    carries the overall confidence, has a non-empty text of at least three
    whitespace-separated tokens, and is factual exactly when its text
    matches one of the factual patterns or contains a digit. *)
Theorem parsed_claims_well_formed (text : string) (c : Q) :
  (Text.strip text = "" -> ClaimParser.parse text c = []) /\
  (forall claim,
     In claim (ClaimParser.parse text c) ->
     Claim.confidence claim = c /\
     3 <= Text.split_len (Claim.text claim) /\
     Claim.text claim <> "" /\
     (Claim.is_factual claim = true <->
      Re.search ClaimParser.factual_regex (Claim.text claim) = true \/
      Re.search (Re.Plus Re.digit) (Claim.text claim) = true)).
Proof.
  split.
  - intros H. unfold ClaimParser.parse. rewrite H. cbn [Text.truthy negb].
    rewrite orb_true_r. reflexivity.
  - intros claim H. destruct (parse_claim _ _ _ H) as [s Hs].
    destruct (claim_of_some _ _ _ Hs) as (Hc & Ht & Hn & He & Hf).
    rewrite Ht, Hf. repeat split; auto.
    + intros Hor. apply orb_true_iff in Hor. exact Hor.
    + intros Hor. apply orb_true_iff. exact Hor.
Qed.

Lemma parsed_claims_well_formed_witness :
  In Samples.apple_claim
     (ClaimParser.parse "Apple was founded in 1976 and makes the iPhone" (9 # 10))
  /\ Claim.is_factual Samples.apple_claim = true
  /\ 3 <= Text.split_len (Claim.text Samples.apple_claim).
Proof.
  assert (In Samples.apple_claim
            (ClaimParser.parse "Apple was founded in 1976 and makes the iPhone"
                               (9 # 10))) as Hin
      by (vm_compute; left; reflexivity).
  split; [exact Hin|]. split; [reflexivity|].
  apply (parsed_claims_well_formed
           "Apple was founded in 1976 and makes the iPhone" (9 # 10)).
  exact Hin.
Defined.

(** ** Responses of [check] *)

Lemma verdict_cases pm req :
  (Signals.verdict pm req = BLOCK <->
   fst (Signals.governance pm req) = false /\
   (Signals.rules_passed req = false \/
    ((8 # 10 <= Signals.risk_score req)%Q /\
     In (FirewallRequest.intended_action req) ["trade"; "execute_code"]) \/
    (Signals.evidence_passed req = false /\
     (6 # 10 <= Signals.risk_score req)%Q))) /\
  (Signals.verdict pm req = REQUIRE_EVIDENCE <->
   fst (Signals.governance pm req) = false /\
   Signals.rules_passed req = true /\ Signals.evidence_passed req = false /\
   (Signals.risk_score req < 6 # 10)%Q) /\
  (Signals.verdict pm req = ALLOW <->
   fst (Signals.governance pm req) = false /\
   Signals.rules_passed req = true /\ Signals.evidence_passed req = true /\
   fst (Signals.high_impact req) = false /\
   (Signals.risk_score req < 6 # 10)%Q).
Proof.
  unfold Signals.verdict, Signals.verdict_tuple.
  pose proof (determine_verdict_cases
                (Signals.risk_score req) (Signals.evidence_passed req)
                (Signals.rules_passed req) (Signals.confidence_aligned req)
                (Signals.failed_checks pm req)
                (FirewallRequest.intended_action req)
                (FirewallRequest.confidence req) (Signals.claims req)
                (fst (Signals.high_impact req)) (snd (Signals.high_impact req))
                (fst (Signals.governance pm req))
                (snd (Signals.governance pm req))) as H.
  destruct (VerdictEngine.determine_verdict _ _ _ _ _ _ _ _ _ _ _ _)
    as [[[[v vr] ex] ap] er].
  exact H.
Qed.

Lemma failed_checks_nil pm req :
  Signals.failed_checks pm req = [] <->
  Signals.evidence_passed req = true /\ Signals.rules_passed req = true /\
  fst (Signals.high_impact req) = false /\
  fst (Signals.governance pm req) = false.
Proof.
  unfold Signals.failed_checks.
  destruct (Signals.evidence_passed req), (Signals.rules_passed req),
    (Signals.confidence_aligned req), (fst (Signals.high_impact req)),
    (fst (Signals.governance pm req)); cbn;
    (split; [intros H; try discriminate H; auto | intros (? & ? & ? & ?); congruence]).
Qed.

(** X4. A response of [check] has the verdict ALLOW exactly when its list of
    failed checks is empty and its risk score is below 0.6. *)
Theorem allow_iff_nothing_failed em sha itc pm world req resp itc' :
  FirewallInterceptor.check em sha itc pm world req = Some (resp, itc') ->
  (FirewallResponse.verdict resp = ALLOW <->
   FirewallResponse.failed_checks resp = [] /\
   (FirewallResponse.risk_score resp < 6 # 10)%Q).
Proof.
  intros Hc. apply check_response in Hc. subst resp.
  rewrite response_verdict, response_failed_checks, response_risk_score.
  rewrite failed_checks_nil.
  destruct (verdict_cases pm req) as (_ & _ & Ha). rewrite Ha. tauto.
Qed.

Lemma allow_iff_nothing_failed_witness :
  match FirewallInterceptor.check true Samples.digest (Samples.fresh true)
          initial_policy_manager Samples.world Samples.grounded_request with
  | Some (resp, _) =>
      FirewallResponse.verdict resp = ALLOW /\
      FirewallResponse.failed_checks resp = [] /\
      (FirewallResponse.risk_score resp < 6 # 10)%Q
  | None => False
  end.
Proof.
  destruct (FirewallInterceptor.check true Samples.digest (Samples.fresh true)
              initial_policy_manager Samples.world Samples.grounded_request)
    as [[resp itc']|] eqn:E.
  - assert (FirewallResponse.verdict resp = ALLOW) as Hv.
    { apply check_response in E. subst resp. vm_compute. reflexivity. }
    split; [exact Hv|].
    apply (allow_iff_nothing_failed _ _ _ _ _ _ _ _ E). exact Hv.
  - vm_compute in E. discriminate E.
Defined.

(** ** Confidence alignment and evidence go together *)

Lemma parsed_confidence text c claim :
  In claim (ClaimParser.parse text c) -> Claim.confidence claim = c.
Proof.
  intros H. destruct (parse_claim _ _ _ H) as [s Hs].
  apply (claim_of_some _ _ _ Hs).
Qed.

Lemma high_confidence_factual_In thr claims claim :
  In claim (high_confidence_factual thr claims) <->
  In claim claims /\ Claim.is_factual claim = true /\
  Num.gtb (Claim.confidence claim) thr = true.
Proof.
  unfold high_confidence_factual.
  rewrite <- !list_elem_of_In, list_elem_of_filter, andb_true_iff. tauto.
Qed.

Lemma alignment_fails_iff c claims :
  (forall claim, In claim claims -> Claim.confidence claim = c) ->
  fst (ConfidenceChecker.validate_confidence_alignment c claims) = false <->
  high_confidence_factual (6 # 10) claims <> [].
Proof.
  intros Hall. unfold ConfidenceChecker.validate_confidence_alignment,
    ConfidenceChecker.evidence_threshold,
    Config.CONFIDENCE_THRESHOLD_EVIDENCE_REQUIRED.
  destruct claims as [|x l]; [cbn; split; [discriminate | intros H; contradiction]|].
  remember (x :: l) as claims eqn:Ecl.
  destruct (high_confidence_factual (6 # 10) claims) as [|y hcf] eqn:E.
  - cbn [length Nat.eqb negb andb].
    destruct (_ && _)%bool; cbn; split; [discriminate | intros H; contradiction
                                       | discriminate | intros H; contradiction].
  - assert (In y (high_confidence_factual (6 # 10) claims)) as Hy
        by (rewrite E; left; reflexivity).
    apply high_confidence_factual_In in Hy as (Hin & _ & Hgt).
    rewrite (Hall y Hin) in Hgt. rewrite Hgt. cbn.
    split; [intros _; discriminate | reflexivity].
Qed.

Lemma evidence_fails_needs_claims claims sources :
  fst (fst (EvidenceChecker.check_evidence claims sources)) = false ->
  high_confidence_factual (6 # 10) claims <> [].
Proof.
  unfold EvidenceChecker.check_evidence, EvidenceChecker.evidence_threshold,
    Config.CONFIDENCE_THRESHOLD_EVIDENCE_REQUIRED. cbv zeta.
  destruct (high_confidence_factual (6 # 10) claims); [discriminate|].
  intros _. discriminate.
Qed.

Lemma evidence_failure_misaligns req :
  Signals.evidence_passed req = false -> Signals.confidence_aligned req = false.
Proof.
  unfold Signals.evidence_passed, Signals.confidence_aligned. intros H.
  apply alignment_fails_iff.
  - intros claim Hin. exact (parsed_confidence _ _ _ Hin).
  - exact (evidence_fails_needs_claims _ _ H).
Qed.

(** X5. Because every parsed claim inherits the overall confidence, the
    confidence-alignment flag of a response is false exactly when some claim
    is factual with confidence above 0.6; a failed evidence check therefore
    always comes with a failed alignment, and [failed_checks] contains
    [confidence_alignment] exactly when it contains [evidence]. *)
Theorem alignment_follows_evidence em sha itc pm world req resp itc' :
  FirewallInterceptor.check em sha itc pm world req = Some (resp, itc') ->
  (FirewallResponse.confidence_alignment resp = false <->
   high_confidence_factual (6 # 10) (Signals.claims req) <> []) /\
  (In "evidence" (FirewallResponse.failed_checks resp) <->
   In "confidence_alignment" (FirewallResponse.failed_checks resp)) /\
  (In "evidence" (FirewallResponse.failed_checks resp) <->
   Signals.evidence_passed req = false).
Proof.
  intros Hc. apply check_response in Hc. subst resp.
  rewrite response_failed_checks.
  assert (FirewallResponse.confidence_alignment (Signals.response pm req)
          = Signals.confidence_aligned req) as ->.
  { unfold Signals.response.
    destruct (Signals.verdict_tuple pm req) as [[[[v vr] ex] ap] er].
    reflexivity. }
  split.
  { unfold Signals.confidence_aligned. apply alignment_fails_iff.
    intros claim Hin. exact (parsed_confidence _ _ _ Hin). }
  pose proof (evidence_failure_misaligns req) as Hmis.
  unfold Signals.failed_checks.
  destruct (Signals.evidence_passed req) eqn:Ee.
  - destruct (Signals.rules_passed req), (Signals.confidence_aligned req),
      (fst (Signals.high_impact req)), (fst (Signals.governance pm req));
      cbn; repeat split; intros H;
      repeat (destruct H as [H|H]; [discriminate H|]); try contradiction;
      discriminate H.
  - rewrite (Hmis eq_refl).
    destruct (Signals.rules_passed req),
      (fst (Signals.high_impact req)), (fst (Signals.governance pm req));
      cbn; repeat split; intros _; auto.
Qed.

Lemma alignment_follows_evidence_witness :
  match FirewallInterceptor.check true Samples.digest (Samples.fresh true)
          initial_policy_manager Samples.world Samples.apple_request with
  | Some (resp, _) =>
      In "evidence" (FirewallResponse.failed_checks resp) /\
      In "confidence_alignment" (FirewallResponse.failed_checks resp)
  | None => False
  end.
Proof.
  destruct (FirewallInterceptor.check true Samples.digest (Samples.fresh true)
              initial_policy_manager Samples.world Samples.apple_request)
    as [[resp itc']|] eqn:E.
  - destruct (alignment_follows_evidence _ _ _ _ _ _ _ _ E) as (_ & H1 & H2).
    assert (In "evidence" (FirewallResponse.failed_checks resp)) as Hev.
    { apply H2. vm_compute. reflexivity. }
    split; [exact Hev | apply H1; exact Hev].
  - vm_compute in E. discriminate E.
Defined.

(** ** Bounds and monotonicity of the risk score *)

Lemma clamp01_mono (x y : Q) :
  (x <= y)%Q -> (Spec.clamp01 x <= Spec.clamp01 y)%Q.
Proof.
  intros H. unfold Spec.clamp01.
  destruct (Qlt_le_dec x 0), (Qlt_le_dec y 0); try lra;
    destruct (Qlt_le_dec 1 x), (Qlt_le_dec 1 y); lra.
Qed.

Lemma clamp01_upper (x b : Q) :
  (0 <= b)%Q -> (x <= b)%Q -> (Spec.clamp01 x <= b)%Q.
Proof.
  intros Hb H. unfold Spec.clamp01.
  destruct (Qlt_le_dec x 0); [lra|]. destruct (Qlt_le_dec 1 x); lra.
Qed.

Lemma impact_range (a : string) :
  (0 <= Spec.impact a)%Q /\ (Spec.impact a <= 95 # 100)%Q.
Proof.
  unfold Spec.impact.
  repeat match goal with
         | |- context [if ?b then _ else _] => destruct b
         end; split; lra.
Qed.

Lemma evidence_factor_range ev claims :
  (1 <= Spec.evidence_factor ev claims)%Q /\
  (Spec.evidence_factor ev claims <= 15 # 10)%Q /\
  (Spec.evidence_factor true claims <= Spec.evidence_factor ev claims)%Q.
Proof.
  unfold Spec.evidence_factor. cbn [negb andb].
  destruct (negb ev && _)%bool; repeat split; lra.
Qed.

Lemma claim_factor_range claims :
  (1 <= Spec.claim_factor claims)%Q /\ (Spec.claim_factor claims <= 13 # 10)%Q.
Proof.
  unfold Spec.claim_factor. split.
  - apply Q.min_glb; [lra|].
    assert (0 <= inject_Z (Z.of_nat (length claims)))%Q.
    { change 0%Q with (inject_Z 0). rewrite <- Zle_Qle. lia. }
    lra.
  - apply Q.le_min_l.
Qed.

(** The product under the clamp grows with each of its factors. *)
Lemma product_le (u u' i e e' f : Q) :
  (0 <= u <= u')%Q -> (0 <= i)%Q -> (0 <= e <= e')%Q -> (0 <= f)%Q ->
  (u * i * e * f <= u' * i * e' * f)%Q.
Proof.
  intros Hu Hi He Hf.
  apply Qmult_le_compat_r; [|lra].
  apply Qle_trans with (u' * i * e)%Q.
  - apply Qmult_le_compat_r; [|lra]. apply Qmult_le_compat_r; lra.
  - rewrite (Qmult_comm (u' * i) e), (Qmult_comm (u' * i) e').
    apply Qmult_le_compat_r; [lra|]. apply Qmult_le_0_compat; lra.
Qed.

Lemma risk_with_upper imp c claims ev :
  (0 <= imp)%Q -> (0 <= c)%Q -> (c <= 1)%Q ->
  (Spec.risk_with imp c claims ev <= imp * (195 # 100))%Q.
Proof.
  intros Hi H0 H1. unfold Spec.risk_with.
  destruct (evidence_factor_range ev claims) as (He1 & He2 & _).
  destruct (claim_factor_range claims) as (Hf1 & Hf2).
  apply clamp01_upper; [lra|].
  apply Qle_trans with (1 * imp * (15 # 10) * Spec.claim_factor claims)%Q.
  - apply product_le; lra.
  - apply Qle_trans with (1 * imp * (15 # 10) * (13 # 10))%Q; [|lra].
    rewrite !(Qmult_comm (1 * imp * (15 # 10))).
    apply Qmult_le_compat_r; lra.
Qed.

(** X8. With the claims and the evidence flag fixed, the risk score never
    grows with the confidence and is 0 at confidence 1; for a confidence of
    at most 1 it is never lower without evidence than with evidence. *)
Theorem risk_score_monotone c1 c2 action claims ev :
  ((c1 <= c2)%Q ->
   (RiskScorer.calculate_risk_score c2 action claims ev
    <= RiskScorer.calculate_risk_score c1 action claims ev)%Q) /\
  ((c1 <= 1)%Q ->
   (RiskScorer.calculate_risk_score c1 action claims true
    <= RiskScorer.calculate_risk_score c1 action claims false)%Q) /\
  (RiskScorer.calculate_risk_score 1 action claims ev == 0)%Q.
Proof.
  rewrite !risk_score_agree. unfold Spec.risk, Spec.risk_with.
  destruct (impact_range (Text.lower action)) as [Hi _].
  destruct (claim_factor_range claims) as (Hf1 & _).
  split; [|split].
  - intros H. destruct (evidence_factor_range ev claims) as (He1 & _).
    apply clamp01_mono.
    rewrite <- !Qmult_assoc.
    apply Qmult_le_compat_r; [lra|].
    apply Qmult_le_0_compat; [exact Hi|]. apply Qmult_le_0_compat; lra.
  - intros H.
    destruct (evidence_factor_range false claims) as (He1 & _ & Hle).
    destruct (evidence_factor_range true claims) as (Ht1 & _).
    apply clamp01_mono. apply product_le; lra.
  - apply Qle_antisym.
    + apply Qle_trans with (Spec.clamp01 0).
      * apply clamp01_mono. ring_simplify. lra.
      * vm_compute. discriminate.
    + apply Qle_trans with (Spec.clamp01 0).
      * vm_compute. discriminate.
      * apply clamp01_mono. ring_simplify. lra.
Qed.

Lemma risk_score_monotone_witness :
  (RiskScorer.calculate_risk_score (9 # 10) "email" [Samples.apple_claim] false
   <= RiskScorer.calculate_risk_score (5 # 10) "email" [Samples.apple_claim]
                                      false)%Q.
Proof.
  apply (risk_score_monotone (5 # 10) (9 # 10) "email" [Samples.apple_claim]
                             false).
  vm_compute. discriminate.
Defined.

(** ** BLOCK and the rule scan *)

Lemma risk_with_upper_scaled imp c claims ev :
  (0 <= imp)%Q -> (c <= 1)%Q ->
  (Spec.risk_with imp c claims ev <= (1 - c) * imp * (195 # 100))%Q.
Proof.
  intros Hi H1. unfold Spec.risk_with.
  destruct (evidence_factor_range ev claims) as (He1 & He2 & _).
  destruct (claim_factor_range claims) as (Hf1 & Hf2).
  assert (0 <= (1 - c) * imp)%Q as Hui by (apply Qmult_le_0_compat; lra).
  apply clamp01_upper.
  - apply Qmult_le_0_compat; lra.
  - apply Qle_trans with ((1 - c) * imp * (15 # 10) * Spec.claim_factor claims)%Q.
    + apply product_le; lra.
    + apply Qle_trans with ((1 - c) * imp * (15 # 10) * (13 # 10))%Q; [|lra].
      rewrite !(Qmult_comm ((1 - c) * imp * (15 # 10))).
      apply Qmult_le_compat_r; lra.
Qed.

(** A failed evidence check needs an overall confidence above 0.6. *)
Lemma evidence_failure_confidence req :
  Signals.evidence_passed req = false ->
  (6 # 10 < FirewallRequest.confidence req)%Q.
Proof.
  intros H. apply evidence_fails_needs_claims in H.
  fold (Signals.claims req) in H.
  destruct (high_confidence_factual (6 # 10) (Signals.claims req))
    as [|claim l] eqn:E; [contradiction|].
  assert (In claim (high_confidence_factual (6 # 10) (Signals.claims req)))
    as Hin by (rewrite E; left; reflexivity).
  apply high_confidence_factual_In in Hin as (Hc & _ & Hgt).
  rewrite (parsed_confidence _ _ _ Hc) in Hgt.
  destruct (gtb_spec (FirewallRequest.confidence req) (6 # 10)) as [Hlt|];
    [exact Hlt | discriminate Hgt].
Qed.

Lemma low_impact_not_mandatory mode action :
  In action ["answer"; "email"] ->
  fst (PolicyManager.requires_mandatory_review (PolicyManager.init mode) action)
  = false.
Proof. intros [<-|[<-|[]]]; destruct mode; reflexivity. Qed.

Lemma low_impact_evidence_risk req :
  FirewallRequest.valid req ->
  In (FirewallRequest.intended_action req) ["answer"; "email"] ->
  Signals.evidence_passed req = false ->
  (Signals.risk_score req < 6 # 10)%Q.
Proof.
  intros (_ & H1 & _) Ha He.
  pose proof (evidence_failure_confidence req He) as Hc.
  unfold Signals.risk_score. rewrite risk_score_agree. unfold Spec.risk.
  eapply Qle_lt_trans; [apply risk_with_upper_scaled;
                        [apply impact_range | exact H1]|].
  destruct Ha as [<-|[<-|[]]]; vm_compute Spec.impact; lra.
Qed.

(** X7. For a valid request under any of the four policy modes, [check]
    returns BLOCK exactly when the rule scan failed and the action is
    answer or email: a failed evidence check needs a confidence above 0.6,
    which keeps the risk score of these actions below 0.6, so it always
    gives REQUIRE_EVIDENCE after a passed rule scan; and the hallucination
    flag of the metrics is only ever raised for a failed rule scan. *)
Theorem block_means_rules_failed em sha itc mode world req resp itc' :
  FirewallRequest.valid req ->
  FirewallInterceptor.check em sha itc (PolicyManager.init mode) world req
  = Some (resp, itc') ->
  (FirewallResponse.verdict resp = BLOCK <->
   Signals.rules_passed req = false /\
   In (FirewallRequest.intended_action req) ["answer"; "email"]) /\
  (In (FirewallRequest.intended_action req) ["answer"; "email"] ->
   Signals.rules_passed req = true -> Signals.evidence_passed req = false ->
   FirewallResponse.verdict resp = REQUIRE_EVIDENCE) /\
  (Signals.is_hallucination (PolicyManager.init mode) req = true ->
   Signals.rules_passed req = false).
Proof.
  intros Hv Hc. apply check_response in Hc. subst resp.
  rewrite response_verdict.
  destruct (verdict_cases (PolicyManager.init mode) req) as (Hb & He & _).
  assert (Signals.verdict (PolicyManager.init mode) req = BLOCK <->
          Signals.rules_passed req = false /\
          In (FirewallRequest.intended_action req) ["answer"; "email"]) as Hblock.
  { destruct (valid_action_cases req Hv) as [Ha|[Hs Hh]].
    - destruct (verdict_governance (PolicyManager.init mode) req
                  (mandatory_high_impact mode _ Ha)) as [Hrev _].
      rewrite Hrev. split; [discriminate|]. intros [_ Hlow]. exfalso.
      destruct Ha as [Ha|[Ha|[]]]; rewrite <- Ha in Hlow;
        destruct Hlow as [H|[H|[]]]; discriminate H.
    - assert (In (FirewallRequest.intended_action req) ["answer"; "email"])
        as Hlow.
      { destruct Hv as (_ & _ & [H|[H|[H|[H|[]]]]]);
          [left; exact H | right; left; exact H | |];
          rewrite <- H in Hs; discriminate Hs. }
      rewrite Hb. split.
      + intros (_ & [H|[[_ H]|[H Hr]]]).
        * split; assumption.
        * apply str_in_In in H. congruence.
        * pose proof (low_impact_evidence_risk req Hv Hlow H). exfalso. lra.
      + intros [H _]. split; [|left; exact H].
        apply (low_impact_not_mandatory mode _ Hlow). }
  split; [exact Hblock|]. split.
  - intros Hlow Hrp Hep. apply He.
    split; [apply (low_impact_not_mandatory mode _ Hlow)|].
    repeat split; try assumption.
    apply (low_impact_evidence_risk req Hv Hlow Hep).
  - unfold Signals.is_hallucination. intros H.
    apply andb_true_iff in H as [H _]. apply andb_true_iff in H as [H _].
    apply Verdict_eqb_eq in H. apply Hblock in H. apply H.
Qed.

Lemma block_means_rules_failed_witness :
  match FirewallInterceptor.check true Samples.digest (Samples.fresh true)
          (PolicyManager.init LEGAL) Samples.world Samples.apple_request with
  | Some (resp, _) => FirewallResponse.verdict resp = REQUIRE_EVIDENCE
  | None => False
  end.
Proof.
  assert (FirewallRequest.valid Samples.apple_request) as Hv.
  { repeat split; [discriminate | discriminate | left; reflexivity]. }
  destruct (FirewallInterceptor.check true Samples.digest (Samples.fresh true)
              (PolicyManager.init LEGAL) Samples.world Samples.apple_request)
    as [[resp itc']|] eqn:E.
  - destruct (block_means_rules_failed _ _ _ _ _ _ _ _ Hv E) as (_ & He & _).
    apply He; [left; reflexivity | vm_compute; reflexivity ..].
  - vm_compute in E. discriminate E.
Defined.

(** ** The policy mode and valid requests *)

Lemma governance_mode_independent m1 m2 req :
  FirewallRequest.valid req ->
  fst (Signals.governance (PolicyManager.init m1) req)
  = fst (Signals.governance (PolicyManager.init m2) req).
Proof.
  intros (_ & _ & Ha). unfold Signals.governance.
  destruct Ha as [Ha|[Ha|[Ha|[Ha|[]]]]]; rewrite <- Ha;
    destruct m1, m2; reflexivity.
Qed.

Lemma verdict_mode_independent m1 m2 req :
  FirewallRequest.valid req ->
  Signals.failed_checks (PolicyManager.init m1) req
  = Signals.failed_checks (PolicyManager.init m2) req /\
  Signals.verdict (PolicyManager.init m1) req
  = Signals.verdict (PolicyManager.init m2) req /\
  Signals.applied_policies (PolicyManager.init m1) req
  = Signals.applied_policies (PolicyManager.init m2) req.
Proof.
  intros Hv. pose proof (governance_mode_independent m1 m2 req Hv) as Hg.
  assert (Signals.failed_checks (PolicyManager.init m1) req
          = Signals.failed_checks (PolicyManager.init m2) req) as Hf.
  { unfold Signals.failed_checks. rewrite Hg. reflexivity. }
  split; [exact Hf|].
  unfold Signals.verdict, Signals.applied_policies, Signals.verdict_tuple.
  rewrite Hf, Hg.
  generalize (snd (Signals.governance (PolicyManager.init m1) req)).
  generalize (snd (Signals.governance (PolicyManager.init m2) req)).
  intros s2 s1. unfold VerdictEngine.determine_verdict.
  split; ladder; reflexivity.
Qed.

(** X10. The policy mode has no influence on valid requests: under any two
    of the four modes, from the same interceptor state, [check] returns
    responses with the same verdict, risk score, failed checks and applied
    policies, and leaves the same metrics. *)
Theorem policy_mode_does_not_matter em sha itc m1 m2 world req r1 i1 r2 i2 :
  FirewallRequest.valid req ->
  FirewallInterceptor.check em sha itc (PolicyManager.init m1) world req
  = Some (r1, i1) ->
  FirewallInterceptor.check em sha itc (PolicyManager.init m2) world req
  = Some (r2, i2) ->
  FirewallResponse.verdict r1 = FirewallResponse.verdict r2 /\
  FirewallResponse.risk_score r1 = FirewallResponse.risk_score r2 /\
  FirewallResponse.failed_checks r1 = FirewallResponse.failed_checks r2 /\
  FirewallResponse.applied_policies r1 = FirewallResponse.applied_policies r2 /\
  FirewallInterceptor.metrics i1 = FirewallInterceptor.metrics i2.
Proof.
  intros Hv H1 H2.
  destruct (verdict_mode_independent m1 m2 req Hv) as (Hf & Hverd & Hp).
  pose proof (check_response _ _ _ _ _ _ _ _ H1) as E1.
  pose proof (check_response _ _ _ _ _ _ _ _ H2) as E2. subst r1 r2.
  rewrite !response_verdict, !response_risk_score, !response_failed_checks,
    !response_applied_policies.
  repeat split; try assumption.
  rewrite check_unfold in H1, H2.
  destruct (if Verdict_eqb (Signals.verdict (PolicyManager.init m1) req) BLOCK
            then _ else _) as [mem1|]; [|discriminate H1].
  destruct (if Verdict_eqb (Signals.verdict (PolicyManager.init m2) req) BLOCK
            then _ else _) as [mem2|]; [|discriminate H2].
  cbn in H1, H2. injection H1 as _ <-. injection H2 as _ <-.
  cbn [FirewallInterceptor.metrics].
  unfold Signals.is_hallucination. rewrite Hverd, Hf. reflexivity.
Qed.

Lemma policy_mode_does_not_matter_witness :
  match FirewallInterceptor.check true Samples.digest (Samples.fresh true)
          (PolicyManager.init GENERAL_AI) Samples.world Samples.apple_request,
        FirewallInterceptor.check true Samples.digest (Samples.fresh true)
          (PolicyManager.init HEALTHCARE) Samples.world Samples.apple_request
  with
  | Some (r1, _), Some (r2, _) =>
      FirewallResponse.verdict r1 = FirewallResponse.verdict r2
  | _, _ => False
  end.
Proof.
  assert (FirewallRequest.valid Samples.apple_request) as Hv.
  { repeat split; [discriminate | discriminate | left; reflexivity]. }
  destruct (FirewallInterceptor.check true Samples.digest (Samples.fresh true)
              (PolicyManager.init GENERAL_AI) Samples.world
              Samples.apple_request) as [[r1 i1]|] eqn:E1;
    [|vm_compute in E1; discriminate E1].
  destruct (FirewallInterceptor.check true Samples.digest (Samples.fresh true)
              (PolicyManager.init HEALTHCARE) Samples.world
              Samples.apple_request) as [[r2 i2]|] eqn:E2;
    [|vm_compute in E2; discriminate E2].
  apply (policy_mode_does_not_matter _ _ _ _ _ _ _ _ _ _ _ Hv E1 E2).
Defined.

(** ** The rule scan *)

Lemma remove_dups_length_le {A} `{EqDecision A} (l : list A) :
  length (remove_dups l) <= length l.
Proof.
  induction l as [|x l IH]; cbn; [lia|].
  destruct (decide_rel elem_of x l); cbn; lia.
Qed.

Lemma remove_dups_length_NoDup {A} `{EqDecision A} (l : list A) :
  length (remove_dups l) = length l <-> List.NoDup l.
Proof.
  induction l as [|x l IH]; cbn.
  - split; [intros _; constructor | reflexivity].
  - pose proof (remove_dups_length_le l) as Hle.
    destruct (decide_rel elem_of x l) as [Hin|Hin]; cbn.
    + split; [lia|]. intros Hnd. inversion Hnd as [|? ? Hx _]; subst.
      exfalso. apply Hx. apply list_elem_of_In. exact Hin.
    + split.
      * intros Hlen. constructor.
        -- intros Hx. apply Hin. apply list_elem_of_In. exact Hx.
        -- apply IH. lia.
      * intros Hnd. inversion Hnd; subst. f_equal. apply IH. assumption.
Qed.

Lemma contradictions_pass_iff claims :
  fst (RulesEngine._check_contradictions claims) = true <->
  List.NoDup (map (fun c => Text.lower (Claim.text c))
                  (filter (fun c => Claim.is_factual c = true) claims)).
Proof.
  unfold RulesEngine._check_contradictions. cbv zeta.
  set (l := map _ _).
  rewrite <- remove_dups_length_NoDup.
  destruct (Nat.ltb_spec 1 (length l)) as [Hl|Hl]; cbn [andb].
  - destruct (Nat.eqb_spec (length l) (length (remove_dups l))) as [E|E];
      cbn; split; intros H; try congruence; try discriminate; reflexivity.
  - cbn. split; [intros _|reflexivity].
    destruct l as [|x [|y l']]; cbn in *; try reflexivity; lia.
Qed.

(** X9. [check_rules] passes exactly when it reports no failed rule; the
    failed rules are among [unsafe_patterns], [harmful_actions] and
    [contradictions]; [harmful_actions] is reported only for the actions
    trade and execute_code; and [contradictions] is reported exactly when
    two factual claims have the same text up to letter case. *)
Theorem check_rules_report claims ai_output action :
  let '(passed, _, failed) :=
    RulesEngine.check_rules claims ai_output action in
  (passed = true <-> failed = []) /\
  (forall rule, In rule failed ->
                In rule ["unsafe_patterns"; "harmful_actions"; "contradictions"]) /\
  (In "harmful_actions" failed -> In action ["trade"; "execute_code"]) /\
  (In "contradictions" failed <->
   ~ List.NoDup (map (fun c => Text.lower (Claim.text c))
                     (filter (fun c => Claim.is_factual c = true) claims))).
Proof.
  unfold RulesEngine.check_rules. cbv zeta.
  generalize (contradictions_pass_iff claims).
  generalize (map (fun c => Text.lower (Claim.text c))
                  (filter (fun c => Claim.is_factual c = true) claims)).
  intros texts.
  destruct (str_in_reflect action ["trade"; "execute_code"]) as [Ha|Ha];
    destruct (fst (RulesEngine._check_unsafe_patterns ai_output));
    try destruct (fst (RulesEngine._check_harmful_actions ai_output action));
    destruct (fst (RulesEngine._check_contradictions claims));
    cbn; intros [Hc1 Hc2]; (repeat split); intros;
    try discriminate; try reflexivity;
    repeat match goal with
           | H : _ \/ _ |- _ => destruct H
           | H : False |- _ => destruct H
           end;
    subst; try discriminate; try assumption; try contradiction;
    try (exfalso; auto; fail);
    try (intros Hnd; specialize (Hc2 Hnd); discriminate Hc2);
    cbn; auto 6.
Qed.

Lemma check_rules_report_witness :
  fst (fst (RulesEngine.check_rules
              [Samples.apple_claim;
               Claim.Build "APPLE WAS FOUNDED IN 1976 AND MAKES THE IPHONE"
                           true (5 # 10)]
              "harmless" "answer")) = false.
Proof.
  pose proof (check_rules_report
                [Samples.apple_claim;
                 Claim.Build "APPLE WAS FOUNDED IN 1976 AND MAKES THE IPHONE"
                             true (5 # 10)]
                "harmless" "answer") as H.
  destruct (RulesEngine.check_rules _ _ _) as [[passed reason] failed].
  destruct H as (Hp & _ & _ & Hc). cbn [fst].
  destruct passed; [|reflexivity]. exfalso.
  assert (failed = []) as -> by (apply Hp; reflexivity).
  assert (In "contradictions" []) as [].
  apply Hc. intros Hnd. vm_compute in Hnd.
  inversion Hnd as [|? ? Hx _]. apply Hx. left. reflexivity.
Defined.

(** ** The metrics counters *)

Lemma metrics_consistent_empty : metrics_consistent MetricsCounter.empty_doc.
Proof.
  unfold metrics_consistent, MetricsCounter.empty_doc. cbn.
  rewrite !lookup_empty. cbn. lia.
Qed.

(** A write keeps the file consistent however it ends. *)
Lemma metrics_consistent_saved (mc : MetricsCounter.t) now how :
  metrics_consistent (MetricsCounter.metrics mc) ->
  (forall d, MetricsCounter.metrics_file mc = Some d -> metrics_consistent d) ->
  metrics_consistent
    (MetricsCounter.metrics (MetricsCounter._save_metrics mc now how)) /\
  forall d,
    MetricsCounter.metrics_file (MetricsCounter._save_metrics mc now how)
    = Some d ->
    metrics_consistent d.
Proof.
  intros H Hf. split; [exact H|].
  destruct how; cbn; intros d Hd.
  - injection Hd as <-. exact H.
  - apply Hf. exact Hd.
  - discriminate Hd.
Qed.

Lemma metrics_consistent_record (mc : MetricsCounter.t) now how v action h :
  metrics_consistent (MetricsCounter.metrics mc) ->
  metrics_consistent
    (MetricsCounter.metrics
       (MetricsCounter.record_request mc now how v action h)).
Proof.
  unfold metrics_consistent, MetricsCounter.record_request. cbv zeta.
  intros (Ht & Hh & Ha & Hr & He & Eb & Ea & Er & Ee).
  destruct v, h; cbn [MetricsCounter.metrics MetricsCounter._save_metrics
                       MetricsCounter.total_requests
                       MetricsCounter.blocked_requests
                       MetricsCounter.allowed_requests
                       MetricsCounter.hallucination_blocks
                       MetricsCounter.human_reviews
                       MetricsCounter.evidence_required
                       MetricsCounter.by_verdict Verdict_value] in *;
    rewrite !bump_lookup;
    repeat match goal with
           | |- context [decide (?a = ?b)] =>
               destruct (decide (a = b)) as [?|?]; try discriminate;
               try contradiction
           end;
    cbn [default] in *; unfold id in *; repeat split; lia.
Qed.

Lemma metrics_reachable_consistent (mc : MetricsCounter.t) :
  metrics_reachable mc ->
  metrics_consistent (MetricsCounter.metrics mc) /\
  forall d, MetricsCounter.metrics_file mc = Some d -> metrics_consistent d.
Proof.
  induction 1 as [|w Hw [IHm IHf]|mc now how v a h Hr [IHm IHf]
                 |mc now how Hr [IHm IHf]].
  - split; [apply metrics_consistent_empty | discriminate].
  - split; [|exact IHf].
    destruct (MetricsCounter.metrics_file w) as [d|] eqn:E; cbn.
    + apply IHf. reflexivity.
    + apply metrics_consistent_empty.
  - pose proof (metrics_consistent_record mc now how v a h IHm) as Hc.
    split; [exact Hc|]. intros d Hd.
    destruct (record_request_counts mc now how v a h)
      as (_ & _ & _ & _ & _ & _ & _ & _ & _ & _ & _ & Hfile).
    rewrite Hfile in Hd. destruct how; cbn [Disk.write] in Hd.
    + injection Hd as <-. exact Hc.
    + apply IHf. exact Hd.
    + discriminate Hd.
  - apply (metrics_consistent_saved
             (MetricsCounter.Build (MetricsCounter.metrics_file mc)
                                   MetricsCounter.empty_doc)
             now how);
      [apply metrics_consistent_empty | exact IHf].
Qed.

(** X11. In every state a metrics counter can reach (from an absent file, by
    recording requests, by resets and by reloading what is on disk, the
    writes ending in any way), in memory and in any file that can be read:
    the total is the sum of the blocked, allowed, human-review and
    evidence-required counters; the hallucination blocks are at most the
    blocked requests; and the per-verdict map holds the same four numbers. *)
Theorem metrics_counters_add_up (mc : MetricsCounter.t) :
  metrics_reachable mc ->
  metrics_consistent (MetricsCounter.metrics mc) /\
  forall d, MetricsCounter.metrics_file mc = Some d -> metrics_consistent d.
Proof. apply metrics_reachable_consistent. Qed.

Lemma metrics_counters_add_up_witness :
  metrics_consistent
    (MetricsCounter.metrics
       (MetricsCounter.record_request
          (MetricsCounter.record_request (MetricsCounter.init None)
             "2024-01-01T00:00:00Z" Disk.Written BLOCK "answer" true)
          "2024-01-01T00:00:01Z" Disk.Refused ALLOW "email" false)).
Proof.
  apply metrics_counters_add_up.
  apply metrics_record. apply metrics_record. apply metrics_fresh.
Defined.

(** X12. Every check that returns has added exactly one to the total of the
    requests, one to the count of the request's action and one to the count
    of the returned verdict, and has stamped the metrics in memory with the
    time of the update.  The file holds the document in memory when the
    write succeeds; it is as it was when the write is refused, and
    unreadable when the write is torn: the failure is swallowed, and the
    check returns all the same. *)
Theorem check_counts_one_request em sha itc pm world req resp itc' :
  FirewallInterceptor.check em sha itc pm world req = Some (resp, itc') ->
  let before := MetricsCounter.metrics (FirewallInterceptor.metrics itc) in
  let after := MetricsCounter.metrics (FirewallInterceptor.metrics itc') in
  MetricsCounter.total_requests after
  = (MetricsCounter.total_requests before + 1)%Z /\
  MetricsCounter.by_action after !! FirewallRequest.intended_action req
  = Some (default 0%Z (MetricsCounter.by_action before
                         !! FirewallRequest.intended_action req) + 1)%Z /\
  MetricsCounter.by_verdict after
    !! Verdict_value (FirewallResponse.verdict resp)
  = Some (default 0%Z (MetricsCounter.by_verdict before
                         !! Verdict_value (FirewallResponse.verdict resp)) + 1)%Z /\
  MetricsCounter.last_updated after = Some (at_metrics world) /\
  MetricsCounter.metrics_file (FirewallInterceptor.metrics itc')
  = match metrics_write world with
    | Disk.Written => Some after
    | Disk.Refused =>
        MetricsCounter.metrics_file (FirewallInterceptor.metrics itc)
    | Disk.Torn => None
    end.
Proof.
  intros Hc. destruct (check_effects _ _ _ _ _ _ _ _ Hc) as (_ & _ & -> & _).
  cbv zeta.
  destruct (record_request_counts
              (FirewallInterceptor.metrics itc) (at_metrics world)
              (metrics_write world) (FirewallResponse.verdict resp)
              (FirewallRequest.intended_action req)
              (Signals.is_hallucination pm req))
    as (Ht & Hv & _ & Ha & _ & _ & _ & _ & _ & _ & Hl & Hf).
  repeat split; assumption.
Qed.

Lemma check_counts_one_request_witness :
  match FirewallInterceptor.check true Samples.digest (Samples.fresh true)
          initial_policy_manager Samples.failing_disk Samples.apple_request with
  | Some (_, itc') =>
      MetricsCounter.total_requests
        (MetricsCounter.metrics (FirewallInterceptor.metrics itc')) = 1%Z /\
      MetricsCounter.metrics_file (FirewallInterceptor.metrics itc') = None
  | None => False
  end.
Proof.
  destruct (FirewallInterceptor.check true Samples.digest (Samples.fresh true)
              initial_policy_manager Samples.failing_disk Samples.apple_request)
    as [[resp itc']|] eqn:E.
  - destruct (check_counts_one_request _ _ _ _ _ _ _ _ E)
      as (H & _ & _ & _ & Hf).
    split; [rewrite H; reflexivity | exact Hf].
  - vm_compute in E. discriminate E.
Defined.

(** ** The rates derived from the metrics *)

Lemma inject_Z_pos (t : Z) : (0 < t)%Z -> (0 < inject_Z t)%Q.
Proof. intros H. change 0%Q with (inject_Z 0). rewrite <- Zlt_Qlt. exact H. Qed.

Lemma quotient_range (a t : Z) :
  (0 <= a <= t)%Z -> (0 < t)%Z ->
  (0 <= inject_Z a / inject_Z t)%Q /\ (inject_Z a / inject_Z t <= 1)%Q.
Proof.
  intros [Ha Hat] Ht. pose proof (inject_Z_pos t Ht) as HT. split.
  - apply Qle_shift_div_l; [exact HT|]. rewrite Qmult_0_l.
    change 0%Q with (inject_Z 0). rewrite <- Zle_Qle. exact Ha.
  - apply Qle_shift_div_r; [exact HT|]. rewrite Qmult_1_l.
    rewrite <- Zle_Qle. exact Hat.
Qed.

Lemma quotient_le (a b t : Z) :
  (a <= b)%Z -> (0 < t)%Z ->
  (inject_Z a / inject_Z t <= inject_Z b / inject_Z t)%Q.
Proof.
  intros Hab Ht. pose proof (inject_Z_pos t Ht) as HT.
  unfold Qdiv.
  apply Qmult_le_compat_r; [rewrite <- Zle_Qle; exact Hab|].
  apply Qlt_le_weak, Qinv_lt_0_compat. exact HT.
Qed.

(** A rounded quotient of counters stays a fraction, and rounding keeps the
    order of two quotients. *)
Lemma ratio_range rnd (a t : Z) :
  rounding rnd ->
  (0 <= a <= t)%Z -> (0 < t)%Z ->
  (0 <= MetricsCounter.ratio rnd a t)%Q /\
  (MetricsCounter.ratio rnd a t <= 1)%Q.
Proof.
  intros (Hmono & H0 & H1) Ha Ht.
  destruct (quotient_range a t Ha Ht) as [Hlo Hhi].
  unfold MetricsCounter.ratio. split.
  - rewrite <- H0. apply Hmono. exact Hlo.
  - rewrite <- H1. apply Hmono. exact Hhi.
Qed.

Lemma ratio_le rnd (a b t : Z) :
  rounding rnd ->
  (a <= b)%Z -> (0 < t)%Z ->
  (MetricsCounter.ratio rnd a t <= MetricsCounter.ratio rnd b t)%Q.
Proof.
  intros (Hmono & _) Hab Ht. unfold MetricsCounter.ratio.
  apply Hmono. apply quotient_le; assumption.
Qed.

Lemma rounding_exact : rounding (fun x : Q => x).
Proof. split; [intros a b H; exact H | split; reflexivity]. Qed.

(** X13. For a reachable metrics counter, [get_metrics] before any request
    reports a block rate and an allow rate of 0 and no hallucination or
    human-review rate at all; after at least one request it reports the four
    rates, each the double nearest to a quotient of two counters and each
    between 0 and 1, with the hallucination rate at most the block rate.
    This holds for every rounding of the division that is monotone and
    leaves 0 and 1 as they are. *)
Theorem derived_rates_are_fractions (rnd : Q -> Q) (mc : MetricsCounter.t) :
  rounding rnd ->
  metrics_reachable mc ->
  let m := MetricsCounter.metrics mc in
  let total := MetricsCounter.total_requests m in
  let rates := snd (MetricsCounter.get_metrics rnd mc) in
  fst (MetricsCounter.get_metrics rnd mc) = m /\
  if (total =? 0)%Z then
    rates !! "block_rate" = Some 0%Q /\ rates !! "allow_rate" = Some 0%Q /\
    rates !! "hallucination_rate" = None /\
    rates !! "human_review_rate" = None
  else
    exists b a h r,
      rates !! "block_rate" = Some b /\ rates !! "allow_rate" = Some a /\
      rates !! "hallucination_rate" = Some h /\
      rates !! "human_review_rate" = Some r /\
      b = rnd (inject_Z (MetricsCounter.blocked_requests m) / inject_Z total)%Q
      /\
      a = rnd (inject_Z (MetricsCounter.allowed_requests m) / inject_Z total)%Q
      /\
      h = rnd (inject_Z (MetricsCounter.hallucination_blocks m)
               / inject_Z total)%Q /\
      r = rnd (inject_Z (MetricsCounter.human_reviews m) / inject_Z total)%Q /\
      (0 <= h)%Q /\ (h <= b)%Q /\ (b <= 1)%Q /\
      (0 <= a)%Q /\ (a <= 1)%Q /\ (0 <= r)%Q /\ (r <= 1)%Q.
Proof.
  intros Hrnd Hr. destruct (metrics_reachable_consistent mc Hr) as [Hc _].
  destruct Hc as (Ht & Hh & Ha & Hrv & He & _).
  cbv zeta. unfold MetricsCounter.get_metrics. cbv zeta.
  destruct (Z.eqb_spec (MetricsCounter.total_requests (MetricsCounter.metrics mc)) 0)
    as [E|E]; cbn [fst snd]; (split; [reflexivity|]).
  - repeat split; vm_compute; reflexivity.
  - set (t := MetricsCounter.total_requests (MetricsCounter.metrics mc)) in *.
    assert (0 < t)%Z as Hpos by lia.
    destruct (Z.ltb_spec 0 t) as [_|Hn]; [|lia].
    exists (MetricsCounter.ratio rnd
              (MetricsCounter.blocked_requests (MetricsCounter.metrics mc)) t),
      (MetricsCounter.ratio rnd
         (MetricsCounter.allowed_requests (MetricsCounter.metrics mc)) t),
      (MetricsCounter.ratio rnd
         (MetricsCounter.hallucination_blocks (MetricsCounter.metrics mc)) t),
      (MetricsCounter.ratio rnd
         (MetricsCounter.human_reviews (MetricsCounter.metrics mc)) t).
    do 4 (split;
          [repeat (rewrite lookup_insert_ne by discriminate);
           apply lookup_insert_eq|]).
    do 4 (split; [reflexivity|]).
    split; [apply ratio_range; [exact Hrnd | lia | lia]|].
    split; [apply ratio_le; [exact Hrnd | lia | lia]|].
    split; [apply ratio_range; [exact Hrnd | lia | lia]|].
    split; [apply ratio_range; [exact Hrnd | lia | lia]|].
    split; [apply ratio_range; [exact Hrnd | lia | lia]|].
    split; apply ratio_range; try exact Hrnd; lia.
Qed.

Lemma derived_rates_are_fractions_witness :
  exists b h,
    snd (MetricsCounter.get_metrics (fun x : Q => x)
           (MetricsCounter.record_request (MetricsCounter.init None)
              "2024-01-01T00:00:00Z" Disk.Written BLOCK "answer" true))
      !! "block_rate" = Some b /\
    snd (MetricsCounter.get_metrics (fun x : Q => x)
           (MetricsCounter.record_request (MetricsCounter.init None)
              "2024-01-01T00:00:00Z" Disk.Written BLOCK "answer" true))
      !! "hallucination_rate" = Some h /\
    (0 <= h)%Q /\ (h <= b)%Q /\ (b <= 1)%Q.
Proof.
  destruct (derived_rates_are_fractions (fun x : Q => x)
              (MetricsCounter.record_request (MetricsCounter.init None)
                 "2024-01-01T00:00:00Z" Disk.Written BLOCK "answer" true)
              rounding_exact
              (metrics_record _ _ _ _ _ _ metrics_fresh))
    as [_ H].
  change (MetricsCounter.total_requests _ =? 0)%Z with false in H.
  cbv iota in H.
  destruct H as (b & a & h & r & Hb & _ & Hh & _ & _ & _ & _ & _
                 & H0 & Hhb & Hb1 & _).
  exists b, h. repeat split; assumption.
Defined.

(** ** The learning memory and its counters *)

Lemma incr_lookup (k : string) (d d' : gmap string Z) :
  LearningMemory.incr k d = Some d' ->
  exists v, d !! k = Some v /\ d' !! k = Some (v + 1)%Z /\
            forall j, j <> k -> d' !! j = d !! j.
Proof.
  unfold LearningMemory.incr. destruct (d !! k) as [v|] eqn:E; [|discriminate].
  intros [= <-]. exists v. split; [reflexivity|]. split.
  - apply lookup_insert_eq.
  - intros j Hj. apply lookup_insert_ne. congruence.
Qed.

Lemma memory_tallied_empty : memory_tallied LearningMemory.empty_doc.
Proof.
  split; [|cbn; lia].
  unfold memory_counts, LearningMemory.empty_doc. cbn.
  repeat split; vm_compute; reflexivity.
Qed.

Lemma memory_tallied_block lm now how request response lm' :
  memory_tallied (LearningMemory.memory lm) ->
  LearningMemory.record_blocked_decision lm now how request response
  = Some lm' ->
  memory_tallied (LearningMemory.memory lm') /\
  LearningMemory.memory_file lm'
  = Disk.write how (LearningMemory.memory_file lm) (LearningMemory.memory lm').
Proof.
  intros [(Hb & Ho & Hp & Hn) Hle]. unfold LearningMemory.record_blocked_decision.
  cbn [Config.LEARNING_ENABLED negb].
  destruct (LearningMemory.incr _ _) as [stats|] eqn:E; [|discriminate].
  cbn [mbind option_bind]. intros [= <-].
  destruct (incr_lookup _ _ _ E) as (v & Hv & Hv' & Hother).
  split; [|reflexivity]. split; [|exact Hle].
  unfold memory_counts. cbn. rewrite length_app. cbn.
  rewrite Hv', !Hother by discriminate.
  repeat split; try assumption.
  rewrite Hb in Hv. injection Hv as <-. f_equal. lia.
Qed.

Lemma memory_tallied_override lm now how o1 o2 reason request lm' :
  memory_tallied (LearningMemory.memory lm) ->
  LearningMemory.record_human_override lm now how o1 o2 reason request
  = Some lm' ->
  memory_tallied (LearningMemory.memory lm') /\
  LearningMemory.memory_file lm'
  = Disk.write how (LearningMemory.memory_file lm) (LearningMemory.memory lm').
Proof.
  intros [(Hb & Ho & Hp & Hn) Hle]. unfold LearningMemory.record_human_override.
  cbn [Config.LEARNING_ENABLED negb]. cbv zeta.
  destruct (LearningMemory.incr "total_overrides" _) as [stats|] eqn:E;
    [|discriminate].
  cbn [mbind option_bind].
  destruct (incr_lookup _ _ _ E) as (v & Hv & Hv' & Hother).
  rewrite Ho in Hv. injection Hv as <-.
  destruct (Verdict_eqb o1 BLOCK && Verdict_eqb o2 ALLOW)%bool;
    [|destruct (Verdict_eqb o1 ALLOW && Verdict_eqb o2 BLOCK)%bool].
  - destruct (LearningMemory.incr "false_positive_count" stats) as [stats'|] eqn:E';
      [|discriminate].
    cbn [mbind option_bind]. intros [= <-].
    destruct (incr_lookup _ _ _ E') as (w & Hw & Hw' & Hother').
    rewrite Hother, Hp in Hw by discriminate. injection Hw as <-.
    split; [|reflexivity]. split; [|cbn; rewrite !length_app; cbn; lia].
    unfold memory_counts. cbn. rewrite !length_app. cbn.
    rewrite Hw', !Hother', Hv', !Hother by discriminate.
    repeat split; try assumption; f_equal; lia.
  - destruct (LearningMemory.incr "false_negative_count" stats) as [stats'|] eqn:E';
      [|discriminate].
    cbn [mbind option_bind]. intros [= <-].
    destruct (incr_lookup _ _ _ E') as (w & Hw & Hw' & Hother').
    rewrite Hother, Hn in Hw by discriminate. injection Hw as <-.
    split; [|reflexivity]. split; [|cbn; rewrite !length_app; cbn; lia].
    unfold memory_counts. cbn. rewrite !length_app. cbn.
    rewrite Hw', !Hother', Hv', !Hother by discriminate.
    repeat split; try assumption; f_equal; lia.
  - cbn [mbind option_bind]. intros [= <-].
    split; [|reflexivity]. split; [|cbn; rewrite !length_app; cbn; lia].
    unfold memory_counts. cbn. rewrite !length_app. cbn.
    rewrite Hv', !Hother by discriminate.
    repeat split; try assumption; f_equal; lia.
Qed.

Lemma memory_reachable_tallied (lm : LearningMemory.t) :
  memory_reachable lm ->
  memory_tallied (LearningMemory.memory lm) /\
  forall d, LearningMemory.memory_file lm = Some d -> memory_tallied d.
Proof.
  induction 1 as [|w Hw [IHm IHf]|lm lm' now how rq rs Hr [IHm IHf] Hop
                 |lm lm' now how o1 o2 rsn rq Hr [IHm IHf] Hop].
  - split; [apply memory_tallied_empty | discriminate].
  - split; [|exact IHf].
    destruct (LearningMemory.memory_file w) as [d|] eqn:E; cbn.
    + apply IHf. reflexivity.
    + apply memory_tallied_empty.
  - destruct (memory_tallied_block _ _ _ _ _ _ IHm Hop) as [Ht Hfile].
    split; [exact Ht|]. intros d Hd. rewrite Hfile in Hd.
    destruct how; cbn [Disk.write] in Hd.
    + injection Hd as <-. exact Ht.
    + apply IHf. exact Hd.
    + discriminate Hd.
  - destruct (memory_tallied_override _ _ _ _ _ _ _ _ IHm Hop) as [Ht Hfile].
    split; [exact Ht|]. intros d Hd. rewrite Hfile in Hd.
    destruct how; cbn [Disk.write] in Hd.
    + injection Hd as <-. exact Ht.
    + apply IHf. exact Hd.
    + discriminate Hd.
Qed.

(** X14. In every state a learning memory can reach, in memory and in any
    file that can be read, the four counters of the statistics are the lengths of the four lists
    (blocked decisions, overrides, false positives, false negatives), and
    the false positives and false negatives together number at most the
    overrides. *)
Theorem memory_counters_match_lists (lm : LearningMemory.t) :
  memory_reachable lm ->
  (memory_counts (LearningMemory.memory lm) /\
   length (LearningMemory.false_positives (LearningMemory.memory lm))
   + length (LearningMemory.false_negatives (LearningMemory.memory lm))
   <= length (LearningMemory.human_overrides (LearningMemory.memory lm))) /\
  forall d, LearningMemory.memory_file lm = Some d -> memory_counts d.
Proof.
  intros Hr. destruct (memory_reachable_tallied lm Hr) as [Hm Hf].
  split; [exact Hm|]. intros d Hd. apply (Hf d Hd).
Qed.

Lemma memory_counters_match_lists_witness :
  memory_reachable Samples.missed_block /\
  LearningMemory.statistics (LearningMemory.memory Samples.missed_block)
    !! "total_overrides"
  = Some (Z.of_nat (length (LearningMemory.human_overrides
                              (LearningMemory.memory Samples.missed_block)))).
Proof.
  assert (memory_reachable Samples.missed_block) as Hr.
  { eapply reach_override; [apply reach_fresh | exact missed_block_recorded]. }
  split; [exact Hr|].
  destruct (memory_counters_match_lists Samples.missed_block Hr)
    as [[(_ & Ho & _ & _) _] _].
  exact Ho.
Defined.

(** ** Recording a blocked decision *)

Lemma length_text (l : list ascii) : String.length (Text.text l) = length l.
Proof. induction l as [|a l IH]; cbn; [reflexivity | f_equal; exact IH]. Qed.

Lemma text_app (l1 l2 : list ascii) :
  Text.text (l1 ++ l2)%list = Text.text l1 ++ Text.text l2.
Proof.
  unfold Text.text. induction l1 as [|a l IH]; [reflexivity|].
  cbn [app string_of_list_ascii]. rewrite IH. reflexivity.
Qed.

Lemma prefix_spec (n : nat) (s : string) :
  String.length (Text.prefix n s) = Nat.min n (String.length s) /\
  exists rest, s = Text.prefix n s ++ rest.
Proof.
  unfold Text.prefix. split.
  - rewrite length_text, length_take. unfold Text.chars.
    rewrite <- (length_text (list_ascii_of_string s)). unfold Text.text.
    rewrite string_of_list_ascii_of_string. reflexivity.
  - exists (Text.text (drop n (Text.chars s))).
    rewrite <- text_app, take_drop. unfold Text.text, Text.chars.
    symmetry. apply string_of_list_ascii_of_string.
Qed.

(** X15. [record_blocked_decision] fails (with the KeyError of the counter
    update) exactly when the statistics have no [total_blocks] entry,
    however the write would end.  Otherwise it appends one entry in memory,
    whose output preview is the first 200 characters of the request's output
    and whose verdict, risk score and failed checks are the response's, adds
    one to [total_blocks], and leaves the three override lists alone.  The
    file equals the document in memory when the write succeeds; it is as it
    was when the write is refused, and unreadable when the write is torn. *)
Theorem record_blocked_decision_outcome lm now how request response :
  (LearningMemory.record_blocked_decision lm now how request response = None
   <->
   LearningMemory.statistics (LearningMemory.memory lm) !! "total_blocks" = None)
  /\
  (forall lm',
     LearningMemory.record_blocked_decision lm now how request response
     = Some lm' ->
     exists entry,
       LearningMemory.blocked_decisions (LearningMemory.memory lm')
       = (LearningMemory.blocked_decisions (LearningMemory.memory lm)
            ++ [entry])%list /\
       String.length (BlockRecord.ai_output entry)
       = Nat.min 200 (String.length (FirewallRequest.ai_output request)) /\
       (exists rest,
          FirewallRequest.ai_output request
          = BlockRecord.ai_output entry ++ rest) /\
       BlockRecord.verdict entry
       = Verdict_value (FirewallResponse.verdict response) /\
       BlockRecord.risk_score entry = FirewallResponse.risk_score response /\
       BlockRecord.failed_checks entry
       = FirewallResponse.failed_checks response /\
       (exists n,
          LearningMemory.statistics (LearningMemory.memory lm)
            !! "total_blocks" = Some n /\
          LearningMemory.statistics (LearningMemory.memory lm')
            !! "total_blocks" = Some (n + 1)%Z) /\
       LearningMemory.human_overrides (LearningMemory.memory lm')
       = LearningMemory.human_overrides (LearningMemory.memory lm) /\
       LearningMemory.false_positives (LearningMemory.memory lm')
       = LearningMemory.false_positives (LearningMemory.memory lm) /\
       LearningMemory.false_negatives (LearningMemory.memory lm')
       = LearningMemory.false_negatives (LearningMemory.memory lm) /\
       LearningMemory.memory_file lm'
       = match how with
         | Disk.Written => Some (LearningMemory.memory lm')
         | Disk.Refused => LearningMemory.memory_file lm
         | Disk.Torn => None
         end).
Proof.
  split.
  - unfold LearningMemory.record_blocked_decision, LearningMemory.incr.
    cbn [Config.LEARNING_ENABLED negb].
    destruct (LearningMemory.statistics (LearningMemory.memory lm)
                !! "total_blocks") as [v|];
      cbn [mbind option_bind]; split; (discriminate || reflexivity).
  - intros lm' Hop.
    destruct (record_blocked_decision_effects _ _ _ _ _ _ Hop)
      as (entry & Hl & _ & Ho & _ & _ & Hv & Hr & Hf & _ & Hov & Hfp & Hfn
          & Hfile).
    exists entry. split; [exact Hl|].
    destruct (prefix_spec 200 (FirewallRequest.ai_output request)) as [Hlen Hp].
    rewrite Ho. split; [exact Hlen|]. split; [exact Hp|].
    split; [exact Hv|]. split; [exact Hr|]. split; [exact Hf|].
    split.
    { unfold LearningMemory.record_blocked_decision in Hop.
      cbn [Config.LEARNING_ENABLED negb] in Hop.
      destruct (LearningMemory.incr _ _) as [stats|] eqn:E; [|discriminate Hop].
      cbn [mbind option_bind] in Hop. injection Hop as <-.
      destruct (incr_lookup _ _ _ E) as (n & Hn & Hn' & _).
      exists n. split; [exact Hn | exact Hn']. }
    split; [exact Hov|]. split; [exact Hfp|]. split; [exact Hfn|].
    rewrite Hfile. destruct how; reflexivity.
Qed.

Lemma record_blocked_decision_outcome_witness :
  LearningMemory.record_blocked_decision
    (LearningMemory.Build None (LearningMemory.Doc [] [] [] [] ∅))
    "2024-01-01T00:00:00Z" Disk.Written Samples.unsafe_request
    (Signals.response initial_policy_manager Samples.unsafe_request)
  = None.
Proof.
  apply (record_blocked_decision_outcome
           (LearningMemory.Build None (LearningMemory.Doc [] [] [] [] ∅))).
  reflexivity.
Defined.

(** ** Reading the audit log *)

Lemma read_from_unlimited limit records lines :
  (forall l, AuditLogger.limit_reached limit l = false) ->
  AuditLogger.read_from limit records lines = (records ++ lines)%list.
Proof.
  intros H. revert records.
  induction lines as [|x l IH]; intros records; cbn.
  - rewrite app_nil_r. reflexivity.
  - rewrite H, IH, <- app_assoc. reflexivity.
Qed.

Lemma read_from_limited (n : Z) records lines :
  (0 < n)%Z -> (Z.of_nat (length records) < n)%Z ->
  AuditLogger.read_from (Some n) records lines
  = take (Z.to_nat n) (records ++ lines)%list.
Proof.
  intros Hn. revert records.
  induction lines as [|x l IH]; intros records Hlen; cbn.
  - rewrite app_nil_r, take_ge by lia. reflexivity.
  - rewrite length_app. cbn [length].
    destruct (Z.eqb_spec n 0) as [E|_]; [lia|]. cbn [negb andb].
    destruct (Z.leb_spec n (Z.of_nat (length records + 1))) as [Hr|Hr].
    + replace (records ++ x :: l)%list with ((records ++ [x]) ++ l)%list
        by (rewrite <- app_assoc; reflexivity).
      rewrite take_app_le by (rewrite length_app; cbn; lia).
      rewrite take_ge by (rewrite length_app; cbn; lia). reflexivity.
    + rewrite IH by (rewrite length_app; cbn; lia).
      rewrite <- app_assoc. reflexivity.
Qed.

(** X16. [read_logs] returns the whole log for no limit and also for the
    limit 0, the first [n] records for a positive limit [n], and only the
    first record for a negative limit. *)
Theorem read_logs_limit (self : AuditLogger.t) (limit : option Z) :
  AuditLogger.read_logs self limit
  = match limit with
    | None => AuditLogger.log_file self
    | Some n =>
        if (n =? 0)%Z then AuditLogger.log_file self
        else if (0 <? n)%Z then take (Z.to_nat n) (AuditLogger.log_file self)
        else take 1 (AuditLogger.log_file self)
    end.
Proof.
  unfold AuditLogger.read_logs. destruct limit as [n|].
  - destruct (Z.eqb_spec n 0) as [->|Hn].
    + apply read_from_unlimited. intros l. reflexivity.
    + destruct (Z.ltb_spec 0 n) as [Hp|Hp].
      * apply read_from_limited; [exact Hp | cbn; lia].
      * destruct (AuditLogger.log_file self) as [|x l]; [reflexivity|].
        cbn. destruct (Z.eqb_spec n 0) as [E|_]; [contradiction|].
        cbn [negb andb].
        destruct (Z.leb_spec n (Z.of_nat 1)) as [_|H]; [reflexivity | lia].
  - apply read_from_unlimited. intros l. reflexivity.
Qed.

(** ** What the audit log holds *)

Lemma slice_to_In {A} (k : Z) (l : list A) (x : A) :
  In x (slice_to k l) -> In x l.
Proof.
  unfold slice_to. rewrite <- !list_elem_of_In.
  destruct (0 <=? k)%Z; apply subseteq_take.
Qed.

Lemma check_audit_logger em sha itc pm world req resp itc' :
  FirewallInterceptor.check em sha itc pm world req = Some (resp, itc') ->
  FirewallInterceptor.audit_logger itc'
  = match FirewallInterceptor.audit_logger itc with
    | Some logger =>
        Some (AuditLogger.log_decision em sha logger (at_audit world)
                (audit_appended world) req (Signals.response pm req))
    | None => None
    end.
Proof.
  intros Hc. destruct (check_effects _ _ _ _ _ _ _ _ Hc) as (-> & H & _).
  exact H.
Qed.

Lemma check_audit_step em sha itc pm world req resp itc' log logger' :
  FirewallInterceptor.audit_logger itc = Some (AuditLogger.Build log) ->
  FirewallInterceptor.check em sha itc pm world req = Some (resp, itc') ->
  FirewallInterceptor.audit_logger itc' = Some logger' ->
  resp = Signals.response pm req /\
  logger'
  = AuditLogger.log_decision em sha (AuditLogger.Build log) (at_audit world)
      (audit_appended world) req resp.
Proof.
  intros Hl Hc Hl'.
  destruct (check_effects _ _ _ _ _ _ _ _ Hc) as (Hr & H & _).
  split; [exact Hr|]. rewrite Hl, Hl' in H. injection H as ->. reflexivity.
Qed.

Lemma audit_written_ok em sha log :
  audit_written em sha log -> Forall (audit_record_ok sha) log.
Proof.
  induction 1 as [|log itc pm world req resp itc' logger' Hw IH Hl Hc Hl'].
  - constructor.
  - destruct (check_audit_step _ _ _ _ _ _ _ _ _ _ Hl Hc Hl') as [-> ->].
    pose proof (log_decision_file em sha (AuditLogger.Build log)
                  (at_audit world) (audit_appended world) req
                  (Signals.response pm req)) as H.
    destruct (em && audit_appended world)%bool; [|rewrite H; exact IH].
    destruct H as (entry & -> & _ & Hh & Hn & _ & _ & _ & Hv & Hr & _).
    apply Forall_app. split; [exact IH|]. constructor; [|constructor].
    unfold audit_record_ok. rewrite Hh, Hn, Hv, Hr.
    rewrite response_risk_score, response_verdict.
    split; [unfold Signals.risk_score; apply risk_score_bounds|].
    split.
    + exists (Signals.verdict pm req). split; [reflexivity|].
      intros Hall. apply geb_false. apply verdict_allow_risk with pm.
      exact Hall.
    + exists (FirewallRequest.ai_output req). split; reflexivity.
Qed.

(** X17. In an audit log written by the interceptor's checks alone, whether
    their appends succeed or not, every record has a risk score in [0,1], one of the four verdicts, and the
    digest and length of an output; a record with the verdict ALLOW has a
    risk score below 0.6, so [query_high_risk] with a minimum risk of 0.6 or
    more (the default is 0.7) never returns an ALLOW record. *)
Theorem audit_log_records em sha log :
  audit_written em sha log ->
  Forall (audit_record_ok sha) log /\
  forall min_risk limit r,
    (6 # 10 <= min_risk)%Q ->
    In r (AuditStorage.query_high_risk
            (AuditStorage.Build (AuditLogger.Build log)) min_risk limit) ->
    AuditRecord.verdict r <> "ALLOW".
Proof.
  intros Hw. pose proof (audit_written_ok em sha log Hw) as Hok.
  split; [exact Hok|].
  intros min_risk limit r Hmin Hin.
  unfold AuditStorage.query_high_risk in Hin. cbv zeta in Hin.
  apply slice_to_In in Hin.
  unfold AuditLogger.read_logs in Hin.
  rewrite read_from_unlimited in Hin by (intros l; reflexivity).
  cbn [AuditStorage.logger AuditLogger.log_file app] in Hin.
  apply list_elem_of_In, list_elem_of_filter in Hin as [Hrisk Hr].
  rewrite Forall_forall in Hok. apply Hok in Hr.
  destruct Hr as (_ & (v & Hv & Hallow) & _).
  intros E. rewrite E in Hv.
  assert (v = ALLOW) as -> by (destruct v; cbn in Hv; congruence).
  specialize (Hallow eq_refl). apply geb_true in Hrisk. lra.
Qed.

Lemma grounded_audit_log :
  exists log, audit_written true Samples.digest log /\ length log = 1.
Proof.
  destruct (FirewallInterceptor.check true Samples.digest (Samples.fresh true)
              initial_policy_manager Samples.world Samples.grounded_request)
    as [[resp itc']|] eqn:E; [|vm_compute in E; discriminate E].
  pose proof (check_audit_logger _ _ _ _ _ _ _ _ E) as El.
  change (FirewallInterceptor.audit_logger (Samples.fresh true))
    with (Some (AuditLogger.Build [])) in El. cbv iota beta in El.
  eexists. split.
  - exact (audit_check true Samples.digest [] (Samples.fresh true) _ _ _
                       resp itc' _ (audit_empty _ _) eq_refl E El).
  - reflexivity.
Qed.

Lemma audit_log_records_witness :
  exists log,
    audit_written true Samples.digest log /\ length log = 1 /\
    Forall (audit_record_ok Samples.digest) log.
Proof.
  destruct grounded_audit_log as (log & Hw & Hlen).
  exists log. split; [exact Hw|]. split; [exact Hlen|].
  apply (audit_log_records true Samples.digest log Hw).
Defined.

(** X18. A check that returns, made by an interceptor with an audit logger,
    appends exactly one record to the log, and changes none of the earlier
    ones, when enterprise mode is on and the append succeeds; the record
    carries the time of the entry, the digest and the length of the
    request's output, the number of sources, and the verdict, risk score and
    failed checks of the returned response.  When the append fails the
    failure is swallowed: the check returns all the same and the log is as
    it was, as it is outside enterprise mode. *)
Theorem check_appends_one_audit_record
    em sha itc pm world req resp itc' log logger' :
  FirewallInterceptor.audit_logger itc = Some (AuditLogger.Build log) ->
  FirewallInterceptor.check em sha itc pm world req = Some (resp, itc') ->
  FirewallInterceptor.audit_logger itc' = Some logger' ->
  if (em && audit_appended world)%bool then
    exists entry,
      AuditLogger.log_file logger' = (log ++ [entry])%list /\
      AuditRecord.timestamp entry = at_audit world /\
      AuditRecord.ai_output_hash entry = sha (FirewallRequest.ai_output req) /\
      AuditRecord.ai_output_length entry
      = String.length (FirewallRequest.ai_output req) /\
      AuditRecord.sources_count entry
      = length (default [] (FirewallRequest.sources req)) /\
      AuditRecord.verdict entry
      = Verdict_value (FirewallResponse.verdict resp) /\
      AuditRecord.risk_score entry = FirewallResponse.risk_score resp /\
      AuditRecord.failed_checks entry = FirewallResponse.failed_checks resp
  else AuditLogger.log_file logger' = log.
Proof.
  intros Hl Hc Hl'.
  destruct (check_audit_step _ _ _ _ _ _ _ _ _ _ Hl Hc Hl') as [_ ->].
  pose proof (log_decision_file em sha (AuditLogger.Build log)
                (at_audit world) (audit_appended world) req resp) as H.
  destruct (em && audit_appended world)%bool; [|rewrite H; reflexivity].
  destruct H as (entry & Hf & Ht & Hh & Hn & _ & _ & Hs & Hv & Hr & Hfc & _).
  exists entry. split; [exact Hf|]. split; [exact Ht|]. split; [exact Hh|].
  split; [exact Hn|].
  split; [rewrite Hs; destruct (FirewallRequest.sources req); reflexivity|].
  split; [exact Hv|]. split; [exact Hr | exact Hfc].
Qed.

Lemma check_appends_one_audit_record_witness :
  match FirewallInterceptor.check true Samples.digest (Samples.fresh true)
          initial_policy_manager Samples.world Samples.grounded_request,
        FirewallInterceptor.check true Samples.digest (Samples.fresh true)
          initial_policy_manager Samples.failing_disk Samples.grounded_request
  with
  | Some (_, written), Some (_, failed) =>
      match FirewallInterceptor.audit_logger written,
            FirewallInterceptor.audit_logger failed with
      | Some logger', Some logger'' =>
          length (AuditLogger.log_file logger') = 1 /\
          AuditLogger.log_file logger'' = []
      | _, _ => False
      end
  | _, _ => False
  end.
Proof.
  destruct (FirewallInterceptor.check true Samples.digest (Samples.fresh true)
              initial_policy_manager Samples.world Samples.grounded_request)
    as [[resp itc']|] eqn:E; [|vm_compute in E; discriminate E].
  destruct (FirewallInterceptor.check true Samples.digest (Samples.fresh true)
              initial_policy_manager Samples.failing_disk
              Samples.grounded_request)
    as [[resp2 itc2]|] eqn:E2; [|vm_compute in E2; discriminate E2].
  pose proof (check_audit_logger _ _ _ _ _ _ _ _ E) as El.
  pose proof (check_audit_logger _ _ _ _ _ _ _ _ E2) as El2.
  change (FirewallInterceptor.audit_logger (Samples.fresh true))
    with (Some (AuditLogger.Build [])) in El, El2.
  cbv iota beta in El, El2. rewrite El, El2.
  pose proof (check_appends_one_audit_record
                true Samples.digest (Samples.fresh true)
                initial_policy_manager Samples.world Samples.grounded_request
                resp itc' [] _ eq_refl E El) as (entry & Hlog & _).
  pose proof (check_appends_one_audit_record
                true Samples.digest (Samples.fresh true)
                initial_policy_manager Samples.failing_disk
                Samples.grounded_request resp2 itc2 [] _ eq_refl E2 El2)
    as Hlog2.
  split; [rewrite Hlog; reflexivity | exact Hlog2].
Defined.

(** ** Statistics of the audit log *)

Lemma tally_fold (f : AuditRecord.t -> string) records init (k : string) :
  fold_left (fun counts r => AuditLogger.tally (f r) counts) records init !! k
  = let n := length (filter (fun r => f r = k) records) in
    if Nat.eqb n 0 then init !! k
    else Some (default 0%Z (init !! k) + Z.of_nat n)%Z.
Proof.
  revert init. induction records as [|r l IH]; intros init; [reflexivity|].
  cbn [fold_left]. rewrite IH, filter_cons. cbv zeta.
  unfold AuditLogger.tally. rewrite !lookup_insert.
  destruct (decide (f r = k)) as [E|E].
  - rewrite E. cbn [length Nat.eqb default]. unfold id.
    destruct (Nat.eqb_spec (length (filter (fun r0 => f r0 = k) l)) 0) as [->|_];
      f_equal; lia.
  - reflexivity.
Qed.

Lemma num_min_le (a b : Q) : (Num.min a b <= a)%Q /\ (Num.min a b <= b)%Q.
Proof.
  unfold Num.min. destruct (ltb_spec b a) as [H|H]; split; lra.
Qed.

Lemma num_max_ge (a b : Q) : (a <= Num.max a b)%Q /\ (b <= Num.max a b)%Q.
Proof.
  unfold Num.max. destruct (gtb_spec b a) as [H|H]; split; lra.
Qed.

Lemma least_below (x : Q) (l : list Q) :
  (AuditLogger.least x l <= x)%Q /\ Forall (Qle (AuditLogger.least x l)) l.
Proof.
  unfold AuditLogger.least. revert x.
  induction l as [|y l IH]; intros x; cbn [fold_left].
  - split; [lra | constructor].
  - destruct (IH (Num.min x y)) as [H1 H2].
    destruct (num_min_le x y) as [Hx Hy].
    split; [lra|]. constructor; [lra | exact H2].
Qed.

Lemma greatest_above (x : Q) (l : list Q) :
  (x <= AuditLogger.greatest x l)%Q /\
  Forall (fun y => (y <= AuditLogger.greatest x l)%Q) l.
Proof.
  unfold AuditLogger.greatest. revert x.
  induction l as [|y l IH]; intros x; cbn [fold_left].
  - split; [lra | constructor].
  - destruct (IH (Num.max x y)) as [H1 H2].
    destruct (num_max_ge x y) as [Hx Hy].
    split; [lra|]. constructor; [lra | exact H2].
Qed.

Lemma least_In (x : Q) (l : list Q) : In (AuditLogger.least x l) (x :: l).
Proof.
  unfold AuditLogger.least. revert x.
  induction l as [|y l IH]; intros x; cbn [fold_left]; [left; reflexivity|].
  destruct (IH (Num.min x y)) as [H|H].
  - rewrite <- H. unfold Num.min.
    destruct (Num.ltb y x); [right; left | left]; reflexivity.
  - right. right. exact H.
Qed.

Lemma greatest_In (x : Q) (l : list Q) :
  In (AuditLogger.greatest x l) (x :: l).
Proof.
  unfold AuditLogger.greatest. revert x.
  induction l as [|y l IH]; intros x; cbn [fold_left]; [left; reflexivity|].
  destruct (IH (Num.max x y)) as [H|H].
  - rewrite <- H. unfold Num.max.
    destruct (Num.gtb y x); [right; left | left]; reflexivity.
  - right. right. exact H.
Qed.

(** X19. [get_stats] counts every record of the log once: the number of
    decisions is the length of the log, and the per-verdict and per-action
    maps hold, for each key, the number of records with that verdict or
    action (and no entry for a key that never occurs).  For a non-empty log
    the reported minimum and maximum are risk scores of the log, with every
    risk score of the log between them, and the average is the float sum of
    the scores divided by their number and rounded; for an empty log the
    average is 0 and there is no minimum and no maximum.  This holds
    whatever the float sum and the rounding of the division are. *)
Theorem audit_statistics (fsum : list Q -> Q) (rnd : Q -> Q)
    (self : AuditLogger.t) :
  let s := AuditLogger.get_stats fsum rnd self in
  let log := AuditLogger.log_file self in
  let scores := map AuditRecord.risk_score log in
  AuditLogger.total_decisions s = length log /\
  (forall v,
     AuditLogger.by_verdict s !! v
     = let n := length (filter (fun r => AuditRecord.verdict r = v) log) in
       if Nat.eqb n 0 then None else Some (Z.of_nat n)) /\
  (forall a,
     AuditLogger.by_action s !! a
     = let n := length (filter (fun r => AuditRecord.intended_action r = a) log) in
       if Nat.eqb n 0 then None else Some (Z.of_nat n)) /\
  match log with
  | [] => AuditLogger.avg_risk_score s = 0%Q /\
          AuditLogger.min_risk_score s = None /\
          AuditLogger.max_risk_score s = None
  | _ :: _ =>
      exists lo hi,
        AuditLogger.min_risk_score s = Some lo /\
        AuditLogger.max_risk_score s = Some hi /\
        In lo scores /\ In hi scores /\
        Forall (fun x => (lo <= x)%Q /\ (x <= hi)%Q) scores /\
        AuditLogger.avg_risk_score s
        = rnd (fsum scores / inject_Z (Z.of_nat (length scores)))%Q
  end.
Proof.
  cbv zeta. unfold AuditLogger.get_stats, AuditLogger.read_logs.
  rewrite read_from_unlimited by (intros l; reflexivity). cbn [app].
  destruct (AuditLogger.log_file self) as [|r log] eqn:E; cbv zeta.
  - cbn. repeat split; intros; apply lookup_empty.
  - cbn [map]. cbn [AuditLogger.total_decisions AuditLogger.by_verdict
                     AuditLogger.by_action AuditLogger.avg_risk_score
                     AuditLogger.min_risk_score AuditLogger.max_risk_score].
    split; [reflexivity|].
    split; [intros v; rewrite tally_fold, lookup_empty; cbv zeta; cbn [default];
            destruct (Nat.eqb _ 0); [reflexivity | f_equal; lia]|].
    split; [intros a; rewrite tally_fold, lookup_empty; cbv zeta; cbn [default];
            destruct (Nat.eqb _ 0); [reflexivity | f_equal; lia]|].
    set (x := AuditRecord.risk_score r).
    set (l := map AuditRecord.risk_score log).
    destruct (least_below x l) as [Hlx Hl].
    destruct (greatest_above x l) as [Hgx Hg].
    exists (AuditLogger.least x l), (AuditLogger.greatest x l).
    split; [reflexivity|]. split; [reflexivity|].
    split; [apply least_In|]. split; [apply greatest_In|].
    split; [|reflexivity].
    constructor; [split; assumption|].
    rewrite Forall_forall in Hl, Hg. apply Forall_forall.
    intros y Hy. split; [apply Hl | apply Hg]; exact Hy.
Qed.

(** ** The adaptive thresholds *)

Lemma statistics_of_shape (lm : LearningMemory.t) :
  stats_shape (LearningMemory.memory lm) ->
  exists stats,
    LearningMemory.get_statistics lm = Some stats /\
    stats !! "false_negative_rate" = Some 0%Q.
Proof.
  intros (Ha & [tb Hb] & _ & [fp Hp] & _).
  unfold LearningMemory.get_statistics.
  rewrite (false_negative_rate_zero lm Ha).
  unfold LearningMemory.get_false_positive_rate. rewrite Hb.
  cbn [mbind option_bind]. rewrite Hp.
  destruct (tb =? 0)%Z; cbn [mbind option_bind];
    (eexists; split; [reflexivity|]);
    rewrite lookup_insert_ne by discriminate;
    rewrite lookup_insert_ne by discriminate;
    apply lookup_insert_eq.
Qed.

(** X20. For every reachable learning memory, [get_adaptive_thresholds]
    returns; the false-negative rate it reads is 0, so it never tightens:
    the confidence threshold is the base 0.6 or the relaxed 0.65, never
    the tightened 0.55, and the medium risk threshold always equals it. *)
Theorem thresholds_never_tighten (lm : LearningMemory.t) :
  memory_reachable lm ->
  exists th,
    PolicyUpdater.get_adaptive_thresholds (PolicyUpdater.init lm) = Some th /\
    (PolicyUpdater.confidence_threshold th == 6 # 10 \/
     PolicyUpdater.confidence_threshold th == 65 # 100)%Q
    /\ PolicyUpdater.risk_threshold_medium th
       = PolicyUpdater.confidence_threshold th.
Proof.
  intros Hr. destruct (reachable_shape lm Hr) as [Hm _].
  destruct (statistics_of_shape lm Hm) as (stats & Hs & Hfn).
  unfold PolicyUpdater.get_adaptive_thresholds.
  cbn [Config.ADAPTIVE_STRICTNESS negb PolicyUpdater.init PolicyUpdater.memory
         PolicyUpdater.base_confidence_threshold
         PolicyUpdater.base_risk_threshold].
  rewrite Hs. cbn [mbind option_bind]. cbv zeta. rewrite Hfn.
  cbn [default]. unfold id.
  assert (Num.gtb 0 (1 # 10) = false) as -> by reflexivity.
  rewrite andb_false_r.
  unfold Config.CONFIDENCE_THRESHOLD_EVIDENCE_REQUIRED,
    Config.RISK_THRESHOLD_MEDIUM.
  destruct (_ && _)%bool; eexists; (split; [reflexivity|]);
    cbn [PolicyUpdater.confidence_threshold PolicyUpdater.risk_threshold_medium];
    (split; [|reflexivity]); [right | left]; reflexivity.
Qed.

Lemma missed_blocks_reachable (n : nat) : memory_reachable (missed_blocks n).
Proof.
  induction n as [|n IH]; [apply reach_fresh|].
  change (missed_blocks (S n))
    with (default (missed_blocks n)
            (LearningMemory.record_human_override (missed_blocks n)
               "2024-01-01T00:00:00Z" Disk.Written ALLOW BLOCK
               "harmful answer was allowed" None)).
  destruct (LearningMemory.record_human_override (missed_blocks n)
              "2024-01-01T00:00:00Z" Disk.Written ALLOW BLOCK
              "harmful answer was allowed" None) as [lm'|] eqn:E.
  - cbn [default]. unfold id. eapply reach_override; [exact IH | exact E].
  - exact IH.
Qed.

Lemma thresholds_never_tighten_witness :
  exists th,
    PolicyUpdater.get_adaptive_thresholds (PolicyUpdater.init (missed_blocks 5))
    = Some th /\
    PolicyUpdater.confidence_threshold th = 6 # 10 /\
    PolicyUpdater.adjustment_reason th
    = Some "Tightening due to 5 false negatives".
Proof.
  destruct (thresholds_never_tighten (missed_blocks 5)
              (missed_blocks_reachable 5)) as (th & Hth & _).
  exists th. split; [exact Hth|].
  vm_compute in Hth. injection Hth as <-. split; reflexivity.
Defined.

(** ** The SDK client *)

Lemma make_some out c action srcs :
  (0 <= c)%Q -> (c <= 1)%Q -> In (Text.lower action) valid_actions ->
  FirewallRequest.make out c action srcs
  = Some (FirewallRequest.Build out c (Text.lower action) srcs).
Proof.
  intros H0 H1 Ha. unfold FirewallRequest.make, FirewallRequest.validate_action.
  apply geb_true in H0. apply Qle_bool_iff in H1. apply str_in_In in Ha.
  unfold Num.leb. rewrite H0, H1, Ha. reflexivity.
Qed.

Lemma make_none_confidence out c action srcs :
  ~ ((0 <= c)%Q /\ (c <= 1)%Q) -> FirewallRequest.make out c action srcs = None.
Proof.
  intros H. unfold FirewallRequest.make.
  destruct (Num.geb c 0 && Num.leb c 1)%bool eqn:E; [|reflexivity].
  exfalso. apply H. apply andb_true_iff in E as [E0 E1].
  split; [apply geb_true; exact E0 | apply Qle_bool_iff; exact E1].
Qed.

(** X21. Through the SDK, an action that is trade or execute_code up to
    letter case is never allowed, under any policy mode and from any
    interceptor state: [is_allowed] returns False when the confidence lies
    in [0,1] and fails with the validation error otherwise; it never fails
    on the learning memory. *)
Theorem sdk_never_allows_high_impact
    em sha self mode world out c action srcs :
  In (Text.lower action) ["trade"; "execute_code"] ->
  match FirewallClient.is_allowed em sha self (PolicyManager.init mode) world
          out c action srcs with
  | Returned (allowed, _) =>
      allowed = false /\ (0 <= c)%Q /\ (c <= 1)%Q
  | ValidationError => ~ ((0 <= c)%Q /\ (c <= 1)%Q)
  | KeyError => False
  end.
Proof.
  intros Ha. unfold FirewallClient.is_allowed, FirewallClient.check.
  destruct (Qlt_le_dec c 0) as [Hneg|H0].
  { rewrite make_none_confidence by (intros [H _]; lra). intros [H _]. lra. }
  destruct (Qlt_le_dec 1 c) as [Hbig|H1].
  { rewrite make_none_confidence by (intros [_ H]; lra). intros [_ H]. lra. }
  rewrite make_some; try assumption;
    [|destruct Ha as [<-|[<-|[]]]; cbn; auto].
  set (req := FirewallRequest.Build out c (Text.lower action)
                (Some (FirewallClient.or_empty srcs))).
  assert (fst (Signals.governance (PolicyManager.init mode) req) = true) as Hg.
  { apply mandatory_high_impact. exact Ha. }
  destruct (verdict_governance _ _ Hg) as [Hv _].
  destruct (check_not_block em sha (FirewallClient.interceptor self)
              (PolicyManager.init mode) world req) as (itc' & Hc & _).
  { rewrite Hv. discriminate. }
  rewrite Hc, response_verdict, Hv. repeat split; assumption.
Qed.

Lemma sdk_never_allows_high_impact_witness :
  match FirewallClient.is_allowed true Samples.digest
          (FirewallClient.Build (Samples.fresh true))
          (PolicyManager.init GENERAL_AI) Samples.world
          "Buy 5000 shares of TSLA" (99 # 100) "TRADE"
          (Some ["https://example.com/analysis"]) with
  | Returned (allowed, _) => allowed = false
  | _ => False
  end.
Proof.
  pose proof (sdk_never_allows_high_impact true Samples.digest
                (FirewallClient.Build (Samples.fresh true)) GENERAL_AI
                Samples.world "Buy 5000 shares of TSLA" (99 # 100) "TRADE"
                (Some ["https://example.com/analysis"])) as H.
  destruct (FirewallClient.is_allowed _ _ _ _ _ _ _ _ _) as [[allowed self']| |].
  - apply H. left. reflexivity.
  - apply H; [left; reflexivity|]. split; vm_compute; discriminate.
  - apply H. left. reflexivity.
Defined.

(** ** Request validation *)

Lemma lower_valid_action (a : string) :
  In a valid_actions -> Text.lower a = a.
Proof. intros [<-|[<-|[<-|[<-|[]]]]]; reflexivity. Qed.

(** X22. The request constructor accepts exactly a confidence in [0,1]
    with an action that is one of the four tokens up to letter case, and
    stores the lower-cased action; validating the stored fields again gives
    the same request. *)
Theorem request_validation out c action srcs (r : FirewallRequest.t) :
  (FirewallRequest.make out c action srcs = Some r <->
   (0 <= c)%Q /\ (c <= 1)%Q /\ In (Text.lower action) valid_actions /\
   r = FirewallRequest.Build out c (Text.lower action) srcs) /\
  (FirewallRequest.make out c action srcs = Some r ->
   FirewallRequest.make (FirewallRequest.ai_output r)
     (FirewallRequest.confidence r) (FirewallRequest.intended_action r)
     (FirewallRequest.sources r) = Some r).
Proof.
  assert (FirewallRequest.make out c action srcs = Some r ->
          (0 <= c)%Q /\ (c <= 1)%Q /\ In (Text.lower action) valid_actions /\
          r = FirewallRequest.Build out c (Text.lower action) srcs) as Hfwd.
  { intros H. pose proof (make_valid _ _ _ _ _ H) as (H0 & H1 & Ha).
    unfold FirewallRequest.make, FirewallRequest.validate_action in H.
    destruct (Num.geb c 0 && Num.leb c 1)%bool; [|discriminate H].
    destruct (str_in (Text.lower action) valid_actions); [|discriminate H].
    injection H as <-. cbn in H0, H1, Ha. auto. }
  split; [split; [exact Hfwd|]|].
  - intros (H0 & H1 & Ha & ->). apply make_some; assumption.
  - intros H. destruct (Hfwd H) as (H0 & H1 & Ha & ->).
    cbn [FirewallRequest.ai_output FirewallRequest.confidence
           FirewallRequest.intended_action FirewallRequest.sources].
    rewrite make_some; try assumption.
    + rewrite (lower_valid_action _ Ha). reflexivity.
    + rewrite (lower_valid_action _ Ha). exact Ha.
Qed.

Lemma request_validation_witness :
  FirewallRequest.make "Buy 5000 shares of TSLA" (99 # 100) "Trade" None
  = Some (FirewallRequest.Build "Buy 5000 shares of TSLA" (99 # 100) "trade" None).
Proof.
  apply (request_validation "Buy 5000 shares of TSLA" (99 # 100) "Trade" None).
  repeat split; try (vm_compute; discriminate).
  right. right. left. reflexivity.
Defined.

(** ** Source quality *)

Lemma blank_source_short (s : string) :
  (negb (Text.truthy s) || negb (Text.truthy (Text.strip s)))%bool = true ->
  String.length (Text.strip s) = 0.
Proof.
  destruct s as [|a s]; [reflexivity|].
  cbn [Text.truthy negb orb].
  destruct (Text.strip (String a s)); [reflexivity | discriminate].
Qed.

Lemma too_short_nil (sources : list string) :
  EvidenceChecker.too_short sources = [] <->
  Forall (fun s => 5 <= String.length (Text.strip s)) sources.
Proof.
  unfold EvidenceChecker.too_short.
  induction sources as [|s l IH]; [split; [constructor | reflexivity]|].
  rewrite filter_cons.
  destruct (decide _) as [H|H].
  - split; [discriminate|]. intros HF. inversion HF as [|? ? Hs _]; subst.
    apply Nat.ltb_lt in H. lia.
  - rewrite IH. split.
    + intros HF. constructor; [|exact HF].
      apply not_true_is_false, Nat.ltb_ge in H. exact H.
    + intros HF. inversion HF; assumption.
Qed.

Lemma empty_count_zero (sources : list string) :
  Forall (fun s => 5 <= String.length (Text.strip s)) sources ->
  EvidenceChecker.empty_count sources = 0.
Proof.
  unfold EvidenceChecker.empty_count.
  induction 1 as [|s l Hs _ IH]; [reflexivity|].
  rewrite filter_cons. destruct (decide _) as [H|H]; [|exact IH].
  apply blank_source_short in H. lia.
Qed.

Lemma long_sources_valid (sources : list string) :
  Forall (fun s => 5 <= String.length (Text.strip s)) sources ->
  EvidenceChecker.valid_sources sources = sources.
Proof.
  unfold EvidenceChecker.valid_sources.
  induction 1 as [|s l Hs _ IH]; [reflexivity|].
  rewrite filter_cons, IH. destruct (decide _) as [H|H]; [reflexivity|].
  exfalso. apply H. destruct s as [|a s]; [cbn in Hs; lia|].
  cbn [Text.truthy andb].
  destruct (Text.strip (String a s)); [cbn in Hs; lia | reflexivity].
Qed.

(** X23. [validate_source_quality] accepts a list exactly when every source
    has at least five characters once stripped; the separate count of empty
    sources only changes the message.  An accepted list passes the filter of
    [check_evidence] unchanged. *)
Theorem source_quality_decision (sources : list string) :
  (fst (EvidenceChecker.validate_source_quality sources) = true <->
   Forall (fun s => 5 <= String.length (Text.strip s)) sources) /\
  (fst (EvidenceChecker.validate_source_quality sources) = true ->
   EvidenceChecker.valid_sources sources = sources).
Proof.
  assert (fst (EvidenceChecker.validate_source_quality sources) = true <->
          Forall (fun s => 5 <= String.length (Text.strip s)) sources) as Hiff.
  { unfold EvidenceChecker.validate_source_quality.
    destruct sources as [|s0 l0] eqn:Es; [split; [constructor | reflexivity]|].
    rewrite <- Es. clear Es.
    destruct (Nat.ltb 0 (EvidenceChecker.empty_count sources)) eqn:Ee.
    - split; [discriminate|]. intros HF.
      apply empty_count_zero in HF. rewrite HF in Ee. discriminate Ee.
    - rewrite <- too_short_nil.
      destruct (EvidenceChecker.too_short sources);
        split; (reflexivity || discriminate). }
  split; [exact Hiff|].
  intros H. apply long_sources_valid, Hiff, H.
Qed.

Lemma source_quality_decision_witness :
  fst (EvidenceChecker.validate_source_quality
         ["https://example.com/analysis"; "  abc  "]) = false /\
  fst (EvidenceChecker.validate_source_quality
         ["https://example.com/analysis"; " reuters "]) = true.
Proof.
  split.
  - destruct (fst (EvidenceChecker.validate_source_quality
                     ["https://example.com/analysis"; "  abc  "])) eqn:E;
      [|reflexivity].
    destruct (source_quality_decision
                ["https://example.com/analysis"; "  abc  "]) as [[H _] _].
    apply H in E.
    inversion E as [|? ? _ E']. inversion E' as [|? ? Hs _].
    vm_compute in Hs. exfalso. lia.
  - destruct (source_quality_decision
                ["https://example.com/analysis"; " reuters "]) as [[_ H] _].
    apply H. repeat constructor; vm_compute; lia.
Defined.

(** ** The details of a response *)

Lemma risk_levels_agree (risk : Q) :
  VerdictEngine._get_risk_level risk = RiskScorer.get_risk_level risk.
Proof. reflexivity. Qed.

Lemma risk_level_below_medium (risk : Q) :
  (risk < 6 # 10)%Q <->
  VerdictEngine._get_risk_level risk = "low" \/
  VerdictEngine._get_risk_level risk = "medium".
Proof.
  unfold VerdictEngine._get_risk_level, VerdictEngine.risk_low,
    VerdictEngine.risk_medium, VerdictEngine.risk_high,
    Config.RISK_THRESHOLD_LOW, Config.RISK_THRESHOLD_MEDIUM,
    Config.RISK_THRESHOLD_HIGH.
  destruct (ltb_spec risk (3 # 10)); [split; [auto | lra]|].
  destruct (ltb_spec risk (6 # 10)); [split; [auto | lra]|].
  destruct (ltb_spec risk (8 # 10));
    (split; [lra | intros [H|H]; discriminate H]).
Qed.

Lemma response_details pm req :
  FirewallResponse.details (Signals.response pm req)
  = VerdictEngine.build_details
      (Signals.claims req) (Signals.risk_score req)
      (Signals.evidence_passed req) (Signals.rules_passed req)
      (Signals.confidence_aligned req)
      [ CheckResult.Build "confidence_alignment" (Signals.confidence_aligned req)
          (snd (ConfidenceChecker.validate_confidence_alignment
                  (FirewallRequest.confidence req) (Signals.claims req)));
        CheckResult.Build "evidence" (Signals.evidence_passed req)
          (snd (fst (EvidenceChecker.check_evidence
                       (Signals.claims req) (FirewallRequest.sources req))));
        CheckResult.Build "rules" (Signals.rules_passed req)
          (snd (fst (RulesEngine.check_rules
                       (Signals.claims req) (FirewallRequest.ai_output req)
                       (FirewallRequest.intended_action req)))) ]
      (match FirewallRequest.sources req with Some l => l | None => [] end).
Proof.
  unfold Signals.response.
  destruct (Signals.verdict_tuple pm req) as [[[[v vr] ex] ap] er]. reflexivity.
Qed.

(** X24. The details of a returned response agree with its top-level
    fields: they carry the same risk score, which lies in [0,1]; the risk
    level is the one [RiskScorer.get_risk_level] gives and is low or medium
    exactly when the score is below 0.6, so always for an ALLOW; the
    evidence and the rules flags read FAIL exactly when [failed_checks]
    names the check; and the factual claims are counted among the claims. *)
Theorem response_details_agree em sha itc pm world req resp itc' :
  FirewallInterceptor.check em sha itc pm world req = Some (resp, itc') ->
  let d := FirewallResponse.details resp in
  Details.risk_score d = FirewallResponse.risk_score resp /\
  (0 <= FirewallResponse.risk_score resp)%Q /\
  (FirewallResponse.risk_score resp <= 1)%Q /\
  Details.risk_level d
  = RiskScorer.get_risk_level (FirewallResponse.risk_score resp) /\
  ((FirewallResponse.risk_score resp < 6 # 10)%Q <->
   Details.risk_level d = "low" \/ Details.risk_level d = "medium") /\
  (FirewallResponse.verdict resp = ALLOW ->
   Details.risk_level d = "low" \/ Details.risk_level d = "medium") /\
  (In ("evidence", (false, "FAIL")) (Details.checks d) <->
   In "evidence" (FirewallResponse.failed_checks resp)) /\
  (In ("rules", (false, "FAIL")) (Details.checks d) <->
   In "rules" (FirewallResponse.failed_checks resp)) /\
  Details.claim_count d = length (Details.claims d) /\
  Details.factual_claim_count d <= Details.claim_count d.
Proof.
  intros Hc. apply check_response in Hc. subst resp. cbv zeta.
  rewrite response_details, response_risk_score, response_verdict,
    response_failed_checks.
  unfold VerdictEngine.build_details.
  cbn [Details.risk_score Details.risk_level Details.checks Details.claims
         Details.claim_count Details.factual_claim_count].
  split; [reflexivity|].
  split; [unfold Signals.risk_score; apply risk_score_bounds|].
  split; [unfold Signals.risk_score; apply risk_score_bounds|].
  split; [apply risk_levels_agree|].
  split; [apply risk_level_below_medium|].
  split.
  { intros Hv. apply risk_level_below_medium.
    apply geb_false. exact (verdict_allow_risk pm req Hv). }
  split.
  { unfold Signals.failed_checks, VerdictEngine.pass_fail.
    destruct (Signals.evidence_passed req), (Signals.rules_passed req),
      (Signals.confidence_aligned req), (fst (Signals.high_impact req)),
      (fst (Signals.governance pm req)); cbn;
      (split; intros H;
       repeat (destruct H as [H|H]; try discriminate H);
       try contradiction; auto 6). }
  split.
  { unfold Signals.failed_checks, VerdictEngine.pass_fail.
    destruct (Signals.evidence_passed req), (Signals.rules_passed req),
      (Signals.confidence_aligned req), (fst (Signals.high_impact req)),
      (fst (Signals.governance pm req)); cbn;
      (split; intros H;
       repeat (destruct H as [H|H]; try discriminate H);
       try contradiction; auto 6). }
  split; [reflexivity|].
  unfold factual_count. apply length_filter.
Qed.

Lemma response_details_agree_witness :
  exists resp itc',
    FirewallInterceptor.check true Samples.digest (Samples.fresh true)
      (PolicyManager.init GENERAL_AI) Samples.world Samples.grounded_request
    = Some (resp, itc') /\
    Details.risk_level (FirewallResponse.details resp) = "low" /\
    Details.risk_score (FirewallResponse.details resp)
    = FirewallResponse.risk_score resp.
Proof.
  destruct (check_returns true Samples.digest (Samples.fresh true)
              (PolicyManager.init GENERAL_AI) Samples.world
              Samples.grounded_request (fresh_memory_ready true))
    as (itc' & Hc).
  exists (Signals.response (PolicyManager.init GENERAL_AI)
            Samples.grounded_request), itc'.
  split; [exact Hc|].
  destruct (response_details_agree _ _ _ _ _ _ _ _ Hc)
    as (Hs & _ & _ & Hl & _).
  split; [|exact Hs].
  rewrite Hl, response_risk_score. vm_compute. reflexivity.
Defined.

(** ** The queries of the audit storage *)



Lemma slice_to_all {A} (k : Z) (l : list A) :
  (Z.of_nat (length l) <= k)%Z -> slice_to k l = l.
Proof.
  intros Hk. unfold slice_to. destruct (Z.leb_spec 0 k); [|lia].
  apply take_ge. lia.
Qed.

Lemma read_logs_all (self : AuditLogger.t) :
  AuditLogger.read_logs self None = AuditLogger.log_file self.
Proof.
  unfold AuditLogger.read_logs.
  rewrite read_from_unlimited by (intros l; reflexivity). reflexivity.
Qed.



Lemma verdict_counts (log : list AuditRecord.t) :
  Forall (fun r => exists v, AuditRecord.verdict r = Verdict_value v) log ->
  length (filter (fun r => AuditRecord.verdict r = "ALLOW") log)
  + length (filter (fun r => AuditRecord.verdict r = "BLOCK") log)
  + length (filter (fun r => AuditRecord.verdict r = "REQUIRE_EVIDENCE") log)
  + length (filter (fun r => AuditRecord.verdict r = "REQUIRE_HUMAN_REVIEW") log)
  = length log.
Proof.
  induction 1 as [|r l [v Hv] _ IH]; [reflexivity|].
  rewrite !filter_cons, Hv.
  destruct v; cbn [Verdict_value];
    repeat match goal with
           | |- context [decide (?a = ?b)] =>
               destruct (decide (a = b)) as [?|?];
               [try discriminate | try contradiction]
           end;
    cbn [length]; lia.
Qed.

(** X26. In an audit log written by the interceptor's checks, the four
    queries by verdict, asked with a limit of at least the length of the
    log, share the records out: their results have together as many records
    as the log, and a record of the log is in the result for a verdict
    exactly when it carries that verdict. *)
Theorem verdict_queries_partition_log em sha log (limit : Z) :
  audit_written em sha log ->
  (Z.of_nat (length log) <= limit)%Z ->
  let q v :=
    AuditStorage.query_by_verdict
      (AuditStorage.Build (AuditLogger.Build log)) (Verdict_value v) limit in
  length (q ALLOW) + length (q BLOCK) + length (q REQUIRE_EVIDENCE)
  + length (q REQUIRE_HUMAN_REVIEW) = length log /\
  forall v r,
    In r (q v) <-> In r log /\ AuditRecord.verdict r = Verdict_value v.
Proof.
  intros Hw Hk. cbv beta zeta.
  assert (forall v,
            AuditStorage.query_by_verdict
              (AuditStorage.Build (AuditLogger.Build log)) (Verdict_value v)
              limit
            = filter (fun r => AuditRecord.verdict r = Verdict_value v) log)
    as Hq.
  { intros v. unfold AuditStorage.query_by_verdict. cbv zeta.
    rewrite read_logs_all. cbn [AuditStorage.logger AuditLogger.log_file].
    apply slice_to_all.
    pose proof (length_filter
                  (fun r => AuditRecord.verdict r = Verdict_value v) log).
    lia. }
  rewrite !Hq. split.
  - apply verdict_counts.
    eapply Forall_impl; [exact (audit_written_ok em sha log Hw)|].
    intros r (_ & (v & Hv & _) & _). exists v. exact Hv.
  - intros v r. rewrite Hq, <- !list_elem_of_In, list_elem_of_filter. tauto.
Qed.

Lemma verdict_queries_partition_log_witness :
  exists log,
    audit_written true Samples.digest log /\ length log = 1 /\
    length (AuditStorage.query_by_verdict
              (AuditStorage.Build (AuditLogger.Build log)) "ALLOW" 100)
    + length (AuditStorage.query_by_verdict
                (AuditStorage.Build (AuditLogger.Build log)) "BLOCK" 100)
    + length (AuditStorage.query_by_verdict
                (AuditStorage.Build (AuditLogger.Build log))
                "REQUIRE_EVIDENCE" 100)
    + length (AuditStorage.query_by_verdict
                (AuditStorage.Build (AuditLogger.Build log))
                "REQUIRE_HUMAN_REVIEW" 100) = 1.
Proof.
  destruct grounded_audit_log as (log & Hw & Hlen).
  exists log. split; [exact Hw|]. split; [exact Hlen|].
  destruct (verdict_queries_partition_log true Samples.digest log 100 Hw)
    as [Hsum _]; [rewrite Hlen; discriminate|].
  cbv beta zeta in Hsum. cbn [Verdict_value] in Hsum.
  rewrite Hsum. exact Hlen.
Defined.
